(** * COVID-19 Global Data Tracker: a shallow embedding of [index.py]

    The notebook is one linear script over one pandas table.  The embedding
    follows it cell by cell:

    - binary64 values are [spec_float]s of the Standard Library
      ([prec = 53], [emax = 1024]); a missing observation is the NaN that
      [read_csv] puts in a numeric column;
    - a [DataFrame] is column oriented, as in pandas: an index of row labels
      and named, typed columns of equal length;
    - Python exceptions are the [Raise] case of a result type;
    - the cells of the notebook are transformers of the interpreter state
      (the bindings of [df] and [latest_data], and what was printed).

    Input domain.  The file is the OWID export: [location] is a column of
    strings and [date] a column of ISO dates, both always present in a row;
    every other field the notebook uses is numeric and may be missing.  An
    operation applied to a column of another dtype than the one it is used
    on in the notebook is a [TypeError] here.

    Left out.  The chart cells of lines 89-198 only read the two tables and
    hand them to the plotting library; of these the embedding keeps the
    statements that bind [latest_data] and the tables given to the trend
    charts.  How numbers are formatted when printed is not modelled. *)

From Stdlib Require Import ZArith List String Ascii Bool Lia.
From Stdlib Require Import Sorting.Sorted Sorting.Permutation.
From Stdlib Require Import Floats.SpecFloat.
Import ListNotations.

Local Open Scope string_scope.
Local Open Scope Z_scope.

(** ** binary64 arithmetic, as numpy performs it on a float64 column *)

Definition float64 : Type := spec_float.

Definition prec : Z := 53.
Definition emax : Z := 1024.

Definition nan : float64 := S754_nan.
Definition inf : float64 := S754_infinity false.
Definition neg_inf : float64 := S754_infinity true.

(** The float64 an integer literal denotes. *)
Definition of_Z (z : Z) : float64 := binary_normalize prec emax z 0 false.

Definition truediv (x y : float64) : float64 := SFdiv prec emax x y.
Definition mul (x y : float64) : float64 := SFmul prec emax x y.
Definition add (x y : float64) : float64 := SFadd prec emax x y.

(** [x > y]; false as soon as one side is NaN. *)
Definition gt (x y : float64) : bool := SFltb y x.

Definition isna (x : float64) : bool :=
  match x with S754_nan => true | _ => false end.

Definition is_zero (x : float64) : bool :=
  match x with S754_zero _ => true | _ => false end.

Definition is_inf (x : float64) : bool :=
  match x with S754_infinity _ => true | _ => false end.

(** Sign bit of a value that has one. *)
Definition signbit (x : float64) : bool :=
  match x with
  | S754_zero s | S754_infinity s | S754_finite s _ _ => s
  | S754_nan => false
  end.

(** ** Python exceptions *)

Inductive exn : Type :=
| FileNotFoundError
| NameError (name : string)
| KeyError (key : string)
| TypeError
| ValueError.

Inductive result (A : Type) : Type :=
| Ok (a : A)
| Raise (e : exn).

Arguments Ok {A} a.
Arguments Raise {A} e.

Definition bind {A B : Type} (c : result A) (k : A -> result B) : result B :=
  match c with
  | Ok a => k a
  | Raise e => Raise e
  end.

Notation "x <- c ;; k" := (bind c (fun x => k))
  (at level 61, c at next level, right associativity).

Fixpoint mapM {A B : Type} (f : A -> result B) (l : list A) : result (list B) :=
  match l with
  | [] => Ok []
  | a :: r => b <- f a ;; bs <- mapM f r ;; Ok (b :: bs)
  end.

(** ** Calendar dates

    [to_datetime] turns the [date] field into a timestamp at midnight; the
    embedding keeps the day number (days since 1970-01-01), which is what
    comparison, [max], [min] and [(a - b).days] see. *)

Definition days_from_civil (y m d : Z) : Z :=
  let y' := if m <=? 2 then y - 1 else y in
  let era := y' / 400 in
  let yoe := y' - era * 400 in
  let mp := if m >? 2 then m - 3 else m + 9 in
  let doy := (153 * mp + 2) / 5 + d - 1 in
  let doe := yoe * 365 + yoe / 4 - yoe / 100 + doy in
  era * 146097 + doe - 719468.

Definition is_leap (y : Z) : bool :=
  ((y mod 4 =? 0) && negb (y mod 100 =? 0)) || (y mod 400 =? 0).

Definition days_in_month (y m : Z) : Z :=
  if m =? 2 then (if is_leap y then 29 else 28)
  else if (m =? 4) || (m =? 6) || (m =? 9) || (m =? 11) then 30
  else 31.

Definition digit (c : ascii) : option Z :=
  let n := Z.of_N (N_of_ascii c) in
  if (48 <=? n) && (n <=? 57) then Some (n - 48) else None.

Definition number (cs : list ascii) : option Z :=
  fold_left
    (fun acc c =>
       match acc, digit c with
       | Some n, Some k => Some (10 * n + k)
       | _, _ => None
       end)
    cs (Some 0).

(** The days a [datetime64[ns]] timestamp can hold at midnight, counted
    from 1970-01-01: 1677-09-22 to 2262-04-11.  The 64-bit count of
    nanoseconds does not reach further. *)
Definition in_bounds (day : Z) : bool :=
  (-106751 <=? day) && (day <=? 106751).

(** The ISO spelling [YYYY-MM-DD] that the data file uses, of a day within
    the bounds of [datetime64[ns]]. *)
Definition parse_iso_date (s : string) : option Z :=
  match list_ascii_of_string s with
  | [y1; y2; y3; y4; s1; m1; m2; s2; d1; d2] =>
      if (Ascii.eqb s1 "-"%char) && (Ascii.eqb s2 "-"%char) then
        match number [y1; y2; y3; y4], number [m1; m2], number [d1; d2] with
        | Some y, Some m, Some d =>
            if (1 <=? m) && (m <=? 12) && (1 <=? d) && (d <=? days_in_month y m)
               && in_bounds (days_from_civil y m d)
            then Some (days_from_civil y m d)
            else None
        | _, _, _ => None
        end
      else None
  | _ => None
  end.

(** ** Columns and tables *)

(** A column with its dtype: [object] (strings), [float64], [datetime64]. *)
Inductive column : Type :=
| ObjectCol (l : list string)
| Float64Col (l : list float64)
| DatetimeCol (l : list Z).

Definition col_len (c : column) : nat :=
  match c with
  | ObjectCol l => List.length l
  | Float64Col l => List.length l
  | DatetimeCol l => List.length l
  end.

(** One field of one row. *)
Inductive cell : Type :=
| CStr (s : string)
| CNum (x : float64)
| CDate (d : Z).

Definition col_cell (c : column) (i : nat) : option cell :=
  match c with
  | ObjectCol l => option_map CStr (nth_error l i)
  | Float64Col l => option_map CNum (nth_error l i)
  | DatetimeCol l => option_map CDate (nth_error l i)
  end.

Record DataFrame : Type := mkDataFrame {
  index : list nat;
  columns : list (string * column)
}.

Definition nrows (df : DataFrame) : nat := List.length (index df).

Fixpoint lookup (name : string) (cols : list (string * column)) : option column :=
  match cols with
  | [] => None
  | (n, c) :: r => if String.eqb n name then Some c else lookup name r
  end.

(** The field of column [name] in the row at position [i]. *)
Definition cell_at (df : DataFrame) (name : string) (i : nat) : option cell :=
  match lookup name (columns df) with
  | Some c => col_cell c i
  | None => None
  end.

Definition mem_string (s : string) (l : list string) : bool :=
  existsb (String.eqb s) l.

Fixpoint distinct (l : list string) : bool :=
  match l with
  | [] => true
  | a :: r => negb (mem_string a r) && distinct r
  end.

Fixpoint distinct_labels (l : list nat) : bool :=
  match l with
  | [] => true
  | a :: r => negb (existsb (Nat.eqb a) r) && distinct_labels r
  end.

(** What pandas maintains for a table read by [read_csv]: every column is
    as long as the index, column names are distinct (a repeated header is
    renamed) and so are the row labels (a [RangeIndex]). *)
Definition well_formed (df : DataFrame) : bool :=
  forallb (fun nc => Nat.eqb (col_len (snd nc)) (nrows df)) (columns df)
  && distinct (map fst (columns df))
  && distinct_labels (index df).

(** [df[name]] *)
Definition getitem (df : DataFrame) (name : string) : result column :=
  match lookup name (columns df) with
  | Some c => Ok c
  | None => Raise (KeyError name)
  end.

Fixpoint replace_or_append (name : string) (c : column)
    (cols : list (string * column)) : list (string * column) :=
  match cols with
  | [] => [(name, c)]
  | (n, c') :: r =>
      if String.eqb n name then (n, c) :: r
      else (n, c') :: replace_or_append name c r
  end.

(** [df[name] = c], for a column computed from [df] itself: an existing
    column is overwritten in place, a new one is appended. *)
Definition setitem (df : DataFrame) (name : string) (c : column) : DataFrame :=
  mkDataFrame (index df) (replace_or_append name c (columns df)).

(** [df[names]] with a list of names. *)
Definition getitem_list (df : DataFrame) (names : list string) : result DataFrame :=
  cols <- mapM (fun n => c <- getitem df n ;; Ok (n, c)) names ;;
  Ok (mkDataFrame (index df) cols).

(** Positions of a list selected by a boolean mask. *)
Fixpoint select {A : Type} (mask : list bool) (l : list A) : list A :=
  match mask, l with
  | b :: m, a :: r => if b then a :: select m r else select m r
  | _, _ => []
  end.

Definition col_select (mask : list bool) (c : column) : column :=
  match c with
  | ObjectCol l => ObjectCol (select mask l)
  | Float64Col l => Float64Col (select mask l)
  | DatetimeCol l => DatetimeCol (select mask l)
  end.

(** [df[mask]] with a boolean mask computed from [df]. *)
Definition boolean_indexing (df : DataFrame) (mask : list bool) : DataFrame :=
  mkDataFrame (select mask (index df))
              (map (fun nc => (fst nc, col_select mask (snd nc))) (columns df)).

(** [c.isin(values)] for a list of strings: no number or date equals one. *)
Definition isin (c : column) (values : list string) : list bool :=
  match c with
  | ObjectCol l => map (fun s => mem_string s values) l
  | Float64Col l => map (fun _ => false) l
  | DatetimeCol l => map (fun _ => false) l
  end.

(** [c.fillna(v)]: only a float64 column can hold a missing value here. *)
Definition fillna (c : column) (v : float64) : column :=
  match c with
  | Float64Col l => Float64Col (map (fun x => if isna x then v else x) l)
  | _ => c
  end.

(** [a / b] on two columns of one table. *)
Definition col_truediv (a b : column) : result column :=
  match a, b with
  | Float64Col la, Float64Col lb =>
      Ok (Float64Col (map (fun p => truediv (fst p) (snd p)) (combine la lb)))
  | _, _ => Raise TypeError
  end.

(** [a * k] with a number [k]. *)
Definition col_mul_scalar (a : column) (k : float64) : result column :=
  match a with
  | Float64Col la => Ok (Float64Col (map (fun x => mul x k) la))
  | _ => Raise TypeError
  end.

(** [pd.to_datetime(c)], on a column of ISO dates.  A string that is no
    date, and a date outside the bounds of [datetime64[ns]]
    ([OutOfBoundsDatetime], a [ValueError]), raise.  The file spells its
    dates [YYYY-MM-DD]; the other spellings the library would also read are
    not modelled, and no statement below draws a failure from one. *)
Definition to_datetime (c : column) : result column :=
  match c with
  | ObjectCol l =>
      ds <- mapM (fun s => match parse_iso_date s with
                           | Some d => Ok d
                           | None => Raise ValueError
                           end) l ;;
      Ok (DatetimeCol ds)
  | DatetimeCol l => Ok (DatetimeCol l)
  | Float64Col _ => Raise TypeError
  end.

Definition as_object (c : column) : result (list string) :=
  match c with ObjectCol l => Ok l | _ => Raise TypeError end.

Definition as_float64 (c : column) : result (list float64) :=
  match c with Float64Col l => Ok l | _ => Raise TypeError end.

Definition as_datetime (c : column) : result (list Z) :=
  match c with DatetimeCol l => Ok l | _ => Raise TypeError end.

(** [c > k] with a number [k]; a string or a timestamp does not compare
    with a number. *)
Definition col_gt_scalar (c : column) (k : float64) : result (list bool) :=
  l <- as_float64 c ;; Ok (map (fun x => gt x k) l).

(** *** [sort_values]: a stable lexicographic sort of the rows *)

(** Order of a float64 column under [sort_values]: missing values last. *)
Definition nan_last_compare (x y : float64) : comparison :=
  match isna x, isna y with
  | true, true => Eq
  | true, false => Gt
  | false, true => Lt
  | false, false =>
      match SFcompare x y with
      | Some c => c
      | None => Eq
      end
  end.

Definition col_compare (c : column) (i j : nat) : comparison :=
  match c with
  | ObjectCol l => String.compare (nth i l "") (nth j l "")
  | Float64Col l => nan_last_compare (nth i l nan) (nth j l nan)
  | DatetimeCol l => Z.compare (nth i l 0) (nth j l 0)
  end.

Fixpoint lex_compare (keys : list column) (i j : nat) : comparison :=
  match keys with
  | [] => Eq
  | c :: r =>
      match col_compare c i j with
      | Eq => lex_compare r i j
      | o => o
      end
  end.

Definition row_leb (keys : list column) (i j : nat) : bool :=
  match lex_compare keys i j with
  | Gt => false
  | _ => true
  end.

Section StableSort.
Context {A : Type} (leb : A -> A -> bool).

Fixpoint insert (x : A) (l : list A) : list A :=
  match l with
  | [] => [x]
  | y :: r => if leb x y then x :: l else y :: insert x r
  end.

(** Rows that compare equal keep their relative order. *)
Fixpoint stable_sort (l : list A) : list A :=
  match l with
  | [] => []
  | x :: r => insert x (stable_sort r)
  end.
End StableSort.

(** Positions [0 .. n-1] in sorted order of their keys. *)
Definition argsort (keys : list column) (n : nat) : list nat :=
  stable_sort (row_leb keys) (seq 0 n).

Definition take {A : Type} (d : A) (p : list nat) (l : list A) : list A :=
  map (fun i => nth i l d) p.

Definition col_take (p : list nat) (c : column) : column :=
  match c with
  | ObjectCol l => ObjectCol (take "" p l)
  | Float64Col l => Float64Col (take nan p l)
  | DatetimeCol l => DatetimeCol (take 0 p l)
  end.

(** [df.take(p)]: the rows at positions [p], in that order. *)
Definition reindex (p : list nat) (df : DataFrame) : DataFrame :=
  mkDataFrame (take 0%nat p (index df))
              (map (fun nc => (fst nc, col_take p (snd nc))) (columns df)).

(** [df.sort_values(by)] *)
Definition sort_values (df : DataFrame) (by_ : list string) : result DataFrame :=
  keys <- mapM (getitem df) by_ ;;
  Ok (reindex (argsort keys (nrows df)) df).

(** *** Reductions *)

(** [dates.max()]; [None] is the NaT of an empty column. *)
Definition date_max (l : list Z) : option Z :=
  match l with
  | [] => None
  | d :: r => Some (fold_left Z.max r d)
  end.

(** [dates == m] *)
Definition date_eq_scalar (l : list Z) (m : option Z) : list bool :=
  match m with
  | Some d => map (fun x => Z.eqb x d) l
  | None => map (fun _ => false) l
  end.

(** [values.sum()]: missing values count for nothing, the rest is added from
    the left, as numpy does below eight elements. *)
Definition nansum (l : list float64) : float64 :=
  fold_left (fun acc v => add acc (if isna v then S754_zero false else v))
            l (S754_zero false).

(** First position of the greatest value ([numpy.argmax]); [m] and [best]
    are the running maximum and its position, [i] the current position. *)
Fixpoint argmax_from (l : list float64) (i best : nat) (m : float64) : nat :=
  match l with
  | [] => best
  | v :: r => if gt v m then argmax_from r (S i) i v else argmax_from r (S i) best m
  end.

(** What [nanargmax] searches: a missing value counts as [-inf]. *)
Definition fill_neg_inf (v : float64) : float64 :=
  if isna v then neg_inf else v.

(** [nanops.nanargmax]: missing values are replaced by [-inf] before the
    search; [None] when every value is missing. *)
Definition nanargmax (l : list float64) : option nat :=
  if forallb isna l then None
  else
    match map fill_neg_inf l with
    | [] => None
    | v :: r => Some (argmax_from r 1 0 v)
    end.

(** [values.idxmax()] over the labels [idx]: the label of the greatest value,
    NaN ([None]) when every value is missing, [ValueError] on no value.
    (This is pandas 1 and 2; pandas 3 raises [ValueError] for the all-missing
    case as well, where here the [loc] that follows raises [KeyError].) *)
Definition idxmax (idx : list nat) (l : list float64) : result (option nat) :=
  match l with
  | [] => Raise ValueError
  | _ =>
      match nanargmax l with
      | None => Ok None
      | Some p => Ok (nth_error idx p)
      end
  end.

(** *** Rows by label *)

Definition row : Type := list (string * option cell).

Definition row_at (df : DataFrame) (p : nat) : row :=
  map (fun nc => (fst nc, col_cell (snd nc) p)) (columns df).

Fixpoint position (label : nat) (idx : list nat) : option nat :=
  match idx with
  | [] => None
  | l :: r => if Nat.eqb l label then Some 0%nat
              else option_map S (position label r)
  end.

(** [df.loc[label]], for labels that are unique in the index. *)
Definition loc (df : DataFrame) (label : option nat) : result row :=
  match label with
  | None => Raise (KeyError "nan")
  | Some l =>
      match position l (index df) with
      | Some p => Ok (row_at df p)
      | None => Raise (KeyError "label")
      end
  end.

Fixpoint row_lookup (name : string) (r : row) : option cell :=
  match r with
  | [] => None
  | (n, c) :: t => if String.eqb n name then c else row_lookup name t
  end.

(** [r[name]] *)
Definition row_get (r : row) (name : string) : result cell :=
  match row_lookup name r with
  | Some c => Ok c
  | None => Raise (KeyError name)
  end.

(** *** [groupby(key)[value].agg()]

    One pass over the rows; the groups are kept in ascending key order
    ([sort=True]), each with its running aggregate. *)

Section GroupBy.
Context {V A : Type} (init : V -> A) (step : A -> V -> A).

Fixpoint aggregate (k : string) (v : V) (acc : list (string * A))
    : list (string * A) :=
  match acc with
  | [] => [(k, init v)]
  | (k', a) :: r =>
      match String.compare k k' with
      | Lt => (k, init v) :: acc
      | Eq => (k', step a v) :: r
      | Gt => (k', a) :: aggregate k v r
      end
  end.

Definition groupby_agg (keys : list string) (vals : list V) : list (string * A) :=
  fold_left (fun acc kv => aggregate (fst kv) (snd kv) acc) (combine keys vals) [].
End GroupBy.

(** Running maximum of a group; [None] while no value has been seen. *)
Definition max_init (v : float64) : option float64 :=
  if isna v then None else Some v.

Definition max_step (a : option float64) (v : float64) : option float64 :=
  match a with
  | None => max_init v
  | Some m => if gt v m then Some v else Some m
  end.

Definition max_result (a : option float64) : float64 :=
  match a with Some m => m | None => nan end.

(** [groupby(keys)[vals].max()] *)
Definition groupby_max (keys : list string) (vals : list float64)
    : list (string * float64) :=
  map (fun ka => (fst ka, max_result (snd ka)))
      (groupby_agg max_init max_step keys vals).

(** [groupby(keys)[dates].min()] *)
Definition groupby_min_date (keys : list string) (dates : list Z)
    : list (string * Z) :=
  groupby_agg (fun d => d) Z.min keys dates.

(** ** The cleaning cell (lines 55-80), statement by statement *)

Definition countries_to_include : list string :=
  ["United States"; "India"; "Brazil"; "United Kingdom"; "Germany"; "Kenya";
   "South Africa"].

Definition columns_to_keep : list string :=
  ["date"; "location"; "total_cases"; "new_cases"; "total_deaths"; "new_deaths";
   "total_vaccinations"; "people_vaccinated"; "people_fully_vaccinated";
   "population"; "population_density"; "median_age"; "gdp_per_capita"].

(** [df['date'] = pd.to_datetime(df['date'])] *)
Definition convert_dates (df : DataFrame) : result DataFrame :=
  c <- getitem df "date" ;;
  d <- to_datetime c ;;
  Ok (setitem df "date" d).

(** [df = df[df['location'].isin(countries)]] *)
Definition filter_countries (countries : list string) (df : DataFrame)
    : result DataFrame :=
  c <- getitem df "location" ;;
  Ok (boolean_indexing df (isin c countries)).

(** [df = df[columns]] *)
Definition select_columns (cols : list string) (df : DataFrame) : result DataFrame :=
  getitem_list df cols.

(** [df[name] = df[name].fillna(0)] *)
Definition fill_column (name : string) (df : DataFrame) : result DataFrame :=
  c <- getitem df name ;;
  Ok (setitem df name (fillna c (S754_zero false))).

Definition filled_columns : list string :=
  ["total_cases"; "new_cases"; "total_deaths"; "new_deaths"].

Definition handle_missing (df : DataFrame) : result DataFrame :=
  df <- fill_column "total_cases" df ;;
  df <- fill_column "new_cases" df ;;
  df <- fill_column "total_deaths" df ;;
  fill_column "new_deaths" df.

(** [df[target] = (df[num] / df[den]) * 100] *)
Definition ratio_column (target num den : string) (df : DataFrame)
    : result DataFrame :=
  a <- getitem df num ;;
  b <- getitem df den ;;
  q <- col_truediv a b ;;
  r <- col_mul_scalar q (of_Z 100) ;;
  Ok (setitem df target r).

Definition derive_metrics (df : DataFrame) : result DataFrame :=
  df <- ratio_column "case_fatality_rate" "total_deaths" "total_cases" df ;;
  ratio_column "vaccination_rate" "people_vaccinated" "population" df.

(** Lines 55-80 with the two whitelists as parameters. *)
Definition clean (countries cols : list string) (raw : DataFrame)
    : result DataFrame :=
  df <- convert_dates raw ;;
  df <- filter_countries countries df ;;
  df <- select_columns cols df ;;
  df <- handle_missing df ;;
  df <- derive_metrics df ;;
  sort_values df ["location"; "date"].

(** ** Latest snapshot (line 130) and the insights (lines 205-225) *)

(** [df['date'].max()] *)
Definition latest_date (df : DataFrame) : result (option Z) :=
  c <- getitem df "date" ;;
  l <- as_datetime c ;;
  Ok (date_max l).

(** [df[df['date'] == df['date'].max()]] *)
Definition latest_snapshot (df : DataFrame) : result DataFrame :=
  c <- getitem df "date" ;;
  l <- as_datetime c ;;
  Ok (boolean_indexing df (date_eq_scalar l (date_max l))).

(** [df.groupby('location')[name].max().sum()] *)
Definition max_per_location_sum (name : string) (df : DataFrame) : result float64 :=
  k <- getitem df "location" ;;
  keys <- as_object k ;;
  v <- getitem df name ;;
  vals <- as_float64 v ;;
  Ok (nansum (map snd (groupby_max keys vals))).

Definition total_cases_world (df : DataFrame) : result float64 :=
  s <- max_per_location_sum "total_cases" df ;;
  Ok (truediv s (of_Z 1000000)).

Definition total_deaths_world (df : DataFrame) : result float64 :=
  s <- max_per_location_sum "total_deaths" df ;;
  Ok (truediv s (of_Z 1000)).

(** [t.loc[t[name].idxmax()]] *)
Definition row_of_max (name : string) (t : DataFrame) : result row :=
  c <- getitem t name ;;
  l <- as_float64 c ;;
  label <- idxmax (index t) l ;;
  loc t label.

Definition most_vaccinated (latest_data : DataFrame) : result row :=
  row_of_max "vaccination_rate" latest_data.

Definition highest_fatality (latest_data : DataFrame) : result row :=
  row_of_max "case_fatality_rate" latest_data.

(** [df[df['total_cases'] > 0].groupby('location')['date'].min()] *)
Definition first_cases (df : DataFrame) : result (list (string * Z)) :=
  c <- getitem df "total_cases" ;;
  mask <- col_gt_scalar c (S754_zero false) ;;
  let reported := boolean_indexing df mask in
  k <- getitem reported "location" ;;
  keys <- as_object k ;;
  d <- getitem reported "date" ;;
  dates <- as_datetime d ;;
  Ok (groupby_min_date keys dates).

(** The pairs [(country, days)] printed by the loop of lines 223-225;
    [latest] is the date bound to [latest_date] at line 205. *)
Definition days_reporting (latest : Z) (df : DataFrame)
    : result (list (string * Z)) :=
  first <- first_cases df ;;
  Ok (map (fun cd => (fst cd, latest - snd cd)) first).

(** ** The notebook as a program

    The interpreter state holds the two global tables and what has been
    written so far (standard output, the charts handed to the plotting
    library, the exported files).  A cell either completes or stops at an
    uncaught exception; what it did before is kept. *)

Inductive output : Type :=
| Print (s : string)
| PrintShape (rows cols : nat)
| PrintKeyInsights (latest_date : Z)
| Chart (file : string) (data : DataFrame)
| PrintTotalCases (millions : float64)
| PrintTotalDeaths (thousands : float64)
| PrintHighestVaccination (country : cell) (rate : cell)
| PrintHighestFatality (country : cell) (rate : cell)
| PrintDaysReporting (country : string) (days : Z)
| ToCsv (path : string) (data : DataFrame).

Record notebook : Type := mkNotebook {
  var_df : option DataFrame;
  var_latest_data : option DataFrame;
  stdout : list output
}.

Definition fresh : notebook := mkNotebook None None [].

Definition cell_ (A : Type) : Type := notebook -> notebook * result A.

Definition ret {A : Type} (a : A) : cell_ A := fun s => (s, Ok a).

Definition seq_ {A B : Type} (c : cell_ A) (k : A -> cell_ B) : cell_ B :=
  fun s =>
    match c s with
    | (s', Ok a) => k a s'
    | (s', Raise e) => (s', Raise e)
    end.

Notation "x <~ c ;; k" := (seq_ c (fun x => k))
  (at level 61, c at next level, right associativity).
Notation "c ;;; k" := (seq_ c (fun _ => k))
  (at level 61, right associativity).

Definition lift {A : Type} (r : result A) : cell_ A := fun s => (s, r).

Definition emit (o : output) : cell_ unit :=
  fun s => (mkNotebook (var_df s) (var_latest_data s) (stdout s ++ [o]), Ok tt).

(** Reading a global that was never assigned is a [NameError]. *)
Definition get_df : cell_ DataFrame :=
  fun s => match var_df s with
           | Some t => (s, Ok t)
           | None => (s, Raise (NameError "df"))
           end.

Definition get_latest_data : cell_ DataFrame :=
  fun s => match var_latest_data s with
           | Some t => (s, Ok t)
           | None => (s, Raise (NameError "latest_data"))
           end.

Definition set_df (t : DataFrame) : cell_ unit :=
  fun s => (mkNotebook (Some t) (var_latest_data s) (stdout s), Ok tt).

Definition set_latest_data (t : DataFrame) : cell_ unit :=
  fun s => (mkNotebook (var_df s) (Some t) (stdout s), Ok tt).

(** [pd.read_csv(path)]: the parsed file, or [FileNotFoundError]. *)
Definition read_csv (file : option DataFrame) : result DataFrame :=
  match file with
  | Some t => Ok t
  | None => Raise FileNotFoundError
  end.

(** What the load cell prints when the file is absent. *)
Definition not_found_message : string :=
  "Error: Data file not found. Please ensure 'owid-covid-data.csv' is in the data/ directory.".

(** Lines 31-40.  The handler of [FileNotFoundError] prints and falls
    through to the statements that read [df]. *)
Definition cell_load (file : option DataFrame) : cell_ unit :=
  (fun s =>
     match read_csv file with
     | Ok t => (set_df t ;;; emit (Print "Data loaded successfully!")) s
     | Raise FileNotFoundError =>
         emit (Print not_found_message) s
     | Raise e => (s, Raise e)
     end) ;;;
  df <~ get_df ;;
  emit (PrintShape (nrows df) (List.length (columns df))).

(** Lines 55-84. *)
Definition cell_clean : cell_ unit :=
  df <~ get_df ;;
  df <~ lift (clean countries_to_include columns_to_keep df) ;;
  set_df df ;;;
  emit (PrintShape (nrows df) (List.length (columns df))).

(** Lines 96-126: the two time-series charts; the second one takes a
    seven-row rolling mean over the rows of [df] in their stored order. *)
Definition cell_trends : cell_ unit :=
  df <~ get_df ;;
  emit (Chart "images/total_cases_trend.png" df) ;;;
  emit (Chart "images/new_cases_trend.png" df).

(** Lines 130-139. *)
Definition cell_latest : cell_ unit :=
  df <~ get_df ;;
  latest <~ lift (latest_snapshot df) ;;
  set_latest_data latest ;;;
  emit (Chart "images/fatality_rate.png" latest).

(** Lines 205-225. *)
Definition cell_insights : cell_ unit :=
  df <~ get_df ;;
  latest <~ lift (latest_date df) ;;
  cases <~ lift (total_cases_world df) ;;
  deaths <~ lift (total_deaths_world df) ;;
  (* strftime on the NaT of an empty table *)
  ld <~ lift (match latest with Some d => Ok d | None => Raise ValueError end) ;;
  emit (PrintKeyInsights ld) ;;;
  emit (PrintTotalCases cases) ;;;
  emit (PrintTotalDeaths deaths) ;;;
  latest_data <~ get_latest_data ;;
  mv <~ lift (most_vaccinated latest_data) ;;
  mv_country <~ lift (row_get mv "location") ;;
  mv_rate <~ lift (row_get mv "vaccination_rate") ;;
  emit (PrintHighestVaccination mv_country mv_rate) ;;;
  hf <~ lift (highest_fatality latest_data) ;;
  hf_country <~ lift (row_get hf "location") ;;
  hf_rate <~ lift (row_get hf "case_fatality_rate") ;;
  emit (PrintHighestFatality hf_country hf_rate) ;;;
  days <~ lift (days_reporting ld df) ;;
  fold_right (fun cd k => emit (PrintDaysReporting (fst cd) (snd cd)) ;;; k)
             (ret tt) days.

(** Lines 232-237. *)
Definition cell_export : cell_ unit :=
  df <~ get_df ;;
  emit (ToCsv "data/covid_cleaned_data.csv" df) ;;;
  latest_data <~ get_latest_data ;;
  emit (ToCsv "data/covid_latest_snapshot.csv" latest_data) ;;;
  emit (Print "Analysis complete! Data exports saved to data/ directory.").

(** The whole notebook, run top to bottom as a script. *)
Definition notebook_run (file : option DataFrame) : cell_ unit :=
  cell_load file ;;;
  cell_clean ;;;
  cell_trends ;;;
  cell_latest ;;;
  cell_insights ;;;
  cell_export.

(** ** Reading the tables row by row *)

(** [(num / den) * 100], the value both derived columns hold in a row. *)
Definition percent (num den : float64) : float64 :=
  mul (truediv num den) (of_Z 100).

(** Every column is as long as the index. *)
Definition aligned (df : DataFrame) : Prop :=
  Forall (fun nc => col_len (snd nc) = nrows df) (columns df).

(** What [fillna(v)] does to one field. *)
Definition fill_cell (v : float64) (c : cell) : cell :=
  match c with
  | CNum x => CNum (if isna x then v else x)
  | _ => c
  end.

(** Positions kept by a boolean mask, in order. *)
Definition kept (mask : list bool) : list nat :=
  select mask (seq 0 (List.length mask)).

(** Order of the sort keys [(location, date)]. *)
Definition key_le (a b : string * Z) : Prop :=
  String.compare (fst a) (fst b) = Lt \/ (fst a = fst b /\ snd a <= snd b).

(** Rows further down never have a smaller [(location, date)]. *)
Definition sorted_by_location_date (df : DataFrame) : Prop :=
  forall i j l1 d1 l2 d2, (i < j)%nat ->
    cell_at df "location" i = Some (CStr l1) ->
    cell_at df "date" i = Some (CDate d1) ->
    cell_at df "location" j = Some (CStr l2) ->
    cell_at df "date" j = Some (CDate d2) ->
    key_le (l1, d1) (l2, d2).

(** The value of a ratio column in a row, from the two fields it reads. *)
Definition ratio_cell (num den : option cell) : option cell :=
  match num, den with
  | Some (CNum x), Some (CNum y) => Some (CNum (percent x y))
  | _, _ => None
  end.

(** The values of the rows whose key is [k], in row order. *)
Definition group {V : Type} (k : string) (keys : list string) (vals : list V)
    : list V :=
  map snd (filter (fun kv => String.eqb (fst kv) k) (combine keys vals)).

Fixpoint assoc {A : Type} (k : string) (l : list (string * A)) : option A :=
  match l with
  | [] => None
  | (k', a) :: r => if String.eqb k' k then Some a else assoc k r
  end.

(** One more value for a group that may not have been seen yet. *)
Definition push {V A : Type} (init : V -> A) (step : A -> V -> A)
    (o : option A) (v : V) : option A :=
  Some (match o with None => init v | Some a => step a v end).

Definition ascending (l : list string) : Prop :=
  StronglySorted (fun a b => String.compare a b = Lt) l.

(** The numeric fields the cleaning cell does not fill. *)
Definition other_numeric : list string :=
  ["total_vaccinations"; "people_vaccinated"; "people_fully_vaccinated";
   "population"; "population_density"; "median_age"; "gdp_per_capita"].

(** ** Scenarios *)

(** A file in the layout of the OWID export, from the columns a scenario
    gives; the remaining numeric fields are missing. *)
Definition owid (dates locations : list string)
    (total_cases total_deaths people_vaccinated population : list float64)
    : DataFrame :=
  let n := List.length dates in
  let missing := Float64Col (repeat nan n) in
  mkDataFrame (seq 0 n)
    [("iso_code", ObjectCol (repeat "XXX" n));
     ("location", ObjectCol locations);
     ("date", ObjectCol dates);
     ("total_cases", Float64Col total_cases);
     ("new_cases", missing);
     ("total_deaths", Float64Col total_deaths);
     ("new_deaths", missing);
     ("total_vaccinations", missing);
     ("people_vaccinated", Float64Col people_vaccinated);
     ("people_fully_vaccinated", missing);
     ("population", Float64Col population);
     ("population_density", missing);
     ("median_age", missing);
     ("gdp_per_capita", missing)].

(** Two days of one entity: no case on the first, 100 cases and 2 deaths
    on the second. *)
Definition testland : DataFrame :=
  owid ["2021-01-01"; "2021-01-02"] ["Testland"; "Testland"]
       [of_Z 0; of_Z 100] [of_Z 0; of_Z 2] [nan; nan] [nan; nan].

(** A row whose case count is unknown while 5 deaths are recorded. *)
Definition deaths_without_cases : DataFrame :=
  owid ["2021-01-01"] ["Kenya"] [nan] [of_Z 5] [nan] [nan].

(** The same row with the case count written [-0.0]. *)
Definition negative_zero_cases : DataFrame :=
  owid ["2021-01-01"] ["Kenya"] [S754_zero true] [of_Z 5] [nan] [nan].

(** The reading of the fatality rate that takes it to be undefined exactly
    on a case count that is zero or unknown. *)
Definition undefined_iff_no_cases (df : DataFrame) : Prop :=
  forall i tc r,
    cell_at df "total_cases" i = Some (CNum tc) ->
    cell_at df "case_fatality_rate" i = Some (CNum r) ->
    (isna r = true <-> is_zero tc = true \/ isna tc = true).

(** The reading that takes every row with no case and some death to have
    the rate [+inf]. *)
Definition positive_infinity_on_zero_cases (df : DataFrame) : Prop :=
  forall i tc td r,
    cell_at df "total_cases" i = Some (CNum tc) ->
    cell_at df "total_deaths" i = Some (CNum td) ->
    cell_at df "case_fatality_rate" i = Some (CNum r) ->
    SFeqb tc (S754_zero false) = true -> gt td (S754_zero false) = true ->
    r = inf.

(** The table a cell leaves, for the scenarios in which it completes. *)
Definition the_table (r : result DataFrame) : DataFrame :=
  match r with
  | Ok df => df
  | Raise _ => mkDataFrame [] []
  end.

Definition testland_cleaned : DataFrame :=
  the_table (clean ["Testland"] columns_to_keep testland).

Definition deaths_without_cases_cleaned : DataFrame :=
  the_table (clean countries_to_include columns_to_keep deaths_without_cases).

(** What the export cell writes when both tables are bound. *)
Definition exported (df latest_data : DataFrame) : list output :=
  [ToCsv "data/covid_cleaned_data.csv" df;
   ToCsv "data/covid_latest_snapshot.csv" latest_data;
   Print "Analysis complete! Data exports saved to data/ directory."].

(** One entity, a quarter of it vaccinated. *)
Definition quarter_vaccinated : DataFrame :=
  owid ["2021-03-01"] ["Kenya"] [of_Z 10] [of_Z 1] [of_Z 250] [of_Z 1000].

Definition quarter_vaccinated_derived : DataFrame :=
  the_table (derive_metrics quarter_vaccinated).



(** Entity [e] has a row dated [d] whose cumulative case count exceeds 0. *)
Definition reported_on (df : DataFrame) (e : string) (d : Z) : Prop :=
  exists i x,
    cell_at df "location" i = Some (CStr e)
    /\ cell_at df "date" i = Some (CDate d)
    /\ cell_at df "total_cases" i = Some (CNum x)
    /\ gt x (S754_zero false) = true.

(** [d] is the first such date. *)
Definition first_crossing (df : DataFrame) (e : string) (d : Z) : Prop :=
  reported_on df e d /\ forall d', reported_on df e d' -> d <= d'.

(** Kenya's count first exceeds zero on 2020-03-01 and the table ends on
    2020-04-10; India never reports a case. *)
Definition first_case_in_march : DataFrame :=
  owid ["2020-02-28"; "2020-03-01"; "2020-04-10"; "2020-03-01"; "2020-04-10"]
       ["Kenya"; "Kenya"; "Kenya"; "India"; "India"]
       [of_Z 0; of_Z 1; of_Z 50; nan; of_Z 0]
       [of_Z 0; of_Z 0; of_Z 1; nan; nan]
       [nan; nan; nan; nan; nan] [nan; nan; nan; nan; nan].

Definition first_case_in_march_cleaned : DataFrame :=
  the_table (clean countries_to_include columns_to_keep first_case_in_march).

(** The fields of a column, top to bottom. *)
Definition col_cells (c : column) : list cell :=
  match c with
  | ObjectCol l => map CStr l
  | Float64Col l => map CNum l
  | DatetimeCol l => map CDate l
  end.

(** The three-country file of the filter scenario. *)
Definition three_countries : DataFrame :=
  owid ["2021-01-01"; "2021-01-01"; "2021-01-01"]
       ["Kenya"; "France"; "India"]
       [of_Z 10; of_Z 20; of_Z 30] [of_Z 1; of_Z 2; of_Z 3]
       [nan; nan; nan] [nan; nan; nan].

(** The outputs that come after the vaccination insight: the fatality
    insight, the days of reporting and the two exports. *)
Definition after_vaccination_insight (o : output) : bool :=
  match o with
  | PrintHighestFatality _ _ | PrintDaysReporting _ _ | ToCsv _ _ => true
  | _ => false
  end.

(** Two entities on one date, neither with a vaccination count; both have
    cases and deaths. *)
Definition unvaccinated : DataFrame :=
  owid ["2021-01-01"; "2021-01-01"] ["Kenya"; "India"]
       [of_Z 100; of_Z 200] [of_Z 2; of_Z 8] [nan; nan] [of_Z 1000; of_Z 1000].

Definition unvaccinated_cleaned : DataFrame :=
  the_table (clean countries_to_include columns_to_keep unvaccinated).

Definition unvaccinated_latest : DataFrame :=
  the_table (latest_snapshot unvaccinated_cleaned).

(** A cell that leaves the binding of [df] alone. *)
Definition keeps_df {A : Type} (c : cell_ A) : Prop :=
  forall s, var_df (fst (c s)) = var_df s.

(** The interpreter after the cleaning cell has run on [first_case_in_march]. *)
Definition after_cleaning : notebook :=
  fst (cell_clean (mkNotebook (Some first_case_in_march) None [])).

(** The interpreter after the whole notebook has run on [unvaccinated]. *)
Definition unvaccinated_run : notebook * result unit :=
  notebook_run (Some unvaccinated) fresh.

Definition is_float64 (o : option column) : bool :=
  match o with Some (Float64Col _) => true | _ => false end.

Definition is_iso_date (s : string) : bool :=
  match parse_iso_date s with Some _ => true | None => false end.

(** A file with the columns the notebook keeps, ISO dates within the
    bounds of [datetime64[ns]], and numbers in the four columns the ratios
    read. *)
Definition owid_typed (raw : DataFrame) : bool :=
  match lookup "date" (columns raw) with
  | Some (ObjectCol ds) => forallb is_iso_date ds
  | _ => false
  end
  && forallb (fun m => mem_string m (map fst (columns raw))) columns_to_keep
  && forallb (fun m => is_float64 (lookup m (columns raw)))
             ["total_cases"; "total_deaths"; "people_vaccinated"; "population"].

(** A file on which every cell completes: two entities over two days, one
    of them with vaccination counts. *)
Definition complete_file : DataFrame :=
  owid ["2021-01-01"; "2021-01-02"; "2021-01-01"; "2021-01-02"]
       ["Kenya"; "Kenya"; "India"; "India"]
       [of_Z 0; of_Z 100; of_Z 40; of_Z 100]
       [of_Z 0; of_Z 2; of_Z 1; of_Z 1]
       [nan; of_Z 250; nan; nan]
       [of_Z 1000; of_Z 1000; of_Z 2000; of_Z 2000].

(** What a run printed, without the tables it charted or wrote. *)
Definition printed (s : notebook) : list output :=
  filter (fun o => match o with Chart _ _ | ToCsv _ _ => false | _ => true end)
         (stdout s).

(** The lines the loop of lines 223-225 prints for the pairs [ds]. *)
Definition days_lines (ds : list (string * Z)) : list output :=
  map (fun cd => PrintDaysReporting (fst cd) (snd cd)) ds.

Definition is_days_line (o : output) : bool :=
  match o with PrintDaysReporting _ _ => true | _ => false end.

(** An interpreter in which an earlier run has left [complete_file] in [df]. *)
Definition stale_session : notebook :=
  mkNotebook (Some complete_file) None [].

(** ** The cells around the pipeline

    The chart loops of lines 97-99, 113-117 and 147-151, the map cell of
    lines 188-198, and the readings of the tables that the properties of
    these cells are stated with. *)





(** [try: body  except Exception as e: handler(e)] *)
Definition try_except {A : Type} (body : cell_ A) (handler : exn -> cell_ A)
    : cell_ A :=
  fun s =>
    match body s with
    | (s', Ok a) => (s', Ok a)
    | (s', Raise e) => handler e s'
    end.

(** The plotting call of the map cell, [px.choropleth(data, locations=..,
    color=.., hover_name=..)] followed by [fig.show()], is a parameter of
    the cell; so is the text [str(e)] of an exception. *)
Definition plotting : Type := DataFrame -> string -> string -> string -> result unit.

Definition could_not_message (text : string) : string :=
  "Could not create choropleth map: " ++ text.

(** Lines 188-198. *)
Definition cell_choropleth (px_choropleth : plotting) (str : exn -> string)
    : cell_ unit :=
  try_except
    (latest_data <~ get_latest_data ;;
     lift (px_choropleth latest_data "iso_code" "total_cases" "location") ;;;
     emit (Chart "Global COVID-19 Cases" latest_data))
    (fun e => emit (Print (could_not_message (str e)))).

(** A plotting call that looks the three names up in [data] and raises
    [ValueError] for one that is not a column. *)
Definition choropleth : plotting :=
  fun data locations color hover_name =>
    if forallb (fun n => mem_string n (map fst (columns data)))
               [locations; color; hover_name]
    then Ok tt
    else Raise ValueError.

(** A plotting call refuses a [locations] name that is not a column. *)
Definition checks_locations (px_choropleth : plotting) : Prop :=
  forall data locations color hover_name,
    mem_string locations (map fst (columns data)) = false ->
    exists e, px_choropleth data locations color hover_name = Raise e.

(** The names of the columns, left to right. *)
Definition column_names (df : DataFrame) : list string := map fst (columns df).

Definition derived_columns : list string :=
  ["case_fatality_rate"; "vaccination_rate"].



(** The rows of the snapshot: the pairs (label, date) of [df] dated [ld]. *)
Definition rows_dated (ld : Z) (df : DataFrame) (dates : list Z) : list nat :=
  map fst (filter (fun p => Z.eqb (snd p) ld) (combine (index df) dates)).

(** The labels of the rows of the file whose location is on the whitelist. *)
Definition whitelisted_labels (countries : list string) (raw : DataFrame)
    (locs : list string) : list nat :=
  map fst (filter (fun p => mem_string (snd p) countries)
                  (combine (index raw) locs)).

(** Both counts of a row are zero, or both are infinite. *)
Definition indeterminate (deaths cases : float64) : bool :=
  (is_zero deaths && is_zero cases) || (is_inf deaths && is_inf cases).

Definition complete_file_cleaned : DataFrame :=
  the_table (clean countries_to_include columns_to_keep complete_file).

Definition complete_file_latest : DataFrame :=
  the_table (latest_snapshot complete_file_cleaned).

(** A file none of whose entities is on the whitelist. *)
Definition other_countries : DataFrame :=
  owid ["2021-01-01"; "2021-01-02"] ["France"; "Peru"]
       [of_Z 10; of_Z 20] [of_Z 1; of_Z 2] [nan; nan] [nan; nan].

Definition other_countries_cleaned : DataFrame :=
  the_table (clean countries_to_include columns_to_keep other_countries).

Fixpoint distinct_keys (l : list (string * Z)) : bool :=
  match l with
  | [] => true
  | a :: r =>
      negb (existsb (fun b => String.eqb (fst a) (fst b) && Z.eqb (snd a) (snd b)) r)
      && distinct_keys r
  end.

(** A file whose last day has no counts yet. *)
Definition no_counts_on_the_last_day : DataFrame :=
  owid ["2021-01-01"; "2021-01-02"] ["Kenya"; "Kenya"]
       [of_Z 10; nan] [of_Z 1; nan] [nan; nan] [of_Z 1000; of_Z 1000].

Definition no_counts_on_the_last_day_cleaned : DataFrame :=
  the_table (clean countries_to_include columns_to_keep no_counts_on_the_last_day).

Definition no_counts_on_the_last_day_latest : DataFrame :=
  the_table (latest_snapshot no_counts_on_the_last_day_cleaned).

(** No field of the column is missing. *)
Definition no_missing (c : column) : bool :=
  match c with
  | Float64Col l => forallb (fun x => negb (isna x)) l
  | _ => true
  end.

(** A cell or a part of one that only writes output: it leaves the two
    tables as they are and adds to what was written. *)
Definition only_emits {A : Type} (c : cell_ A) : Prop :=
  forall s,
    var_df (fst (c s)) = var_df s
    /\ var_latest_data (fst (c s)) = var_latest_data s
    /\ exists out, stdout (fst (c s)) = (stdout s ++ out)%list.

(** The file names of the three charts the notebook model draws. *)
Definition charts (df latest_data : DataFrame) : list output :=
  [Chart "images/total_cases_trend.png" df;
   Chart "images/new_cases_trend.png" df;
   Chart "images/fatality_rate.png" latest_data].

(** The three-country file in an export that no longer has the last of the
    listed columns, [gdp_per_capita]. *)
Definition without_gdp : DataFrame :=
  mkDataFrame (index three_countries) (removelast (columns three_countries)).

(** Lines 55-77: the cleaning cell up to the sort of line 80. *)
Definition before_sort (countries cols : list string) (raw : DataFrame)
    : result DataFrame :=
  df <- convert_dates raw ;;
  df <- filter_countries countries df ;;
  df <- select_columns cols df ;;
  df <- handle_missing df ;;
  derive_metrics df.

(** [a] is placed before [b]: it is not greater, and when the two compare
    equal it came first. *)
Definition stably_before (leb : nat -> nat -> bool) (a b : nat) : Prop :=
  leb a b = true /\ (leb b a = true -> (a < b)%nat).

(** The rearrangement [p] of the rows of [before] leaves rows with the
    same location and date in the order they had. *)
Definition ties_keep_their_order (before : DataFrame) (p : list nat) : Prop :=
  forall i j a b l d, (i < j)%nat ->
    nth_error p i = Some a -> nth_error p j = Some b ->
    cell_at before "location" a = Some (CStr l) ->
    cell_at before "date" a = Some (CDate d) ->
    cell_at before "location" b = Some (CStr l) ->
    cell_at before "date" b = Some (CDate d) ->
    (a < b)%nat.

(** What [pd.to_datetime] makes of one field. *)
Definition to_datetime_cell (c : cell) : option cell :=
  match c with
  | CStr s => option_map CDate (parse_iso_date s)
  | CDate d => Some (CDate d)
  | CNum _ => None
  end.

(** * Properties *)

(** ** binary64: when a quotient is NaN, how values compare *)

Lemma iter_pos_invariant {A : Type} (P : A -> Prop) (f : A -> A) :
  (forall x, P x -> P (f x)) -> forall n x, P x -> P (iter_pos f n x).
Proof.
  intros Hf. induction n as [n IH | n IH | ]; intros x Hx; simpl; auto.
Qed.

Lemma shr_1_nonneg mrs : 0 <= shr_m mrs -> 0 <= shr_m (shr_1 mrs).
Proof.
  destruct mrs as [m r s]. simpl. intros Hm.
  destruct m as [| p | p]; simpl; try lia; destruct p; simpl; lia.
Qed.

Lemma shr_nonneg mrs e n : 0 <= shr_m mrs -> 0 <= shr_m (fst (shr mrs e n)).
Proof.
  intros Hm. unfold shr. destruct n; simpl; auto.
  apply (iter_pos_invariant (fun x => 0 <= shr_m x)); auto using shr_1_nonneg.
Qed.

Lemma shr_fexp_nonneg m e l :
  0 <= m -> 0 <= shr_m (fst (shr_fexp prec emax m e l)).
Proof.
  intros Hm. unfold shr_fexp. apply shr_nonneg.
  destruct l as [| []]; simpl; assumption.
Qed.

Lemma round_nearest_even_nonneg m l : 0 <= m -> 0 <= round_nearest_even m l.
Proof.
  intros Hm. unfold round_nearest_even.
  destruct l as [| []]; try lia. destruct (Z.even m); lia.
Qed.

(** Rounding a non-negative mantissa gives a zero, a finite value or an
    infinity, never NaN. *)
Lemma binary_round_aux_not_nan s m e l :
  0 <= m -> isna (binary_round_aux prec emax s m e l) = false.
Proof.
  intros Hm. unfold binary_round_aux.
  pose proof (shr_fexp_nonneg m e l Hm) as H1.
  destruct (shr_fexp prec emax m e l) as [mrs' e'] eqn:E1. simpl in H1.
  pose proof (shr_fexp_nonneg _ e' loc_Exact
                (round_nearest_even_nonneg _ (loc_of_shr_record mrs') H1)) as H2.
  destruct (shr_fexp prec emax _ e' loc_Exact) as [mrs'' e''] eqn:E2. simpl in H2.
  destruct (shr_m mrs'') as [| p | p]; [reflexivity | | lia].
  destruct (e'' <=? emax - prec); reflexivity.
Qed.

Lemma truediv_isna x y :
  isna (truediv x y) =
  isna x || isna y || (is_zero x && is_zero y) || (is_inf x && is_inf y).
Proof.
  destruct x as [sx | sx | | sx mx ex], y as [sy | sy | | sy my ey];
    try reflexivity.
  unfold truediv, SFdiv.
  destruct (SFdiv_core_binary prec emax (Z.pos mx) ex (Z.pos my) ey)
    as [[q e'] l] eqn:E.
  simpl. apply binary_round_aux_not_nan.
  unfold SFdiv_core_binary in E.
  set (m' := match _ - _ - _ with Z0 => _ | Zpos _ => _ | Zneg _ => _ end) in E.
  assert (Hm' : 0 <= m').
  { subst m'. destruct (_ - _ - _); try lia. apply Z.shiftl_nonneg. lia. }
  pose proof (Z.div_pos m' (Z.pos my) Hm' ltac:(lia)) as Hq.
  unfold Z.div in Hq. destruct (Z.div_eucl m' (Z.pos my)) as [q' r'].
  inversion E; subst. exact Hq.
Qed.

Lemma mul_finite_isna x s m e : isna (mul x (S754_finite s m e)) = isna x.
Proof.
  destruct x as [sx | sx | | sx mx ex]; try reflexivity.
  unfold mul, SFmul. apply binary_round_aux_not_nan. lia.
Qed.

Lemma of_Z_100 : of_Z 100 = S754_finite false 7036874417766400 (-46).
Proof. reflexivity. Qed.

(** A ratio column is NaN in a row exactly on a NaN operand, on [0/0] and
    on [inf/inf]. *)
Lemma percent_isna num den :
  isna (percent num den) =
  isna num || isna den || (is_zero num && is_zero den)
  || (is_inf num && is_inf den).
Proof.
  unfold percent. rewrite of_Z_100, mul_finite_isna. apply truediv_isna.
Qed.

(** A non-zero numerator over a zero is an infinity; its sign is the product
    of the two signs. *)
Lemma percent_zero_den num den :
  is_zero den = true -> isna num = false -> is_zero num = false ->
  percent num den = S754_infinity (xorb (signbit num) (signbit den)).
Proof.
  unfold percent. rewrite of_Z_100.
  destruct den as [sd | | |]; try discriminate.
  destruct num as [sn | sn | | sn mn en]; try discriminate; intros _ _ _;
    simpl; rewrite xorb_false_r; reflexivity.
Qed.

Lemma gt_zero_positive x :
  gt x (S754_zero false) = true ->
  isna x = false /\ is_zero x = false /\ signbit x = false.
Proof.
  destruct x as [[] | [] | | [] m e]; simpl; try discriminate; auto.
Qed.

Ltac order_cases :=
  repeat match goal with
  | H : context [Pos.compare_cont Eq ?a ?b] |- _ =>
      change (Pos.compare_cont Eq a b) with (Pos.compare a b) in H
  | |- context [Pos.compare_cont Eq ?a ?b] =>
      change (Pos.compare_cont Eq a b) with (Pos.compare a b)
  | H : context [Z.compare ?a ?b] |- _ =>
      destruct (Z.compare_spec a b); simpl in H; try discriminate H
  | |- context [Z.compare ?a ?b] =>
      destruct (Z.compare_spec a b); simpl
  | H : context [Pos.compare ?a ?b] |- _ =>
      destruct (Pos.compare_spec a b); simpl in H; try discriminate H
  | |- context [Pos.compare ?a ?b] =>
      destruct (Pos.compare_spec a b); simpl
  end; subst; try reflexivity; try discriminate; try lia.

Lemma SFltb_trans x y z :
  SFltb x y = true -> SFltb y z = true -> SFltb x z = true.
Proof.
  unfold SFltb, SFcompare.
  destruct x as [[] | [] | | [] mx ex], y as [[] | [] | | [] my ey],
           z as [[] | [] | | [] mz ez];
    simpl; try discriminate; try reflexivity;
    intros H1 H2; order_cases.
Qed.

Lemma SFltb_negtrans x y z :
  isna y = false -> SFltb x z = true -> SFltb x y = true \/ SFltb y z = true.
Proof.
  unfold SFltb, SFcompare.
  destruct x as [[] | [] | | [] mx ex], y as [[] | [] | | [] my ey],
           z as [[] | [] | | [] mz ez];
    simpl; try discriminate; auto;
    intros _ H1; order_cases; auto.
Qed.

Lemma gt_irrefl x : gt x x = false.
Proof.
  unfold gt, SFltb, SFcompare.
  destruct x as [[] | [] | | [] mx ex]; simpl; try reflexivity;
    change (Pos.compare_cont Eq mx mx) with (Pos.compare mx mx);
    rewrite Z.compare_refl, Pos.compare_refl; reflexivity.
Qed.


(** [v <= m] and [m <= M] give [v <= M], for a defined [m]. *)
Lemma gt_keep v m M :
  isna m = false -> gt v m = false -> gt m M = false -> gt v M = false.
Proof.
  unfold gt. intros Hm H1 H2.
  destruct (SFltb M v) eqn:E; [| reflexivity].
  destruct (SFltb_negtrans _ m _ Hm E) as [H | H]; congruence.
Qed.

Lemma gt_not_nan_l x y : gt x y = true -> isna x = false.
Proof. destruct x, y; simpl; try discriminate; reflexivity. Qed.


(** ** The result monad *)

Lemma bind_Ok {A B : Type} (c : result A) (k : A -> result B) (b : B) :
  bind c k = Ok b -> exists a, c = Ok a /\ k a = Ok b.
Proof. destruct c as [a | e]; simpl; [eauto | discriminate]. Qed.

Ltac inv_bind H :=
  let a := fresh "x" in
  let Ha := fresh "E" in
  apply bind_Ok in H; destruct H as (a & Ha & H).

Ltac inv_Ok H := inversion H; subst; clear H.

Lemma mapM_length {A B : Type} (f : A -> result B) l bs :
  mapM f l = Ok bs -> List.length bs = List.length l.
Proof.
  revert bs. induction l as [| a l IH]; simpl; intros bs H.
  - inv_Ok H. reflexivity.
  - inv_bind H. inv_bind H. inv_Ok H. simpl. f_equal. auto.
Qed.

(** ** Columns of a table *)

Lemma lookup_replace_same n c cols :
  lookup n (replace_or_append n c cols) = Some c.
Proof.
  induction cols as [| [m c'] r IH]; simpl.
  - rewrite String.eqb_refl. reflexivity.
  - destruct (String.eqb m n) eqn:E; simpl; rewrite E; auto.
Qed.

Lemma lookup_replace_other n m c cols :
  n <> m -> lookup m (replace_or_append n c cols) = lookup m cols.
Proof.
  intros Hnm. induction cols as [| [k c'] r IH]; simpl.
  - destruct (String.eqb_spec n m); [contradiction | reflexivity].
  - destruct (String.eqb_spec k n) as [-> | Hk]; simpl.
    + destruct (String.eqb_spec n m); [contradiction | reflexivity].
    + rewrite IH. reflexivity.
Qed.

Lemma getitem_Ok df n c : getitem df n = Ok c <-> lookup n (columns df) = Some c.
Proof.
  unfold getitem. destruct (lookup n (columns df)); split; intros H;
    inversion H; reflexivity.
Qed.

Lemma aligned_lookup df n c :
  aligned df -> lookup n (columns df) = Some c -> col_len c = nrows df.
Proof.
  unfold aligned. generalize (nrows df) as k. intros k Ha.
  induction Ha as [| [m c'] r Hc Hr IH]; simpl; intros H; [discriminate |].
  destruct (String.eqb m n); [injection H as <-; exact Hc | auto].
Qed.

Lemma aligned_setitem df n c :
  aligned df -> col_len c = nrows df -> aligned (setitem df n c).
Proof.
  unfold aligned, setitem, nrows. simpl. generalize (List.length (index df)) as k.
  intros k Ha Hc. induction Ha as [| [m c'] r Hm Hr IH]; simpl.
  - constructor; [assumption | constructor].
  - destruct (String.eqb m n); constructor; simpl in *; assumption.
Qed.

Lemma well_formed_aligned df : well_formed df = true -> aligned df.
Proof.
  unfold well_formed, aligned. intros H.
  apply andb_true_iff in H. destruct H as [H _].
  apply andb_true_iff in H. destruct H as [H _].
  rewrite forallb_forall in H. apply Forall_forall.
  intros nc Hin. apply Nat.eqb_eq. auto.
Qed.

Lemma col_cell_lt c i x : col_cell c i = Some x -> (i < col_len c)%nat.
Proof.
  destruct c as [l | l | l]; simpl; intros H;
    apply nth_error_Some; destruct (nth_error l i); discriminate.
Qed.

(** *** Selection by a mask *)

Lemma select_seq_shift mask s n :
  select mask (seq (S s) n) = map S (select mask (seq s n)).
Proof.
  revert s n. induction mask as [| b m IH]; intros s n; [reflexivity |].
  destruct n as [| n]; simpl; [reflexivity |].
  destruct b; simpl; rewrite IH; reflexivity.
Qed.

Lemma select_kept {A : Type} (d : A) mask (l : list A) :
  List.length l = List.length mask ->
  select mask l = map (fun j => nth j l d) (kept mask).
Proof.
  unfold kept. revert l. induction mask as [| b m IH]; intros l Hl.
  - destruct l; reflexivity.
  - destruct l as [| a l]; [discriminate |]. simpl in Hl. injection Hl as Hl.
    specialize (IH l Hl).
    destruct b; simpl; rewrite select_seq_shift, map_map; simpl;
      rewrite IH; reflexivity.
Qed.

Lemma kept_spec mask j :
  In j (kept mask) <-> nth_error mask j = Some true.
Proof.
  unfold kept. revert j. induction mask as [| b m IH]; intros j.
  - simpl. split; [contradiction | destruct j; discriminate].
  - simpl. rewrite select_seq_shift.
    destruct b; simpl; rewrite in_map_iff; destruct j as [| j]; simpl.
    + split; auto.
    + rewrite <- IH. split.
      * intros [H | (k & Hk & Hin)]; [discriminate | congruence].
      * intros H. right. eauto.
    + split; [intros (k & Hk & _); discriminate | discriminate].
    + rewrite <- IH. split.
      * intros (k & Hk & Hin). congruence.
      * eauto.
Qed.

Lemma lookup_map_cols (f : column -> column) n cols :
  lookup n (map (fun nc => (fst nc, f (snd nc))) cols)
  = option_map f (lookup n cols).
Proof.
  induction cols as [| [m c] r IH]; simpl; [reflexivity |].
  destruct (String.eqb m n); simpl; auto.
Qed.

Lemma nth_nth_error {A : Type} (d : A) l j x :
  nth_error l j = Some x -> nth j l d = x.
Proof. intros H. apply nth_error_nth. assumption. Qed.

(** Row [i] of a column rearranged by positions [p] is row [p_i]. *)
Lemma col_cell_take p c i j :
  nth_error p i = Some j -> (j < col_len c)%nat ->
  col_cell (col_take p c) i = col_cell c j.
Proof.
  intros Hp Hj. destruct c as [l | l | l]; simpl in *; unfold take;
    rewrite nth_error_map, Hp; simpl;
    destruct (nth_error l j) eqn:E;
    try (apply nth_error_None in E; lia);
    rewrite (nth_nth_error _ _ _ _ E); reflexivity.
Qed.

Lemma col_select_take mask c :
  col_len c = List.length mask -> col_select mask c = col_take (kept mask) c.
Proof.
  destruct c as [l | l | l]; simpl; intros H; f_equal; apply select_kept;
    assumption.
Qed.

(** *** Rearranged rows *)

Lemma lookup_reindex p df n :
  lookup n (columns (reindex p df)) = option_map (col_take p) (lookup n (columns df)).
Proof. apply lookup_map_cols. Qed.

Lemma col_len_take p c : col_len (col_take p c) = List.length p.
Proof. destruct c; simpl; unfold take; apply length_map. Qed.

Lemma nrows_reindex p df : nrows (reindex p df) = List.length p.
Proof. unfold nrows, reindex, take. simpl. apply length_map. Qed.

Lemma aligned_reindex p df : aligned (reindex p df).
Proof.
  unfold aligned. rewrite nrows_reindex. unfold reindex. simpl.
  apply Forall_map. apply Forall_forall. intros nc _. apply col_len_take.
Qed.

(** Row [i] of the rearranged table is row [p_i] of the table. *)
Lemma cell_at_reindex p df n i j :
  aligned df -> nth_error p i = Some j -> (j < nrows df)%nat ->
  cell_at (reindex p df) n i = cell_at df n j.
Proof.
  intros Ha Hp Hj. unfold cell_at. rewrite lookup_reindex.
  destruct (lookup n (columns df)) as [c |] eqn:E; simpl; [| reflexivity].
  apply col_cell_take; [assumption |]. rewrite (aligned_lookup _ _ _ Ha E). assumption.
Qed.

Lemma isin_length c values : List.length (isin c values) = col_len c.
Proof. destruct c; simpl; apply length_map. Qed.

Lemma boolean_indexing_reindex df mask :
  aligned df -> List.length mask = nrows df ->
  boolean_indexing df mask = reindex (kept mask) df.
Proof.
  intros Ha Hm. unfold boolean_indexing, reindex. f_equal.
  - apply select_kept. symmetry. assumption.
  - apply map_ext_in. intros [n c] Hin. simpl. f_equal.
    apply col_select_take. rewrite Hm.
    unfold aligned in Ha. rewrite Forall_forall in Ha. apply (Ha (n, c) Hin).
Qed.

(** ** The statements of the cleaning cell *)

Lemma to_datetime_spec c d :
  to_datetime c = Ok d -> exists ds, d = DatetimeCol ds /\ col_len d = col_len c.
Proof.
  destruct c as [l | l | l]; simpl; intros H; try discriminate.
  - inv_bind H. inv_Ok H. eexists; split; [reflexivity |]. simpl.
    eapply mapM_length; eassumption.
  - inv_Ok H. eauto.
Qed.

Lemma convert_dates_spec df df' :
  convert_dates df = Ok df' -> aligned df ->
  aligned df' /\ index df' = index df
  /\ (forall m, m <> "date" -> lookup m (columns df') = lookup m (columns df))
  /\ exists ds, lookup "date" (columns df') = Some (DatetimeCol ds).
Proof.
  unfold convert_dates. intros H Ha. inv_bind H. inv_bind H. inv_Ok H.
  apply getitem_Ok in E.
  destruct (to_datetime_spec _ _ E0) as (ds & -> & Hlen).
  repeat split.
  - apply aligned_setitem; [assumption |].
    rewrite Hlen. eapply aligned_lookup; eassumption.
  - intros m Hm. simpl. apply lookup_replace_other. congruence.
  - exists ds. simpl. apply lookup_replace_same.
Qed.

Lemma filter_countries_spec countries df df' :
  filter_countries countries df = Ok df' -> aligned df ->
  exists c, lookup "location" (columns df) = Some c
            /\ df' = reindex (kept (isin c countries)) df.
Proof.
  unfold filter_countries. intros H Ha. inv_bind H. inv_Ok H.
  apply getitem_Ok in E. exists x. split; [assumption |].
  apply boolean_indexing_reindex; [assumption |].
  rewrite isin_length. eapply aligned_lookup; eassumption.
Qed.

Lemma mapM_getitem df names cols :
  mapM (fun n => c <- getitem df n ;; Ok (n, c)) names = Ok cols ->
  map fst cols = names
  /\ Forall (fun nc => lookup (fst nc) (columns df) = Some (snd nc)) cols.
Proof.
  revert cols. induction names as [| n r IH]; simpl; intros cols H.
  - inv_Ok H. split; [reflexivity | constructor].
  - inv_bind H. inv_bind E. inv_Ok E. inv_bind H. inv_Ok H.
    destruct (IH _ E) as [Hn Hf]. apply getitem_Ok in E0.
    split; [simpl; congruence | constructor; assumption].
Qed.

Lemma lookup_selected (cols0 cols : list (string * column)) m :
  Forall (fun nc => lookup (fst nc) cols0 = Some (snd nc)) cols ->
  lookup m cols = if mem_string m (map fst cols) then lookup m cols0 else None.
Proof.
  induction 1 as [| [n c] r Hn Hr IH]; simpl; [reflexivity |].
  rewrite (String.eqb_sym m n).
  destruct (String.eqb_spec n m) as [-> | Hnm]; simpl; [auto | exact IH].
Qed.

Lemma select_columns_spec cols df df' :
  select_columns cols df = Ok df' -> aligned df ->
  aligned df' /\ index df' = index df
  /\ map fst (columns df') = cols
  /\ forall m, lookup m (columns df')
               = if mem_string m cols then lookup m (columns df) else None.
Proof.
  unfold select_columns, getitem_list. intros H Ha. inv_bind H. inv_Ok H.
  destruct (mapM_getitem _ _ _ E) as [Hn Hf]. simpl.
  repeat split; auto.
  - unfold aligned, nrows. simpl. apply Forall_forall. intros [n c] Hin.
    rewrite Forall_forall in Hf. specialize (Hf _ Hin). simpl in *.
    eapply aligned_lookup; eassumption.
  - intros m. rewrite <- Hn. apply lookup_selected. assumption.
Qed.

Lemma col_len_fillna c v : col_len (fillna c v) = col_len c.
Proof. destruct c; simpl; auto using length_map. Qed.

Lemma col_cell_fillna c v i :
  col_cell (fillna c v) i = option_map (fill_cell v) (col_cell c i).
Proof.
  destruct c as [l | l | l]; simpl; try rewrite nth_error_map;
    destruct (nth_error l i); reflexivity.
Qed.

Lemma fill_column_spec n df df' :
  fill_column n df = Ok df' -> aligned df ->
  aligned df' /\ index df' = index df
  /\ (forall m, m <> n -> lookup m (columns df') = lookup m (columns df))
  /\ exists c, lookup n (columns df) = Some c
               /\ lookup n (columns df') = Some (fillna c (S754_zero false)).
Proof.
  unfold fill_column. intros H Ha. inv_bind H. inv_Ok H.
  apply getitem_Ok in E. repeat split.
  - apply aligned_setitem; [assumption |]. rewrite col_len_fillna.
    eapply aligned_lookup; eassumption.
  - intros m Hm. simpl. apply lookup_replace_other. congruence.
  - exists x. split; [assumption |]. simpl. apply lookup_replace_same.
Qed.

(** Row by row: [fillna(0)] on one column, every other column as it was. *)
Lemma fill_column_cells n df df' :
  fill_column n df = Ok df' -> aligned df ->
  forall m i,
    cell_at df' m i
    = if String.eqb n m
      then option_map (fill_cell (S754_zero false)) (cell_at df m i)
      else cell_at df m i.
Proof.
  intros H Ha m i.
  destruct (fill_column_spec _ _ _ H Ha) as (_ & _ & Ho & c & Hc & Hc').
  unfold cell_at. destruct (String.eqb_spec n m) as [<- | Hnm].
  - rewrite Hc, Hc'. apply col_cell_fillna.
  - rewrite Ho by congruence. reflexivity.
Qed.

Lemma handle_missing_spec df df' :
  handle_missing df = Ok df' -> aligned df ->
  aligned df' /\ index df' = index df
  /\ forall m i,
      cell_at df' m i
      = if mem_string m filled_columns
        then option_map (fill_cell (S754_zero false)) (cell_at df m i)
        else cell_at df m i.
Proof.
  unfold handle_missing. intros H Ha.
  inv_bind H. inv_bind H. inv_bind H.
  pose proof (fill_column_spec _ _ _ E Ha) as (Ha1 & Hi1 & _).
  pose proof (fill_column_spec _ _ _ E0 Ha1) as (Ha2 & Hi2 & _).
  pose proof (fill_column_spec _ _ _ E1 Ha2) as (Ha3 & Hi3 & _).
  pose proof (fill_column_spec _ _ _ H Ha3) as (Ha4 & Hi4 & _).
  repeat split; [assumption | congruence |].
  intros m i.
  rewrite (fill_column_cells _ _ _ H Ha3), (fill_column_cells _ _ _ E1 Ha2),
    (fill_column_cells _ _ _ E0 Ha1), (fill_column_cells _ _ _ E Ha).
  unfold filled_columns, mem_string. cbn [existsb].
  rewrite !(String.eqb_sym m).
  destruct (String.eqb_spec "total_cases" m) as [<- | ?]; [reflexivity |].
  destruct (String.eqb_spec "new_cases" m) as [<- | ?]; [reflexivity |].
  destruct (String.eqb_spec "total_deaths" m) as [<- | ?]; [reflexivity |].
  destruct (String.eqb_spec "new_deaths" m) as [<- | ?]; reflexivity.
Qed.

Lemma nth_error_combine {A B : Type} (la : list A) (lb : list B) i :
  nth_error (combine la lb) i
  = match nth_error la i, nth_error lb i with
    | Some a, Some b => Some (a, b)
    | _, _ => None
    end.
Proof.
  revert lb i. induction la as [| a la IH]; intros lb i.
  - destruct i; reflexivity.
  - destruct lb as [| b lb]; simpl.
    + destruct i; simpl; [reflexivity |]. destruct (nth_error la i); reflexivity.
    + destruct i; simpl; [reflexivity | apply IH].
Qed.

Lemma ratio_column_spec t a b df df' :
  ratio_column t a b df = Ok df' -> aligned df ->
  aligned df' /\ index df' = index df
  /\ (forall m, m <> t -> lookup m (columns df') = lookup m (columns df))
  /\ exists la lb,
       lookup a (columns df) = Some (Float64Col la)
       /\ lookup b (columns df) = Some (Float64Col lb)
       /\ lookup t (columns df')
          = Some (Float64Col (map (fun p => percent (fst p) (snd p)) (combine la lb))).
Proof.
  unfold ratio_column. intros H Ha.
  inv_bind H. inv_bind H. inv_bind H. inv_bind H. inv_Ok H.
  apply getitem_Ok in E, E0.
  destruct x as [| la |]; try discriminate.
  destruct x0 as [| lb |]; try discriminate.
  simpl in E1. inv_Ok E1. simpl in E2. inv_Ok E2. rewrite map_map.
  pose proof (aligned_lookup _ _ _ Ha E) as Hla.
  pose proof (aligned_lookup _ _ _ Ha E0) as Hlb. simpl in Hla, Hlb.
  repeat split.
  - apply aligned_setitem; [assumption |]. simpl.
    rewrite length_map, length_combine. lia.
  - intros m Hm. simpl. apply lookup_replace_other. congruence.
  - exists la, lb. repeat split; try assumption.
    simpl. apply lookup_replace_same.
Qed.

(** Row by row: the new column reads the two fields of the same row. *)
Lemma ratio_column_cells t a b df df' :
  ratio_column t a b df = Ok df' -> aligned df ->
  forall m i,
    cell_at df' m i
    = if String.eqb t m then ratio_cell (cell_at df a i) (cell_at df b i)
      else cell_at df m i.
Proof.
  intros H Ha m i.
  destruct (ratio_column_spec _ _ _ _ _ H Ha)
    as (_ & _ & Ho & la & lb & Hla & Hlb & Ht).
  unfold cell_at. destruct (String.eqb_spec t m) as [<- | Htm].
  - rewrite Ht, Hla, Hlb. simpl. rewrite nth_error_map, nth_error_combine.
    destruct (nth_error la i), (nth_error lb i); reflexivity.
  - rewrite Ho by congruence. reflexivity.
Qed.

Lemma derive_metrics_spec df df' :
  derive_metrics df = Ok df' -> aligned df ->
  aligned df' /\ index df' = index df
  /\ forall m i,
      cell_at df' m i
      = if String.eqb "vaccination_rate" m
        then ratio_cell (cell_at df "people_vaccinated" i) (cell_at df "population" i)
        else if String.eqb "case_fatality_rate" m
        then ratio_cell (cell_at df "total_deaths" i) (cell_at df "total_cases" i)
        else cell_at df m i.
Proof.
  unfold derive_metrics. intros H Ha. inv_bind H.
  pose proof (ratio_column_spec _ _ _ _ _ E Ha) as (Ha1 & Hi1 & _).
  pose proof (ratio_column_spec _ _ _ _ _ H Ha1) as (Ha2 & Hi2 & _).
  repeat split; [assumption | congruence |].
  intros m i.
  rewrite (ratio_column_cells _ _ _ _ _ H Ha1).
  rewrite !(ratio_column_cells _ _ _ _ _ E Ha).
  reflexivity.
Qed.

(** *** The sort permutes positions *)

Section StableSortFacts.
Context {A : Type} (leb : A -> A -> bool).

Lemma insert_perm x l : Permutation (insert leb x l) (x :: l).
Proof.
  induction l as [| y r IH]; simpl; [reflexivity |].
  destruct (leb x y); [reflexivity |].
  rewrite IH. apply perm_swap.
Qed.

Lemma stable_sort_perm l : Permutation (stable_sort leb l) l.
Proof.
  induction l as [| x r IH]; simpl; [reflexivity |].
  rewrite insert_perm. constructor. assumption.
Qed.

Hypothesis leb_total : forall a b, leb a b = true \/ leb b a = true.
Hypothesis leb_trans :
  forall a b c, leb a b = true -> leb b c = true -> leb a c = true.

Lemma insert_sorted x l :
  StronglySorted (fun a b => leb a b = true) l ->
  StronglySorted (fun a b => leb a b = true) (insert leb x l).
Proof.
  induction 1 as [| y r Hr IH Hy]; simpl.
  - constructor; constructor.
  - destruct (leb x y) eqn:E.
    + constructor; [constructor; assumption |].
      constructor; [assumption |].
      eapply Forall_impl; [| exact Hy]. intros z Hz. eauto.
    + constructor; [assumption |].
      assert (Hyx : leb y x = true) by (destruct (leb_total x y); congruence).
      eapply Permutation_Forall; [symmetry; apply insert_perm |].
      constructor; assumption.
Qed.

Lemma stable_sort_sorted l :
  StronglySorted (fun a b => leb a b = true) (stable_sort leb l).
Proof.
  induction l as [| x r IH]; simpl; [constructor | apply insert_sorted; exact IH].
Qed.
End StableSortFacts.

Lemma argsort_perm keys n : Permutation (argsort keys n) (seq 0 n).
Proof. apply stable_sort_perm. Qed.

Lemma argsort_lt keys n j : In j (argsort keys n) -> (j < n)%nat.
Proof.
  intros H. apply (Permutation_in _ (argsort_perm keys n)) in H.
  apply in_seq in H. lia.
Qed.

Lemma sort_values_spec df by_ df' :
  sort_values df by_ = Ok df' ->
  exists keys, mapM (getitem df) by_ = Ok keys
               /\ df' = reindex (argsort keys (nrows df)) df.
Proof.
  unfold sort_values. intros H. inv_bind H. inv_Ok H. eauto.
Qed.

(** Every row of the rearranged table is a row of the table. *)
Lemma reindex_rows p df :
  aligned df -> (forall j, In j p -> (j < nrows df)%nat) ->
  forall i, (i < nrows (reindex p df))%nat ->
    exists j, (j < nrows df)%nat /\ nth_error p i = Some j
              /\ forall m, cell_at (reindex p df) m i = cell_at df m j.
Proof.
  intros Ha Hp i Hi. rewrite nrows_reindex in Hi.
  destruct (nth_error p i) as [j |] eqn:E;
    [| apply nth_error_None in E; lia].
  exists j. assert (Hj : (j < nrows df)%nat) by (apply Hp; eapply nth_error_In; eauto).
  repeat split; auto. intros m. apply cell_at_reindex; assumption.
Qed.

Lemma kept_lt mask j : In j (kept mask) -> (j < List.length mask)%nat.
Proof.
  intros H. apply kept_spec in H. apply nth_error_Some. congruence.
Qed.

(** ** The cleaned table, row by row *)

Lemma clean_inv countries cols raw df :
  clean countries cols raw = Ok df -> aligned raw ->
  exists df1 df2 df3 df4 df5,
    convert_dates raw = Ok df1
    /\ filter_countries countries df1 = Ok df2
    /\ select_columns cols df2 = Ok df3
    /\ handle_missing df3 = Ok df4
    /\ derive_metrics df4 = Ok df5
    /\ sort_values df5 ["location"; "date"] = Ok df
    /\ aligned df1 /\ aligned df2 /\ aligned df3 /\ aligned df4 /\ aligned df5.
Proof.
  unfold clean. intros H Ha.
  inv_bind H. inv_bind H. inv_bind H. inv_bind H. inv_bind H.
  exists x, x0, x1, x2, x3.
  pose proof (convert_dates_spec _ _ E Ha) as (Ha1 & _).
  destruct (filter_countries_spec _ _ _ E0 Ha1) as (c & _ & Hdf2).
  assert (Ha2 : aligned x0) by (rewrite Hdf2; apply aligned_reindex).
  pose proof (select_columns_spec _ _ _ E1 Ha2) as (Ha3 & _).
  pose proof (handle_missing_spec _ _ E2 Ha3) as (Ha4 & _).
  pose proof (derive_metrics_spec _ _ E3 Ha4) as (Ha5 & _).
  repeat split; assumption.
Qed.

Lemma fill_cell_not_nan c x :
  fill_cell (S754_zero false) c = CNum x -> isna x = false.
Proof.
  destruct c as [s | y | d]; simpl; try discriminate.
  intros H. inv_Ok H. destruct (isna y) eqn:E; [reflexivity | assumption].
Qed.

Lemma float_column_cell l i (n : nat) :
  List.length l = n -> (i < n)%nat ->
  exists x, col_cell (Float64Col l) i = Some (CNum x).
Proof.
  intros Hl Hi. simpl. destruct (nth_error l i) eqn:E.
  - simpl. eauto.
  - apply nth_error_None in E. lia.
Qed.

(** The rows a ratio column is computed on all have both operands. *)
Lemma ratio_column_operands t a b df df' i :
  ratio_column t a b df = Ok df' -> aligned df -> (i < nrows df)%nat ->
  exists x y, cell_at df a i = Some (CNum x) /\ cell_at df b i = Some (CNum y).
Proof.
  intros H Ha Hi.
  destruct (ratio_column_spec _ _ _ _ _ H Ha)
    as (_ & _ & _ & la & lb & Hla & Hlb & _).
  pose proof (aligned_lookup _ _ _ Ha Hla) as Ea.
  pose proof (aligned_lookup _ _ _ Ha Hlb) as Eb. simpl in Ea, Eb.
  destruct (float_column_cell la i _ Ea Hi) as (x & Hx).
  destruct (float_column_cell lb i _ Eb Hi) as (y & Hy).
  exists x, y. unfold cell_at. rewrite Hla, Hlb. auto.
Qed.

Lemma nrows_index df df' : index df' = index df -> nrows df' = nrows df.
Proof. unfold nrows. congruence. Qed.

(** Each row of the table after [derive_metrics (handle_missing _)]. *)
Lemma derived_row df3 df4 df5 :
  handle_missing df3 = Ok df4 -> derive_metrics df4 = Ok df5 -> aligned df3 ->
  forall j, (j < nrows df5)%nat ->
  exists tc td pv pop,
    cell_at df5 "total_cases" j = Some (CNum tc)
    /\ cell_at df5 "total_deaths" j = Some (CNum td)
    /\ cell_at df5 "people_vaccinated" j = Some (CNum pv)
    /\ cell_at df5 "population" j = Some (CNum pop)
    /\ isna tc = false /\ isna td = false
    /\ cell_at df5 "case_fatality_rate" j = Some (CNum (percent td tc))
    /\ cell_at df5 "vaccination_rate" j = Some (CNum (percent pv pop))
    /\ (forall x, cell_at df5 "new_cases" j = Some (CNum x) -> isna x = false)
    /\ (forall x, cell_at df5 "new_deaths" j = Some (CNum x) -> isna x = false).
Proof.
  intros Hm Hd Ha3 j Hj.
  destruct (handle_missing_spec _ _ Hm Ha3) as (Ha4 & Hi4 & Hc4).
  destruct (derive_metrics_spec _ _ Hd Ha4) as (Ha5 & Hi5 & Hc5).
  rewrite (nrows_index _ _ Hi5) in Hj.
  pose proof Hd as Hd'. unfold derive_metrics in Hd'. inv_bind Hd'.
  destruct (ratio_column_operands _ _ _ _ _ j E Ha4 Hj) as (td & tc & Htd & Htc).
  pose proof (ratio_column_spec _ _ _ _ _ E Ha4) as (Hax & Hix & _).
  rewrite <- (nrows_index _ _ Hix) in Hj.
  destruct (ratio_column_operands _ _ _ _ _ j Hd' Hax Hj) as (pv & pop & Hpv & Hpop).
  rewrite (ratio_column_cells _ _ _ _ _ E Ha4) in Hpv, Hpop.
  change (String.eqb "case_fatality_rate" "people_vaccinated") with false in Hpv.
  change (String.eqb "case_fatality_rate" "population") with false in Hpop.
  cbv iota in Hpv, Hpop.
  exists tc, td, pv, pop.
  rewrite !Hc5.
  repeat match goal with
         | |- context [String.eqb ?a ?b] =>
             let v := eval vm_compute in (String.eqb a b) in
             change (String.eqb a b) with v
         end.
  cbv iota. rewrite Htd, Htc, Hpv, Hpop.
  assert (Ntc : isna tc = false).
  { rewrite Hc4 in Htc. change (mem_string "total_cases" filled_columns) with true in Htc.
    cbv iota in Htc. destruct (cell_at df3 "total_cases" j); [| discriminate].
    simpl in Htc. inv_Ok Htc. eapply fill_cell_not_nan; eauto. }
  assert (Ntd : isna td = false).
  { rewrite Hc4 in Htd. change (mem_string "total_deaths" filled_columns) with true in Htd.
    cbv iota in Htd. destruct (cell_at df3 "total_deaths" j); [| discriminate].
    simpl in Htd. inv_Ok Htd. eapply fill_cell_not_nan; eauto. }
  repeat split; try assumption; try reflexivity.
  - intros v Hv. rewrite Hc4 in Hv.
    change (mem_string "new_cases" filled_columns) with true in Hv.
    cbv iota in Hv. destruct (cell_at df3 "new_cases" j); [| discriminate].
    simpl in Hv. inv_Ok Hv. eapply fill_cell_not_nan; eauto.
  - intros v Hv. rewrite Hc4 in Hv.
    change (mem_string "new_deaths" filled_columns) with true in Hv.
    cbv iota in Hv. destruct (cell_at df3 "new_deaths" j); [| discriminate].
    simpl in Hv. inv_Ok Hv. eapply fill_cell_not_nan; eauto.
Qed.

Lemma isin_true c values k :
  nth_error (isin c values) k = Some true ->
  exists s, col_cell c k = Some (CStr s) /\ mem_string s values = true.
Proof.
  destruct c as [l | l | l]; simpl; rewrite nth_error_map;
    destruct (nth_error l k); simpl; intros H; inv_Ok H.
  eauto.
Qed.

(** Every row of the cleaned table is a row of the table after
    [derive_metrics]. *)
Lemma clean_rows countries cols raw df :
  clean countries cols raw = Ok df -> aligned raw ->
  exists df3 df4 df5,
    handle_missing df3 = Ok df4 /\ derive_metrics df4 = Ok df5 /\ aligned df3
    /\ aligned df5
    /\ (exists keys, df = reindex (argsort keys (nrows df5)) df5)
    /\ forall i, (i < nrows df)%nat ->
         exists j, (j < nrows df5)%nat
                   /\ forall m, cell_at df m i = cell_at df5 m j.
Proof.
  intros H Ha.
  destruct (clean_inv _ _ _ _ H Ha)
    as (df1 & df2 & df3 & df4 & df5 & E1 & E2 & E3 & E4 & E5 & E6 &
        A1 & A2 & A3 & A4 & A5).
  exists df3, df4, df5. repeat split; try assumption.
  - destruct (sort_values_spec _ _ _ E6) as (keys & _ & ->). eauto.
  - destruct (sort_values_spec _ _ _ E6) as (keys & _ & ->).
    intros i Hi.
    destruct (reindex_rows _ _ A5 (argsort_lt keys (nrows df5)) i Hi)
      as (j & Hj & _ & Hc).
    eauto.
Qed.

Lemma cleaned_row countries cols raw df :
  clean countries cols raw = Ok df -> aligned raw ->
  forall i, (i < nrows df)%nat ->
  exists tc td pv pop,
    cell_at df "total_cases" i = Some (CNum tc)
    /\ cell_at df "total_deaths" i = Some (CNum td)
    /\ cell_at df "people_vaccinated" i = Some (CNum pv)
    /\ cell_at df "population" i = Some (CNum pop)
    /\ isna tc = false /\ isna td = false
    /\ cell_at df "case_fatality_rate" i = Some (CNum (percent td tc))
    /\ cell_at df "vaccination_rate" i = Some (CNum (percent pv pop))
    /\ (forall x, cell_at df "new_cases" i = Some (CNum x) -> isna x = false)
    /\ (forall x, cell_at df "new_deaths" i = Some (CNum x) -> isna x = false).
Proof.
  intros H Ha i Hi.
  destruct (clean_rows _ _ _ _ H Ha)
    as (df3 & df4 & df5 & E4 & E5 & A3 & _ & _ & Hrows).
  destruct (Hrows i Hi) as (j & Hj & Hc).
  rewrite !Hc. eapply derived_row; eassumption.
Qed.

(** Where a row of the cleaned table comes from: a row of the file whose
    location is on the whitelist; the four filled fields went through
    [fillna(0)], the other kept fields are the file's. *)
Lemma cleaned_row_source countries cols raw df :
  clean countries cols raw = Ok df -> aligned raw ->
  forall i, (i < nrows df)%nat ->
  exists k, (k < nrows raw)%nat
    /\ (exists s, cell_at raw "location" k = Some (CStr s)
                  /\ mem_string s countries = true)
    /\ forall m, mem_string m cols = true ->
         m <> "date" -> m <> "case_fatality_rate" -> m <> "vaccination_rate" ->
         cell_at df m i
         = if mem_string m filled_columns
           then option_map (fill_cell (S754_zero false)) (cell_at raw m k)
           else cell_at raw m k.
Proof.
  intros H Ha i Hi.
  destruct (clean_inv _ _ _ _ H Ha)
    as (df1 & df2 & df3 & df4 & df5 & E1 & E2 & E3 & E4 & E5 & E6 &
        A1 & A2 & A3 & A4 & A5).
  destruct (sort_values_spec _ _ _ E6) as (keys & _ & ->).
  destruct (reindex_rows _ _ A5 (argsort_lt keys (nrows df5)) i Hi)
    as (j & Hj & _ & Hc).
  destruct (derive_metrics_spec _ _ E5 A4) as (_ & I5 & C5).
  destruct (handle_missing_spec _ _ E4 A3) as (_ & I4 & C4).
  destruct (select_columns_spec _ _ _ E3 A2) as (_ & I3 & _ & C3).
  destruct (filter_countries_spec _ _ _ E2 A1) as (c & Hloc & ->).
  destruct (convert_dates_spec _ _ E1 Ha) as (_ & I1 & C1 & _).
  rewrite (nrows_index _ _ I5), (nrows_index _ _ I4), (nrows_index _ _ I3) in Hj.
  assert (Hmask : List.length (isin c countries) = nrows df1).
  { rewrite isin_length. eapply aligned_lookup; eassumption. }
  assert (Hk : forall k, In k (kept (isin c countries)) -> (k < nrows df1)%nat).
  { intros k Hin. rewrite <- Hmask. apply kept_lt. assumption. }
  destruct (reindex_rows _ _ A1 Hk j Hj) as (k & Hk1 & Hnth & Hck).
  exists k. split; [rewrite <- (nrows_index _ _ I1); assumption |]. split.
  - apply nth_error_In, kept_spec, isin_true in Hnth.
    destruct Hnth as (s & Hs & Hmem). exists s. split; [| assumption].
    unfold cell_at. rewrite <- C1 by discriminate. rewrite Hloc. assumption.
  - intros m Hm Hd Hcfr Hvr. rewrite Hc, C5.
    destruct (String.eqb_spec "vaccination_rate" m); [congruence |].
    destruct (String.eqb_spec "case_fatality_rate" m); [congruence |].
    rewrite C4.
    assert (E : cell_at df3 m j = cell_at raw m k).
    { transitivity (cell_at (reindex (kept (isin c countries)) df1) m j).
      - unfold cell_at. rewrite C3, Hm. reflexivity.
      - rewrite Hck. unfold cell_at. rewrite C1 by assumption. reflexivity. }
    rewrite E. reflexivity.
Qed.

(** ** The order of [sort_values(['location', 'date'])] *)

Lemma ascii_compare_refl a : Ascii.compare a a = Eq.
Proof. unfold Ascii.compare. apply N.compare_refl. Qed.

Lemma ascii_compare_trans a b c :
  Ascii.compare a b = Lt -> Ascii.compare b c = Lt -> Ascii.compare a c = Lt.
Proof.
  unfold Ascii.compare. rewrite !N.compare_lt_iff. apply N.lt_trans.
Qed.

Lemma string_compare_refl s : String.compare s s = Eq.
Proof.
  induction s as [| a s IH]; simpl; [reflexivity |].
  rewrite ascii_compare_refl. assumption.
Qed.

Lemma string_compare_eq s t : String.compare s t = Eq <-> s = t.
Proof.
  split; [apply String.compare_eq_iff | intros ->; apply string_compare_refl].
Qed.

Lemma string_compare_trans s t u :
  String.compare s t = Lt -> String.compare t u = Lt -> String.compare s u = Lt.
Proof.
  revert t u. induction s as [| a s IH]; intros [| b t] [| c u]; simpl;
    try discriminate; try reflexivity.
  destruct (Ascii.compare a b) eqn:Eab; try discriminate;
    destruct (Ascii.compare b c) eqn:Ebc; try discriminate; intros H1 H2.
  - apply Ascii.compare_eq_iff in Eab, Ebc. subst.
    rewrite ascii_compare_refl. eauto.
  - apply Ascii.compare_eq_iff in Eab. subst. rewrite Ebc. reflexivity.
  - apply Ascii.compare_eq_iff in Ebc. subst. rewrite Eab. reflexivity.
  - rewrite (ascii_compare_trans _ _ _ Eab Ebc). reflexivity.
Qed.

Lemma string_compare_gt s t : String.compare s t = Gt <-> String.compare t s = Lt.
Proof.
  rewrite (String.compare_antisym t s).
  destruct (String.compare s t); simpl; split; congruence.
Qed.

Lemma key_le_total a b : key_le a b \/ key_le b a.
Proof.
  unfold key_le. destruct (String.compare (fst a) (fst b)) eqn:E.
  - apply string_compare_eq in E.
    destruct (Z.le_ge_cases (snd a) (snd b)); [left | right]; right; split;
      auto; lia.
  - auto.
  - apply string_compare_gt in E. auto.
Qed.

Lemma key_le_trans a b c : key_le a b -> key_le b c -> key_le a c.
Proof.
  unfold key_le. intros [H1 | [H1 H1']] [H2 | [H2 H2']].
  - left. eapply string_compare_trans; eassumption.
  - left. rewrite <- H2. assumption.
  - left. rewrite H1. assumption.
  - right. split; [congruence | lia].
Qed.

(** The comparison of two positions under the keys [location], [date]. *)
Lemma row_leb_key_le locs dates i j :
  row_leb [ObjectCol locs; DatetimeCol dates] i j = true
  <-> key_le (nth i locs "", nth i dates 0) (nth j locs "", nth j dates 0).
Proof.
  unfold row_leb, key_le. simpl.
  destruct (String.compare (nth i locs "") (nth j locs "")) eqn:E.
  - apply string_compare_eq in E.
    destruct (Z.compare_spec (nth i dates 0) (nth j dates 0)); split;
      try (intros _; right; split; [assumption | lia]); auto;
      try discriminate.
    intros [H1 | [_ H1]]; [discriminate | lia].
  - split; auto.
  - split; [discriminate |]. intros [H | [H _]]; [discriminate |].
    apply string_compare_eq in H. congruence.
Qed.

Lemma StronglySorted_nth {A : Type} (R : A -> A -> Prop) l :
  StronglySorted R l ->
  forall i j a b, (i < j)%nat ->
    nth_error l i = Some a -> nth_error l j = Some b -> R a b.
Proof.
  induction 1 as [| x r Hr IH Hx]; intros i j a b Hij Hi Hj.
  - destruct i; discriminate.
  - destruct j as [| j]; [lia |]. simpl in Hj.
    destruct i as [| i]; simpl in Hi.
    + inv_Ok Hi. rewrite Forall_forall in Hx. apply Hx.
      eapply nth_error_In; eassumption.
    + apply (IH i j); auto. lia.
Qed.

Lemma col_cell_str c i s :
  col_cell c i = Some (CStr s) -> exists l, c = ObjectCol l /\ nth_error l i = Some s.
Proof.
  destruct c as [l | l | l]; simpl; destruct (nth_error l i) eqn:E; simpl;
    intros H; inv_Ok H. eauto.
Qed.

Lemma col_cell_date c i d :
  col_cell c i = Some (CDate d) -> exists l, c = DatetimeCol l /\ nth_error l i = Some d.
Proof.
  destruct c as [l | l | l]; simpl; destruct (nth_error l i) eqn:E; simpl;
    intros H; inv_Ok H. eauto.
Qed.

Lemma cell_at_lt df m i x :
  aligned df -> cell_at df m i = Some x -> (i < nrows df)%nat.
Proof.
  unfold cell_at. intros Ha H.
  destruct (lookup m (columns df)) as [c |] eqn:E; [| discriminate].
  rewrite <- (aligned_lookup _ _ _ Ha E). eapply col_cell_lt; eassumption.
Qed.

Lemma sort_values_sorted df df' :
  sort_values df ["location"; "date"] = Ok df' -> aligned df ->
  sorted_by_location_date df'.
Proof.
  intros H Ha. destruct (sort_values_spec _ _ _ H) as (keys & Hk & ->).
  simpl in Hk. inv_bind Hk. inv_bind Hk. inv_bind E0. inv_Ok E0. inv_Ok Hk.
  rename x into cl, x1 into cd. apply getitem_Ok in E, E1.
  set (p := argsort [cl; cd] (nrows df)).
  intros i j l1 d1 l2 d2 Hij Hl1 Hd1 Hl2 Hd2.
  assert (Hj : (j < nrows (reindex p df))%nat).
  { eapply cell_at_lt; [apply aligned_reindex | exact Hl2]. }
  assert (Hi : (i < nrows (reindex p df))%nat) by lia.
  destruct (reindex_rows p df Ha (argsort_lt _ _) i Hi) as (pi & Hpi & Hni & Hci).
  destruct (reindex_rows p df Ha (argsort_lt _ _) j Hj) as (pj & Hpj & Hnj & Hcj).
  rewrite Hci in Hl1, Hd1. rewrite Hcj in Hl2, Hd2.
  unfold cell_at in Hl1, Hd1, Hl2, Hd2. rewrite E in Hl1, Hl2. rewrite E1 in Hd1, Hd2.
  destruct (col_cell_str _ _ _ Hl1) as (locs & -> & Nl1).
  destruct (col_cell_date _ _ _ Hd1) as (dates & -> & Nd1).
  simpl in Hl2, Hd2.
  destruct (nth_error locs pj) as [l2' |] eqn:Nl2; [| discriminate].
  destruct (nth_error dates pj) as [d2' |] eqn:Nd2; [| discriminate].
  simpl in Hl2, Hd2. inv_Ok Hl2. inv_Ok Hd2.
  assert (Hs : StronglySorted
                 (fun a b => row_leb [ObjectCol locs; DatetimeCol dates] a b = true) p).
  { apply stable_sort_sorted.
    - intros a b. rewrite !row_leb_key_le. apply key_le_total.
    - intros a b c. rewrite !row_leb_key_le. apply key_le_trans. }
  pose proof (StronglySorted_nth _ _ Hs i j pi pj Hij Hni Hnj) as Hle.
  apply row_leb_key_le in Hle.
  rewrite (nth_nth_error _ _ _ _ Nl1), (nth_nth_error _ _ _ _ Nd1),
    (nth_nth_error _ _ _ _ Nl2), (nth_nth_error _ _ _ _ Nd2) in Hle.
  exact Hle.
Qed.

(** ** [groupby]: one entry per key, in ascending key order, holding the
    fold of the group's values in row order *)

Section GroupByFacts.
Context {V A : Type} (init : V -> A) (step : A -> V -> A).

Lemma aggregate_keys k v acc k' :
  In k' (map fst (aggregate init step k v acc))
  <-> k' = k \/ In k' (map fst acc).
Proof.
  induction acc as [| [k0 a] r IH]; simpl.
  - intuition.
  - destruct (String.compare k k0) eqn:E; simpl.
    + apply string_compare_eq in E. subst. intuition.
    + intuition.
    + rewrite IH. intuition.
Qed.

Lemma aggregate_ascending k v acc :
  ascending (map fst acc) -> ascending (map fst (aggregate init step k v acc)).
Proof.
  unfold ascending. induction acc as [| [k0 a] r IH]; simpl; intros H.
  - constructor; constructor.
  - inversion H as [| ? ? Hr Hk]; subst.
    destruct (String.compare k k0) eqn:E; simpl.
    + assumption.
    + constructor; [assumption |]. constructor; [assumption |].
      eapply Forall_impl; [| exact Hk]. intros z Hz.
      eapply string_compare_trans; eassumption.
    + constructor; [auto |]. apply Forall_forall. intros z Hz.
      apply aggregate_keys in Hz. destruct Hz as [-> | Hz].
      * apply string_compare_gt. assumption.
      * rewrite Forall_forall in Hk. auto.
Qed.

Lemma assoc_not_in k (acc : list (string * A)) :
  ~ In k (map fst acc) -> assoc k acc = None.
Proof.
  induction acc as [| [k0 a] r IH]; simpl; intros H; [reflexivity |].
  destruct (String.eqb_spec k0 k); [exfalso; auto | auto].
Qed.

Lemma ascending_head_not_in k k0 (r : list string) :
  String.compare k k0 = Lt -> ascending (k0 :: r) -> ~ In k (k0 :: r).
Proof.
  intros E H Hin. inversion H as [| ? ? Hr Hk]; subst.
  destruct Hin as [-> | Hin].
  - rewrite string_compare_refl in E. discriminate.
  - rewrite Forall_forall in Hk. specialize (Hk _ Hin).
    pose proof (string_compare_trans _ _ _ E Hk) as F.
    rewrite string_compare_refl in F. discriminate.
Qed.

Lemma assoc_aggregate k v acc k' :
  ascending (map fst acc) ->
  assoc k' (aggregate init step k v acc)
  = if String.eqb k k' then push init step (assoc k acc) v else assoc k' acc.
Proof.
  induction acc as [| [k0 a] r IH]; simpl; intros H.
  - reflexivity.
  - destruct (String.compare k k0) eqn:E; simpl.
    + apply string_compare_eq in E. subst k0. rewrite String.eqb_refl.
      destruct (String.eqb_spec k k'); reflexivity.
    + destruct (String.eqb_spec k k') as [Hk | Hk].
      * subst k'. assert (Hk0 : String.eqb k0 k = false).
        { apply String.eqb_neq. intros ->.
          rewrite string_compare_refl in E. discriminate. }
        rewrite Hk0. rewrite assoc_not_in; [reflexivity |].
        intros Hin. apply (ascending_head_not_in k k0 (map fst r) E H).
        right. assumption.
      * reflexivity.
    + inversion H as [| ? ? Hr Hk0]; subst. rewrite (IH Hr).
      assert (Hne : String.eqb k0 k = false).
      { apply String.eqb_neq. intros ->.
        rewrite string_compare_refl in E. discriminate. }
      rewrite Hne.
      destruct (String.eqb_spec k0 k') as [Hk' | Hk'].
      * subst k'. rewrite String.eqb_sym, Hne. reflexivity.
      * reflexivity.
Qed.

Lemma fold_aggregate_ascending kvs acc :
  ascending (map fst acc) ->
  ascending (map fst (fold_left (fun acc kv => aggregate init step (fst kv) (snd kv) acc)
                                kvs acc)).
Proof.
  revert acc. induction kvs as [| [k v] r IH]; simpl; intros acc H;
    [assumption |].
  apply IH. apply aggregate_ascending. assumption.
Qed.

Lemma assoc_fold_aggregate kvs acc k :
  ascending (map fst acc) ->
  assoc k (fold_left (fun acc kv => aggregate init step (fst kv) (snd kv) acc) kvs acc)
  = fold_left (push init step)
              (map snd (filter (fun kv => String.eqb (fst kv) k) kvs))
              (assoc k acc).
Proof.
  revert acc. induction kvs as [| [k0 v] r IH]; simpl; intros acc H;
    [reflexivity |].
  rewrite IH by (apply aggregate_ascending; assumption).
  rewrite assoc_aggregate by assumption.
  destruct (String.eqb_spec k0 k) as [-> | Hk]; reflexivity.
Qed.

(** The keys come out in strictly ascending order. *)
Lemma groupby_agg_ascending keys vals :
  ascending (map fst (groupby_agg init step keys vals)).
Proof. apply fold_aggregate_ascending. constructor. Qed.

(** The entry of a key is the fold over that key's rows. *)
Lemma groupby_agg_assoc keys vals k :
  assoc k (groupby_agg init step keys vals)
  = fold_left (push init step) (group k keys vals) None.
Proof. unfold groupby_agg, group. apply assoc_fold_aggregate. constructor. Qed.

Lemma push_fold_Some l o :
  l <> [] -> exists a, fold_left (push init step) l o = Some a.
Proof.
  revert o. induction l as [| v r IH]; intros o H; [contradiction |].
  simpl. destruct r as [| w r'].
  - simpl. unfold push. eauto.
  - apply IH. discriminate.
Qed.

Lemma assoc_In k a (l : list (string * A)) :
  ascending (map fst l) -> (In (k, a) l <-> assoc k l = Some a).
Proof.
  induction l as [| [k0 a0] r IH]; simpl; intros H.
  - split; [contradiction | discriminate].
  - inversion H as [| ? ? Hr Hk]; subst.
    destruct (String.eqb_spec k0 k) as [-> | Hne].
    + split.
      * intros [E | Hin]; [inv_Ok E; reflexivity |].
        exfalso. rewrite Forall_forall in Hk.
        specialize (Hk k (in_map fst _ _ Hin)).
        rewrite string_compare_refl in Hk. discriminate.
      * intros E. inv_Ok E. auto.
    + rewrite <- (IH Hr). split; [| auto].
      intros [E | Hin]; [inv_Ok E; contradiction | assumption].
Qed.

(** A key has an entry exactly when some row carries it. *)
Lemma groupby_agg_keys keys vals k :
  In k (map fst (groupby_agg init step keys vals)) <-> group k keys vals <> [].
Proof.
  split.
  - intros Hin Hg. apply in_map_iff in Hin. destruct Hin as ([k' a] & Hk & Hin).
    simpl in Hk. subst k'.
    apply assoc_In in Hin; [| apply groupby_agg_ascending].
    rewrite groupby_agg_assoc, Hg in Hin. discriminate.
  - intros Hg. destruct (push_fold_Some _ None Hg) as (a & Ha).
    rewrite <- groupby_agg_assoc in Ha.
    apply assoc_In in Ha; [| apply groupby_agg_ascending].
    apply (in_map fst) in Ha. exact Ha.
Qed.
End GroupByFacts.

Lemma push_fold_from_Some {V A : Type} (init : V -> A) (step : A -> V -> A) l a :
  fold_left (push init step) l (Some a) = Some (fold_left step l a).
Proof.
  revert a. induction l as [| v r IH]; intros a; simpl; [reflexivity | apply IH].
Qed.

(** *** The running maximum of a group *)

Lemma gt_nan_l v m : isna v = true -> gt v m = false.
Proof.
  destruct v; try discriminate. intros _. unfold gt, SFltb, SFcompare.
  destruct m; reflexivity.
Qed.






(** *** The earliest date of a group *)

Lemma fold_min_spec r : forall d,
  (fold_left Z.min r d = d \/ In (fold_left Z.min r d) r)
  /\ fold_left Z.min r d <= d
  /\ forall x, In x r -> fold_left Z.min r d <= x.
Proof.
  induction r as [| y r IH]; intros d; simpl.
  - repeat split; auto; try lia; contradiction.
  - destruct (IH (Z.min d y)) as (Hin & Hle & Hall). repeat split.
    + destruct Hin as [E | Hin]; [| auto]. rewrite E.
      destruct (Z.min_spec d y) as [[_ ->] | [_ ->]]; auto.
    + lia.
    + intros x [<- | Hx]; [lia | auto].
Qed.

Lemma groupby_min_date_spec keys dates k d :
  In (k, d) (groupby_min_date keys dates) ->
  In d (group k keys dates) /\ forall x, In x (group k keys dates) -> d <= x.
Proof.
  unfold groupby_min_date. intros Hin.
  apply assoc_In in Hin; [| apply groupby_agg_ascending].
  rewrite groupby_agg_assoc in Hin.
  destruct (group k keys dates) as [| d0 r]; simpl in *; [discriminate |].
  unfold push at 2 in Hin. rewrite push_fold_from_Some in Hin. inv_Ok Hin.
  destruct (fold_min_spec r d0) as (H1 & H2 & H3). split.
  - destruct H1 as [-> | H1]; auto.
  - intros x [<- | Hx]; auto.
Qed.

Lemma in_group {V : Type} k keys (vals : list V) v :
  In v (group k keys vals)
  <-> exists i, nth_error keys i = Some k /\ nth_error vals i = Some v.
Proof.
  unfold group. rewrite in_map_iff. split.
  - intros ([k' v'] & E & Hin). simpl in E. subst v'.
    apply filter_In in Hin. destruct Hin as [Hin Hk]. simpl in Hk.
    apply String.eqb_eq in Hk. subst k'.
    apply In_nth_error in Hin. destruct Hin as (i & Hi).
    rewrite nth_error_combine in Hi. exists i.
    destruct (nth_error keys i), (nth_error vals i); try discriminate.
    inv_Ok Hi. auto.
  - intros (i & Hk & Hv). exists (k, v). split; [reflexivity |].
    apply filter_In. split; [| simpl; apply String.eqb_refl].
    apply (nth_error_In _ i). rewrite nth_error_combine, Hk, Hv. reflexivity.
Qed.

(** Rows selected by a mask, read on two columns at once. *)
Lemma select_pairs {A B : Type} mask : forall (la : list A) (lb : list B) a b,
  (exists i', nth_error (select mask la) i' = Some a
              /\ nth_error (select mask lb) i' = Some b)
  <-> (exists i, nth_error mask i = Some true
                 /\ nth_error la i = Some a /\ nth_error lb i = Some b).
Proof.
  induction mask as [| c m IH]; intros la lb a b.
  - simpl. split.
    + intros (i' & H & _). destruct i'; discriminate.
    + intros (i & H & _). destruct i; discriminate.
  - destruct la as [| a0 ra].
    { simpl. split.
      - intros (i' & H & _). destruct i'; discriminate.
      - intros (i & _ & H & _). destruct i; discriminate. }
    destruct lb as [| b0 rb].
    { simpl. split.
      - intros (i' & _ & H). destruct c; destruct i'; discriminate.
      - intros (i & _ & _ & H). destruct i; discriminate. }
    destruct c; simpl.
    + split.
      * intros ([| i'] & Ha & Hb); simpl in *.
        -- exists 0%nat. auto.
        -- destruct (proj1 (IH ra rb a b)) as (i & H); [eauto |].
           exists (S i). exact H.
      * intros ([| i] & Hm & Ha & Hb); simpl in *.
        -- exists 0%nat. auto.
        -- destruct (proj2 (IH ra rb a b)) as (i' & H); [eauto |].
           exists (S i'). exact H.
    + rewrite IH. split.
      * intros (i & H). exists (S i). exact H.
      * intros ([| i] & Hm & Ha & Hb); simpl in *; [discriminate | eauto].
Qed.

Lemma first_cases_eq df locs dates tcs :
  lookup "location" (columns df) = Some (ObjectCol locs) ->
  lookup "date" (columns df) = Some (DatetimeCol dates) ->
  lookup "total_cases" (columns df) = Some (Float64Col tcs) ->
  first_cases df
  = Ok (groupby_min_date
          (select (map (fun x => gt x (S754_zero false)) tcs) locs)
          (select (map (fun x => gt x (S754_zero false)) tcs) dates)).
Proof.
  intros Hl Hd Ht. unfold first_cases, getitem, boolean_indexing. simpl.
  rewrite Ht. simpl. rewrite !lookup_map_cols, Hl, Hd. reflexivity.
Qed.

Lemma in_group_reported df locs dates tcs e d :
  lookup "location" (columns df) = Some (ObjectCol locs) ->
  lookup "date" (columns df) = Some (DatetimeCol dates) ->
  lookup "total_cases" (columns df) = Some (Float64Col tcs) ->
  In d (group e (select (map (fun x => gt x (S754_zero false)) tcs) locs)
                (select (map (fun x => gt x (S754_zero false)) tcs) dates))
  <-> reported_on df e d.
Proof.
  intros Hl Hd Ht. rewrite in_group, select_pairs.
  unfold reported_on, cell_at. rewrite Hl, Hd, Ht. simpl. split.
  - intros (i & Hm & He & Hdt). rewrite nth_error_map in Hm.
    destruct (nth_error tcs i) as [x |] eqn:Ex; [| discriminate].
    simpl in Hm. inv_Ok Hm. exists i, x. rewrite He, Hdt, Ex. simpl. auto.
  - intros (i & x & He & Hdt & Hx & G). exists i.
    destruct (nth_error locs i); [| discriminate].
    destruct (nth_error dates i); [| discriminate].
    destruct (nth_error tcs i) as [y |] eqn:Ey; [| discriminate].
    simpl in *. inv_Ok He. inv_Ok Hdt. inv_Ok Hx.
    rewrite nth_error_map, Ey. simpl. rewrite G. auto.
Qed.

(** ** [idxmax] and the row it selects *)

Lemma gt_asym a b : gt a b = true -> gt b a = false.
Proof.
  intros H. destruct (gt b a) eqn:E; [| reflexivity].
  unfold gt in *. pose proof (SFltb_trans _ _ _ H E) as F.
  change (SFltb b b) with (gt b b) in F. rewrite gt_irrefl in F. discriminate.
Qed.

Lemma argmax_from_spec r : forall pre best m,
  nth_error pre best = Some m -> isna m = false ->
  (forall u, In u pre -> gt u m = false) ->
  exists M, nth_error (pre ++ r) (argmax_from r (List.length pre) best m) = Some M
            /\ isna M = false
            /\ forall u, In u (pre ++ r) -> gt u M = false.
Proof.
  induction r as [| v r IH]; intros pre best m Hb Nm Hpre; simpl.
  - exists m. rewrite app_nil_r. auto.
  - replace (pre ++ v :: r)%list with ((pre ++ [v]) ++ r)%list
      by (rewrite <- app_assoc; reflexivity).
    replace (S (List.length pre)) with (List.length (pre ++ [v])%list)
      by (rewrite length_app; simpl; lia).
    destruct (gt v m) eqn:G.
    + apply IH.
      * rewrite nth_error_app2 by lia. rewrite Nat.sub_diag. reflexivity.
      * eapply gt_not_nan_l; eassumption.
      * intros u Hu. apply in_app_or in Hu. destruct Hu as [Hu | [<- | []]].
        -- eapply gt_keep; [exact Nm | auto | apply gt_asym; assumption].
        -- apply gt_irrefl.
    + apply IH.
      * rewrite nth_error_app1; [assumption |].
        apply nth_error_Some. congruence.
      * assumption.
      * intros u Hu. apply in_app_or in Hu. destruct Hu as [Hu | [<- | []]]; auto.
Qed.

Lemma fill_neg_inf_not_nan v : isna (fill_neg_inf v) = false.
Proof. unfold fill_neg_inf. destruct (isna v) eqn:E; [reflexivity | assumption]. Qed.

Lemma nanargmax_None l : nanargmax l = None <-> forallb isna l = true.
Proof.
  unfold nanargmax. destruct (forallb isna l) eqn:E; [tauto |].
  destruct l as [| v r]; [discriminate |]. simpl. split; discriminate.
Qed.

(** No value exceeds the one [nanargmax] points at; it is a defined value
    as soon as some defined value is above [-inf]. *)
Lemma nanargmax_highest l p :
  nanargmax l = Some p ->
  exists x, nth_error l p = Some x
    /\ (forall v, In v l -> gt v (fill_neg_inf x) = false)
    /\ ((exists v, In v l /\ gt v neg_inf = true) -> isna x = false).
Proof.
  unfold nanargmax. destruct (forallb isna l); [discriminate |].
  destruct l as [| v0 r]; [discriminate |]. simpl map. intros H. inv_Ok H.
  destruct (argmax_from_spec (map fill_neg_inf r) [fill_neg_inf v0] 0
              (fill_neg_inf v0) eq_refl (fill_neg_inf_not_nan v0))
    as (M & HM & NM & Hall).
  { intros u [<- | []]. apply gt_irrefl. }
  simpl List.length in HM.
  change ([fill_neg_inf v0] ++ map fill_neg_inf r)%list
    with (map fill_neg_inf (v0 :: r)) in HM, Hall.
  rewrite nth_error_map in HM.
  destruct (nth_error (v0 :: r) (argmax_from (map fill_neg_inf r) 1 0 (fill_neg_inf v0)))
    as [x |] eqn:Ex; [| discriminate].
  simpl in HM. inv_Ok HM. exists x. split; [reflexivity |].
  assert (Hle : forall v, In v (v0 :: r) -> gt v (fill_neg_inf x) = false).
  { intros v Hv. destruct (isna v) eqn:Nv; [apply gt_nan_l; assumption |].
    replace v with (fill_neg_inf v) by (unfold fill_neg_inf; rewrite Nv; reflexivity).
    apply Hall. apply in_map. assumption. }
  split; [exact Hle |].
  intros (v & Hv & Gv). destruct (isna x) eqn:Nx; [| reflexivity].
  specialize (Hle v Hv). unfold fill_neg_inf in Hle. rewrite Nx in Hle. congruence.
Qed.

Lemma nanargmax_Some l :
  forallb isna l = false -> exists p, nanargmax l = Some p.
Proof.
  intros H. unfold nanargmax. rewrite H.
  destruct l as [| v r]; [discriminate |]. simpl. eauto.
Qed.

Lemma distinct_labels_NoDup l : distinct_labels l = true -> NoDup l.
Proof.
  induction l as [| a r IH]; simpl; intros H; [constructor |].
  apply andb_true_iff in H. destruct H as [H1 H2].
  constructor; [| auto]. intros Hin.
  apply negb_true_iff in H1.
  assert (existsb (Nat.eqb a) r = true).
  { apply existsb_exists. exists a. split; [assumption | apply Nat.eqb_refl]. }
  congruence.
Qed.

Lemma position_nth_error idx p label :
  NoDup idx -> nth_error idx p = Some label -> position label idx = Some p.
Proof.
  intros Hn. revert p. induction Hn as [| a r Ha Hr IH]; intros p Hp.
  - destruct p; discriminate.
  - simpl. destruct p as [| p]; simpl in Hp.
    + inv_Ok Hp. rewrite Nat.eqb_refl. reflexivity.
    + destruct (Nat.eqb_spec a label) as [-> | Hne].
      * exfalso. apply Ha. eapply nth_error_In; eassumption.
      * rewrite (IH _ Hp). reflexivity.
Qed.

(** [t.loc[t[name].idxmax()]]: the three outcomes. *)
Lemma row_of_max_spec name t l :
  lookup name (columns t) = Some (Float64Col l) ->
  NoDup (index t) -> List.length l = nrows t ->
  match l with
  | [] => row_of_max name t = Raise ValueError
  | _ :: _ =>
      if forallb isna l then row_of_max name t = Raise (KeyError "nan")
      else exists p x,
             row_of_max name t = Ok (row_at t p)
             /\ nth_error l p = Some x
             /\ (forall v, In v l -> gt v (fill_neg_inf x) = false)
             /\ ((exists v, In v l /\ gt v neg_inf = true) -> isna x = false)
  end.
Proof.
  intros Hl Hn Hlen. unfold row_of_max, getitem. rewrite Hl. simpl.
  destruct l as [| v0 r] eqn:El; [reflexivity |]. rewrite <- El in *.
  assert (Hidx : idxmax (index t) l
                 = match nanargmax l with
                   | None => Ok None
                   | Some p => Ok (nth_error (index t) p)
                   end) by (rewrite El; reflexivity).
  rewrite Hidx. clear Hidx.
  destruct (forallb isna l) eqn:F.
  - apply nanargmax_None in F. rewrite F. reflexivity.
  - destruct (nanargmax_Some _ F) as (p & Hp). rewrite Hp.
    destruct (nanargmax_highest _ _ Hp) as (x & Hx & Hle & Hdef).
    exists p, x. repeat split; try assumption.
    destruct (nth_error (index t) p) as [label |] eqn:E.
    + simpl. unfold loc. rewrite (position_nth_error _ _ _ Hn E). reflexivity.
    + exfalso. apply nth_error_None in E.
      assert (p < List.length l)%nat by (apply nth_error_Some; congruence).
      unfold nrows in Hlen. lia.
Qed.

(** ** Deriving the metrics commutes with rearranging the rows *)

Lemma replace_or_append_map (f : column -> column) n c cols :
  replace_or_append n (f c) (map (fun nc => (fst nc, f (snd nc))) cols)
  = map (fun nc => (fst nc, f (snd nc))) (replace_or_append n c cols).
Proof.
  induction cols as [| [m c'] r IH]; simpl; [reflexivity |].
  destruct (String.eqb m n); simpl; [reflexivity | rewrite IH; reflexivity].
Qed.

Lemma reindex_setitem p df n c :
  setitem (reindex p df) n (col_take p c) = reindex p (setitem df n c).
Proof.
  unfold setitem, reindex. simpl. f_equal. apply replace_or_append_map.
Qed.

Lemma take_map_percent p la lb :
  (forall j, In j p -> (j < List.length la)%nat /\ (j < List.length lb)%nat) ->
  map (fun x => mul x (of_Z 100))
      (map (fun q => truediv (fst q) (snd q)) (combine (take nan p la) (take nan p lb)))
  = take nan p (map (fun x => mul x (of_Z 100))
                    (map (fun q => truediv (fst q) (snd q)) (combine la lb))).
Proof.
  unfold take. induction p as [| j p IH]; intros Hp; [reflexivity |].
  simpl. f_equal.
  - destruct (Hp j (or_introl eq_refl)) as [Ha Hb].
    destruct (nth_error la j) as [a |] eqn:Ea; [| apply nth_error_None in Ea; lia].
    destruct (nth_error lb j) as [b |] eqn:Eb; [| apply nth_error_None in Eb; lia].
    rewrite (nth_nth_error _ _ _ _ Ea), (nth_nth_error _ _ _ _ Eb).
    symmetry. apply nth_nth_error.
    rewrite !nth_error_map, nth_error_combine, Ea, Eb. reflexivity.
  - apply IH. intros k Hk. apply Hp. right. assumption.
Qed.

Lemma ratio_column_reindex t a b df df' p :
  ratio_column t a b df = Ok df' -> aligned df ->
  (forall j, In j p -> (j < nrows df)%nat) ->
  ratio_column t a b (reindex p df) = Ok (reindex p df').
Proof.
  intros H Ha Hp.
  destruct (ratio_column_spec _ _ _ _ _ H Ha)
    as (_ & _ & _ & la & lb & Hla & Hlb & _).
  pose proof (aligned_lookup _ _ _ Ha Hla) as Ea.
  pose proof (aligned_lookup _ _ _ Ha Hlb) as Eb. simpl in Ea, Eb.
  unfold ratio_column, getitem in *.
  rewrite !lookup_reindex. rewrite Hla, Hlb in *. simpl in *. inv_Ok H.
  rewrite <- reindex_setitem. simpl. do 3 f_equal.
  apply take_map_percent. intros j Hj. specialize (Hp j Hj). lia.
Qed.

Lemma derive_metrics_reindex df df' p :
  derive_metrics df = Ok df' -> aligned df ->
  (forall j, In j p -> (j < nrows df)%nat) ->
  derive_metrics (reindex p df) = Ok (reindex p df').
Proof.
  unfold derive_metrics. intros H Ha Hp. inv_bind H.
  rewrite (ratio_column_reindex _ _ _ _ _ p E Ha Hp). simpl.
  destruct (ratio_column_spec _ _ _ _ _ E Ha) as (Ha1 & Hi1 & _).
  apply ratio_column_reindex; try assumption.
  rewrite (nrows_index _ _ Hi1). assumption.
Qed.

(** ** Filtering rows and projecting columns *)

Lemma select_map_filter {A : Type} (f : string -> bool) ks : forall (l : list A),
  select (map f ks) l = map fst (filter (fun p => f (snd p)) (combine l ks)).
Proof.
  induction ks as [| k ks IH]; intros l; simpl.
  - destruct l; reflexivity.
  - destruct l as [| a l]; simpl; [reflexivity |].
    destruct (f k); simpl; rewrite IH; reflexivity.
Qed.

Lemma select_map {A B : Type} (g : A -> B) mask : forall l,
  select mask (map g l) = map g (select mask l).
Proof.
  induction mask as [| b m IH]; intros l; [reflexivity |].
  destruct l as [| a l]; simpl; [reflexivity |].
  destruct b; simpl; rewrite IH; reflexivity.
Qed.

Lemma col_cells_select mask c :
  col_cells (col_select mask c) = select mask (col_cells c).
Proof. destruct c; simpl; symmetry; apply select_map. Qed.

Lemma lookup_mem n cols :
  mem_string n (map fst cols) = true -> exists c, lookup n cols = Some c.
Proof.
  unfold mem_string. induction cols as [| [m c] r IH]; simpl; [discriminate |].
  rewrite String.eqb_sym. destruct (String.eqb m n); simpl; eauto.
Qed.

Lemma mapM_getitem_total df names :
  forallb (fun m => mem_string m (map fst (columns df))) names = true ->
  exists cols, mapM (fun n => c <- getitem df n ;; Ok (n, c)) names = Ok cols.
Proof.
  induction names as [| n r IH]; simpl; intros H; [eauto |].
  apply andb_true_iff in H. destruct H as [Hn Hr].
  destruct (lookup_mem _ _ Hn) as (c & Hc). destruct (IH Hr) as (cols & Hcols).
  unfold getitem at 1. rewrite Hc. simpl. rewrite Hcols. simpl. eauto.
Qed.

Lemma names_boolean_indexing df mask :
  map fst (columns (boolean_indexing df mask)) = map fst (columns df).
Proof. unfold boolean_indexing. simpl. rewrite map_map. reflexivity. Qed.

(** ** The cleaning cell completes on a well-typed file *)

Lemma mapM_parse_total ds :
  forallb is_iso_date ds = true ->
  exists l, mapM (fun s => match parse_iso_date s with
                           | Some d => Ok d
                           | None => Raise ValueError
                           end) ds = Ok l.
Proof.
  induction ds as [| s r IH]; simpl; intros H; [eauto |].
  apply andb_true_iff in H. destruct H as [Hs Hr].
  unfold is_iso_date in Hs. destruct (parse_iso_date s); [| discriminate].
  destruct (IH Hr) as (l & ->). simpl. eauto.
Qed.

Lemma names_replace n c cols c0 :
  lookup n cols = Some c0 ->
  map fst (replace_or_append n c cols) = map fst cols.
Proof.
  induction cols as [| [m c'] r IH]; simpl; [discriminate |].
  destruct (String.eqb m n); simpl; intros H; [reflexivity |].
  rewrite IH by assumption. reflexivity.
Qed.

Lemma lookup_setitem df n c m :
  lookup m (columns (setitem df n c))
  = if String.eqb n m then Some c else lookup m (columns df).
Proof.
  unfold setitem. simpl. destruct (String.eqb_spec n m) as [<- | H].
  - apply lookup_replace_same.
  - apply lookup_replace_other. assumption.
Qed.

Lemma is_float64_select mask o :
  is_float64 (option_map (col_select mask) o) = is_float64 o.
Proof. destruct o as [[| |] |]; reflexivity. Qed.

Lemma is_float64_fillna c v : is_float64 (Some (fillna c v)) = is_float64 (Some c).
Proof. destruct c; reflexivity. Qed.

Lemma fill_column_total n df :
  lookup n (columns df) <> None ->
  exists c, lookup n (columns df) = Some c
            /\ fill_column n df = Ok (setitem df n (fillna c (S754_zero false))).
Proof.
  intros H. unfold fill_column, getitem.
  destruct (lookup n (columns df)) as [c |]; [eauto | contradiction].
Qed.

Lemma ratio_column_total t a b df :
  is_float64 (lookup a (columns df)) = true ->
  is_float64 (lookup b (columns df)) = true ->
  exists c, ratio_column t a b df = Ok (setitem df t (Float64Col c)).
Proof.
  intros Ha Hb. unfold ratio_column, getitem.
  destruct (lookup a (columns df)) as [[| la |] |]; try discriminate.
  destruct (lookup b (columns df)) as [[| lb |] |]; try discriminate.
  simpl. eauto.
Qed.

Ltac lookup_simpl :=
  repeat (rewrite lookup_setitem;
          match goal with
          | |- context [String.eqb ?a ?b] =>
              let v := eval vm_compute in (String.eqb a b) in
              change (String.eqb a b) with v
          end; cbv iota).

Lemma clean_completes countries raw :
  owid_typed raw = true ->
  exists df, clean countries columns_to_keep raw = Ok df.
Proof.
  unfold owid_typed. intros H.
  apply andb_true_iff in H. destruct H as [H Hfl].
  apply andb_true_iff in H. destruct H as [Hd Hcols].
  destruct (lookup "date" (columns raw)) as [[ds | |] |] eqn:Ed; try discriminate.
  destruct (mapM_parse_total _ Hd) as (dl & Hdl).
  simpl in Hfl. rewrite !andb_true_iff in Hfl.
  destruct Hfl as (Ftc & Ftd & Fpv & Fpop & _).
  unfold clean.
  (* line 55 *)
  assert (E1 : convert_dates raw = Ok (setitem raw "date" (DatetimeCol dl))).
  { unfold convert_dates, getitem. rewrite Ed. simpl. rewrite Hdl. reflexivity. }
  rewrite E1. cbn [bind]. set (df1 := setitem raw "date" (DatetimeCol dl)).
  assert (N1 : map fst (columns df1) = map fst (columns raw)).
  { unfold df1, setitem. simpl. eapply names_replace. eassumption. }
  (* lines 58-59 *)
  rewrite forallb_forall in Hcols.
  assert (Hloc : mem_string "location" (map fst (columns df1)) = true).
  { rewrite N1. apply Hcols. simpl. auto. }
  destruct (lookup_mem _ _ Hloc) as (cl & Ecl).
  unfold filter_countries at 1, getitem at 1. rewrite Ecl. cbn [bind].
  set (df2 := boolean_indexing df1 (isin cl countries)).
  assert (L2 : forall m, lookup m (columns df2)
                         = option_map (col_select (isin cl countries))
                                      (lookup m (columns df1))).
  { intros m. apply lookup_map_cols. }
  (* lines 62-67 *)
  assert (Hc2 : forallb (fun m => mem_string m (map fst (columns df2)))
                        columns_to_keep = true).
  { apply forallb_forall. intros m Hm. unfold df2.
    rewrite names_boolean_indexing, N1. auto. }
  destruct (mapM_getitem_total _ _ Hc2) as (cols3 & E3).
  unfold select_columns at 1, getitem_list. rewrite E3. cbn [bind].
  set (df3 := {| index := index df2; columns := cols3 |}).
  destruct (mapM_getitem _ _ _ E3) as [N3 F3].
  assert (L3 : forall m, mem_string m columns_to_keep = true ->
                         lookup m (columns df3) = lookup m (columns df2)).
  { intros m Hm. simpl. rewrite (lookup_selected _ _ m F3), N3, Hm. reflexivity. }
  assert (X3 : forall m, mem_string m columns_to_keep = true ->
                         lookup m (columns df3) <> None).
  { intros m Hm. rewrite (L3 m Hm), L2.
    assert (Hin : In m columns_to_keep).
    { unfold mem_string in Hm. apply existsb_exists in Hm.
      destruct Hm as (k & Hk & E). apply String.eqb_eq in E. subst k. assumption. }
    specialize (Hcols m Hin). rewrite <- N1 in Hcols.
    destruct (lookup_mem _ _ Hcols) as (c & ->). discriminate. }
  assert (T3 : forall m, mem_string m columns_to_keep = true ->
                         is_float64 (lookup m (columns raw)) = true ->
                         is_float64 (lookup m (columns df3)) = true).
  { intros m Hm Hf. rewrite (L3 m Hm), L2, is_float64_select.
    unfold df1. rewrite lookup_setitem.
    destruct (String.eqb_spec "date" m) as [<- | _]; [| assumption].
    rewrite Ed in Hf. discriminate. }
  (* lines 70-73 *)
  unfold handle_missing.
  destruct (fill_column_total "total_cases" df3 (X3 "total_cases" eq_refl)) as (c1 & Ec1 & ->).
  cbn [bind]. set (df4a := setitem df3 "total_cases" _).
  destruct (fill_column_total "new_cases" df4a) as (c2 & Ec2 & ->).
  { unfold df4a. lookup_simpl. apply (X3 "new_cases" eq_refl). }
  cbn [bind]. set (df4b := setitem df4a "new_cases" _).
  destruct (fill_column_total "total_deaths" df4b) as (c3 & Ec3 & ->).
  { unfold df4b, df4a. lookup_simpl. apply (X3 "total_deaths" eq_refl). }
  cbn [bind]. set (df4c := setitem df4b "total_deaths" _).
  destruct (fill_column_total "new_deaths" df4c) as (c4 & Ec4 & ->).
  { unfold df4c, df4b, df4a. lookup_simpl. apply (X3 "new_deaths" eq_refl). }
  cbn [bind]. set (df4 := setitem df4c "new_deaths" _).
  (* lines 76-77 *)
  unfold derive_metrics.
  destruct (ratio_column_total "case_fatality_rate" "total_deaths" "total_cases" df4)
    as (r1 & ->).
  { unfold df4, df4c, df4b, df4a. lookup_simpl. rewrite is_float64_fillna.
    unfold df4b, df4a in Ec3. revert Ec3. lookup_simpl. intros <-.
    apply (T3 "total_deaths" eq_refl Ftd). }
  { unfold df4, df4c, df4b, df4a. lookup_simpl. rewrite is_float64_fillna.
    rewrite <- Ec1. apply (T3 "total_cases" eq_refl Ftc). }
  cbn [bind]. set (df5a := setitem df4 "case_fatality_rate" _).
  destruct (ratio_column_total "vaccination_rate" "people_vaccinated" "population" df5a)
    as (r2 & ->).
  { unfold df5a, df4, df4c, df4b, df4a. lookup_simpl. apply (T3 "people_vaccinated" eq_refl Fpv). }
  { unfold df5a, df4, df4c, df4b, df4a. lookup_simpl. apply (T3 "population" eq_refl Fpop). }
  cbn [bind]. set (df5 := setitem df5a "vaccination_rate" _).
  (* line 80 *)
  unfold sort_values. cbn [bind mapM]. unfold getitem.
  assert (Sl : lookup "location" (columns df5) <> None).
  { unfold df5, df5a, df4, df4c, df4b, df4a. lookup_simpl.
    apply (X3 "location" eq_refl). }
  assert (Sd : lookup "date" (columns df5) <> None).
  { unfold df5, df5a, df4, df4c, df4b, df4a. lookup_simpl.
    apply (X3 "date" eq_refl). }
  destruct (lookup "location" (columns df5)); [| contradiction].
  destruct (lookup "date" (columns df5)); [| contradiction].
  cbn [bind]. eauto.
Qed.

(** ** The cells as state transformers *)

Lemma keeps_df_seq {A B : Type} (c : cell_ A) (k : A -> cell_ B) :
  keeps_df c -> (forall a, keeps_df (k a)) -> keeps_df (seq_ c k).
Proof.
  intros Hc Hk s. unfold seq_. specialize (Hc s).
  destruct (c s) as [s' [a | e]]; simpl in *; [| assumption].
  rewrite (Hk a s'). assumption.
Qed.

Lemma keeps_df_lift {A : Type} (r : result A) : keeps_df (lift r).
Proof. intros s. reflexivity. Qed.

Lemma keeps_df_ret {A : Type} (a : A) : keeps_df (ret a).
Proof. intros s. reflexivity. Qed.

Lemma keeps_df_emit o : keeps_df (emit o).
Proof. intros s. reflexivity. Qed.

Lemma keeps_df_get_df : keeps_df get_df.
Proof. intros s. unfold get_df. destruct (var_df s) eqn:E; simpl; congruence. Qed.

Lemma keeps_df_get_latest_data : keeps_df get_latest_data.
Proof. intros s. unfold get_latest_data. destruct (var_latest_data s); reflexivity. Qed.

Lemma keeps_df_set_latest_data t : keeps_df (set_latest_data t).
Proof. intros s. reflexivity. Qed.

Create HintDb keeps.
#[local] Hint Resolve keeps_df_lift keeps_df_ret keeps_df_emit keeps_df_get_df
  keeps_df_get_latest_data keeps_df_set_latest_data : keeps.

Ltac keeps_df_tac :=
  repeat first
    [ apply keeps_df_seq; [| intros ?]
    | solve [auto with keeps] ].

Lemma keeps_df_emit_all (days : list (string * Z)) :
  keeps_df (fold_right (fun cd k => emit (PrintDaysReporting (fst cd) (snd cd)) ;;; k)
                       (ret tt) days).
Proof.
  induction days as [| cd r IH]; simpl; [apply keeps_df_ret |].
  apply keeps_df_seq; [apply keeps_df_emit | intros _; exact IH].
Qed.

Lemma keeps_df_cell_trends : keeps_df cell_trends.
Proof. unfold cell_trends. keeps_df_tac. Qed.

Lemma keeps_df_cell_latest : keeps_df cell_latest.
Proof. unfold cell_latest. keeps_df_tac. Qed.

Lemma keeps_df_cell_insights : keeps_df cell_insights.
Proof. unfold cell_insights. keeps_df_tac. apply keeps_df_emit_all. Qed.

Lemma keeps_df_cell_export : keeps_df cell_export.
Proof. unfold cell_export. keeps_df_tac. Qed.

Lemma derive_metrics_keeps_order t t' :
  derive_metrics t = Ok t' -> aligned t ->
  sorted_by_location_date t -> sorted_by_location_date t'.
Proof.
  intros H Ha Hs. destruct (derive_metrics_spec _ _ H Ha) as (_ & _ & Hc).
  intros i j l1 d1 l2 d2 Hij. rewrite !Hc. simpl. apply Hs. assumption.
Qed.

Lemma emit_all_days ds : forall s,
  fold_right (fun cd k => emit (PrintDaysReporting (fst cd) (snd cd)) ;;; k)
             (ret tt) ds s
  = (mkNotebook (var_df s) (var_latest_data s) (stdout s ++ days_lines ds), Ok tt).
Proof.
  induction ds as [| cd r IH]; intros s; simpl.
  - destruct s. unfold ret. simpl. rewrite app_nil_r. reflexivity.
  - unfold seq_ at 1, emit at 1. rewrite IH. simpl.
    rewrite <- app_assoc. reflexivity.
Qed.

(** When the insight cell completes, the days it printed are those of
    [days_reporting] at the latest date of [df]. *)
Lemma cell_insights_completes s s' df :
  var_df s = Some df -> cell_insights s = (s', Ok tt) ->
  exists ld ds before,
    latest_date df = Ok (Some ld)
    /\ days_reporting ld df = Ok ds
    /\ stdout s' = (stdout s ++ before ++ days_lines ds)%list
    /\ existsb is_days_line before = false.
Proof.
  intros Hdf. destruct s as [d l out]. simpl in Hdf. subst d.
  unfold cell_insights, seq_, get_df, get_latest_data, lift, emit. simpl.
  destruct (latest_date df) as [latest | ?] eqn:EL; [| discriminate].
  destruct (total_cases_world df) as [cases | ?]; [| discriminate].
  destruct (total_deaths_world df) as [deaths | ?]; [| discriminate].
  destruct latest as [ld |]; [| discriminate]. simpl.
  destruct l as [latest_data |]; [| discriminate]. simpl.
  destruct (most_vaccinated latest_data) as [mv | ?]; [| discriminate].
  destruct (row_get mv "location") as [c1 | ?]; [| discriminate].
  destruct (row_get mv "vaccination_rate") as [r1 | ?]; [| discriminate]. simpl.
  destruct (highest_fatality latest_data) as [hf | ?]; [| discriminate].
  destruct (row_get hf "location") as [c2 | ?]; [| discriminate].
  destruct (row_get hf "case_fatality_rate") as [r2 | ?]; [| discriminate]. simpl.
  destruct (days_reporting ld df) as [ds | ?] eqn:ED; [| discriminate].
  rewrite emit_all_days. simpl. intros H. inv_Ok H.
  exists ld, ds,
    [PrintKeyInsights ld; PrintTotalCases cases; PrintTotalDeaths deaths;
     PrintHighestVaccination c1 r1; PrintHighestFatality c2 r2].
  repeat split; try reflexivity; try assumption.
  simpl. rewrite <- !app_assoc. reflexivity.
Qed.

(** ** The columns of the cleaned table *)

Lemma lookup_None_mem n (cols : list (string * column)) :
  lookup n cols = None <-> mem_string n (map fst cols) = false.
Proof.
  unfold mem_string. induction cols as [| [m c] r IH]; simpl; [tauto |].
  rewrite (String.eqb_sym n m). destruct (String.eqb m n); simpl; [| exact IH].
  split; discriminate.
Qed.

Lemma names_append n c cols :
  lookup n cols = None ->
  map fst (replace_or_append n c cols) = (map fst cols ++ [n])%list.
Proof.
  induction cols as [| [m c'] r IH]; simpl; [reflexivity |].
  destruct (String.eqb m n); [discriminate |]. intros H. simpl.
  rewrite IH by assumption. reflexivity.
Qed.

Lemma setitem_names df n c :
  column_names (setitem df n c)
  = if mem_string n (column_names df) then column_names df
    else (column_names df ++ [n])%list.
Proof.
  unfold column_names, setitem. simpl.
  destruct (lookup n (columns df)) as [c0 |] eqn:E.
  - rewrite (names_replace _ _ _ _ E).
    destruct (mem_string n (map fst (columns df))) eqn:M; [reflexivity |].
    apply lookup_None_mem in M. congruence.
  - rewrite (names_append _ _ _ E).
    apply lookup_None_mem in E. rewrite E. reflexivity.
Qed.

Lemma fill_column_names n df df' :
  fill_column n df = Ok df' -> column_names df' = column_names df.
Proof.
  unfold fill_column. intros H. inv_bind H. inv_Ok H. apply getitem_Ok in E.
  unfold column_names, setitem. simpl. eapply names_replace. eassumption.
Qed.

Lemma handle_missing_names df df' :
  handle_missing df = Ok df' -> column_names df' = column_names df.
Proof.
  unfold handle_missing. intros H. inv_bind H. inv_bind H. inv_bind H.
  rewrite (fill_column_names _ _ _ H), (fill_column_names _ _ _ E1),
    (fill_column_names _ _ _ E0), (fill_column_names _ _ _ E). reflexivity.
Qed.

Lemma ratio_column_names t a b df df' :
  ratio_column t a b df = Ok df' ->
  column_names df'
  = if mem_string t (column_names df) then column_names df
    else (column_names df ++ [t])%list.
Proof.
  unfold ratio_column. intros H.
  inv_bind H. inv_bind H. inv_bind H. inv_bind H. inv_Ok H.
  apply setitem_names.
Qed.

Lemma reindex_names p df : column_names (reindex p df) = column_names df.
Proof. unfold column_names, reindex. simpl. rewrite map_map. reflexivity. Qed.

Lemma sort_values_names df by_ df' :
  sort_values df by_ = Ok df' -> column_names df' = column_names df.
Proof.
  intros H. destruct (sort_values_spec _ _ _ H) as (keys & _ & ->).
  apply reindex_names.
Qed.

Lemma select_columns_names cols df df' :
  select_columns cols df = Ok df' -> column_names df' = cols.
Proof.
  unfold select_columns, getitem_list. intros H. inv_bind H. inv_Ok H.
  unfold column_names. simpl. apply (mapM_getitem _ _ _ E).
Qed.

Lemma clean_names countries cols raw df :
  clean countries cols raw = Ok df ->
  mem_string "case_fatality_rate" cols = false ->
  mem_string "vaccination_rate" cols = false ->
  column_names df = (cols ++ derived_columns)%list.
Proof.
  unfold clean, derive_metrics. intros H Hc Hv.
  inv_bind H. inv_bind H. inv_bind H. inv_bind H. inv_bind H. inv_bind E3.
  rewrite (sort_values_names _ _ _ H), (ratio_column_names _ _ _ _ _ E3),
    (ratio_column_names _ _ _ _ _ E4), (handle_missing_names _ _ E2),
    (select_columns_names _ _ _ E1), Hc.
  replace (mem_string "vaccination_rate" (cols ++ ["case_fatality_rate"]))
    with false.
  - rewrite <- app_assoc. reflexivity.
  - unfold mem_string in *. rewrite existsb_app, Hv. reflexivity.
Qed.

(** ** The rows of the cleaned table *)

Lemma take_seq {A : Type} (d : A) l : take d (seq 0 (List.length l)) l = l.
Proof.
  unfold take. induction l as [| a l IH]; [reflexivity |].
  simpl. f_equal. rewrite <- seq_shift, map_map. simpl. exact IH.
Qed.

Lemma take_perm {A : Type} (d : A) p l :
  Permutation p (seq 0 (List.length l)) -> Permutation (take d p l) l.
Proof.
  intros H. rewrite <- (take_seq d l) at 2. unfold take.
  apply Permutation_map. assumption.
Qed.

Lemma select_incl {A : Type} mask : forall (l : list A) x,
  In x (select mask l) -> In x l.
Proof.
  induction mask as [| b m IH]; intros l x; [contradiction |].
  destruct l as [| a l]; [contradiction |]. simpl.
  destruct b; simpl; intros H; [destruct H; auto | auto].
Qed.

Lemma select_NoDup {A : Type} mask : forall (l : list A),
  NoDup l -> NoDup (select mask l).
Proof.
  induction mask as [| b m IH]; intros l H; [constructor |].
  destruct l as [| a l]; [constructor |]. inversion H; subst. simpl.
  destruct b; [| auto]. constructor; [| auto].
  intros Hin. apply select_incl in Hin. contradiction.
Qed.

Lemma NoDup_distinct_labels l : NoDup l -> distinct_labels l = true.
Proof.
  induction 1 as [| a r Ha Hr IH]; simpl; [reflexivity |].
  rewrite IH, andb_true_r. apply negb_true_iff.
  destruct (existsb (Nat.eqb a) r) eqn:E; [| reflexivity].
  apply existsb_exists in E. destruct E as (b & Hb & Eb).
  apply Nat.eqb_eq in Eb. subst b. contradiction.
Qed.

Lemma well_formed_parts df :
  well_formed df = true
  <-> aligned df /\ distinct (column_names df) = true /\ NoDup (index df).
Proof.
  unfold well_formed, column_names. rewrite !andb_true_iff. split.
  - intros [[H1 H2] H3]. split; [| split; [assumption |]].
    + apply well_formed_aligned. unfold well_formed.
      rewrite H1, H2, H3. reflexivity.
    + apply distinct_labels_NoDup. assumption.
  - intros (H1 & H2 & H3). split; [split; [| assumption] |].
    + apply forallb_forall. intros nc Hin. apply Nat.eqb_eq.
      unfold aligned in H1. rewrite Forall_forall in H1. auto.
    + apply NoDup_distinct_labels. assumption.
Qed.

Lemma select_length_eq {A B : Type} mask : forall (l : list A) (l' : list B),
  List.length l = List.length l' ->
  List.length (select mask l) = List.length (select mask l').
Proof.
  induction mask as [| b m IH]; intros l l' H; [reflexivity |].
  destruct l, l'; try discriminate; [reflexivity |].
  simpl in *. injection H as H. destruct b; simpl; auto.
Qed.

Lemma aligned_boolean_indexing df mask :
  aligned df -> aligned (boolean_indexing df mask).
Proof.
  unfold aligned, boolean_indexing, nrows. simpl. intros Ha.
  apply Forall_map. eapply Forall_impl; [| exact Ha].
  intros [n c] H. simpl in *.
  destruct c; simpl in *; apply select_length_eq; assumption.
Qed.

Lemma boolean_indexing_well_formed df mask :
  well_formed df = true -> well_formed (boolean_indexing df mask) = true.
Proof.
  rewrite !well_formed_parts. intros (Ha & Hn & Hi). split; [| split].
  - apply aligned_boolean_indexing. assumption.
  - unfold column_names in *. rewrite names_boolean_indexing. assumption.
  - apply select_NoDup. assumption.
Qed.

(** The index of the cleaned table: the labels of the whitelisted rows of
    the file, rearranged by the sort. *)
Lemma clean_index countries cols raw df :
  clean countries cols raw = Ok df -> aligned raw ->
  exists c, lookup "location" (columns raw) = Some c
            /\ Permutation (index df) (select (isin c countries) (index raw)).
Proof.
  intros H Ha.
  destruct (clean_inv _ _ _ _ H Ha)
    as (df1 & df2 & df3 & df4 & df5 & E1 & E2 & E3 & E4 & E5 & E6 &
        A1 & A2 & A3 & A4 & A5).
  destruct (convert_dates_spec _ _ E1 Ha) as (_ & I1 & C1 & _).
  destruct (select_columns_spec _ _ _ E3 A2) as (_ & I3 & _).
  destruct (handle_missing_spec _ _ E4 A3) as (_ & I4 & _).
  destruct (derive_metrics_spec _ _ E5 A4) as (_ & I5 & _).
  destruct (sort_values_spec _ _ _ E6) as (keys & _ & ->).
  unfold filter_countries in E2. inv_bind E2. inv_Ok E2. apply getitem_Ok in E.
  exists x. split; [rewrite <- C1 by discriminate; assumption |].
  simpl. replace (select (isin x countries) (index raw)) with (index df5).
  - apply take_perm. apply argsort_perm.
  - rewrite I5, I4, I3. simpl. rewrite I1. reflexivity.
Qed.

Lemma clean_well_formed countries raw df :
  clean countries columns_to_keep raw = Ok df -> well_formed raw = true ->
  well_formed df = true.
Proof.
  intros H Hwf. pose proof Hwf as Hp. apply well_formed_parts in Hp.
  destruct Hp as (Ha & _ & Hi). apply well_formed_parts. split; [| split].
  - destruct (clean_rows _ _ _ _ H Ha) as (_ & _ & df5 & _ & _ & _ & _ & (keys & ->) & _).
    apply aligned_reindex.
  - rewrite (clean_names _ _ _ _ H eq_refl eq_refl). reflexivity.
  - destruct (clean_index _ _ _ _ H Ha) as (c & _ & Hperm).
    eapply Permutation_NoDup; [symmetry; exact Hperm |].
    apply select_NoDup. assumption.
Qed.

Lemma cleaned_location countries cols raw df i s :
  clean countries cols raw = Ok df -> aligned raw ->
  mem_string "location" cols = true ->
  cell_at df "location" i = Some (CStr s) -> mem_string s countries = true.
Proof.
  intros H Ha Hm Hc.
  assert (Hi : (i < nrows df)%nat).
  { destruct (clean_rows _ _ _ _ H Ha) as (_ & _ & df5 & _ & _ & _ & _ & (keys & ->) & _).
    eapply cell_at_lt; [apply aligned_reindex | exact Hc]. }
  destruct (cleaned_row_source _ _ _ _ H Ha i Hi) as (k & _ & (s' & Hs' & Hmem) & Hsrc).
  rewrite (Hsrc "location" Hm) in Hc by discriminate.
  change (mem_string "location" filled_columns) with false in Hc. cbv iota in Hc.
  rewrite Hs' in Hc. inv_Ok Hc. assumption.
Qed.

(** ** The latest date and the rows that carry it *)

Lemma fold_max_spec r : forall d,
  (fold_left Z.max r d = d \/ In (fold_left Z.max r d) r)
  /\ d <= fold_left Z.max r d
  /\ forall x, In x r -> x <= fold_left Z.max r d.
Proof.
  induction r as [| y r IH]; intros d; simpl.
  - repeat split; auto; try lia; contradiction.
  - destruct (IH (Z.max d y)) as (Hin & Hle & Hall). repeat split.
    + destruct Hin as [E | Hin]; [| auto]. rewrite E.
      destruct (Z.max_spec d y) as [[_ ->] | [_ ->]]; auto.
    + lia.
    + intros x [<- | Hx]; [lia | auto].
Qed.

Lemma date_max_spec l :
  match date_max l with
  | None => l = []
  | Some m => In m l /\ forall d, In d l -> d <= m
  end.
Proof.
  destruct l as [| d r]; simpl; [reflexivity |].
  destruct (fold_max_spec r d) as (H1 & H2 & H3). split.
  - destruct H1 as [-> | H1]; auto.
  - intros x [<- | Hx]; auto.
Qed.

Lemma select_map_filter_gen {A K : Type} (f : K -> bool) ks : forall (l : list A),
  select (map f ks) l = map fst (filter (fun p => f (snd p)) (combine l ks)).
Proof.
  induction ks as [| k ks IH]; intros l; simpl.
  - destruct l; reflexivity.
  - destruct l as [| a l]; simpl; [reflexivity |].
    destruct (f k); simpl; rewrite IH; reflexivity.
Qed.




Lemma one_row_selection df mask i :
  aligned df -> List.length mask = nrows df ->
  (i < nrows (boolean_indexing df mask))%nat ->
  exists pi, (pi < nrows df)%nat /\ nth_error mask pi = Some true
    /\ forall m, cell_at (boolean_indexing df mask) m i = cell_at df m pi.
Proof.
  intros Ha Hm Hi. rewrite (boolean_indexing_reindex _ _ Ha Hm) in *.
  assert (Hk : forall k, In k (kept mask) -> (k < nrows df)%nat).
  { intros k Hin. rewrite <- Hm. apply kept_lt. assumption. }
  destruct (reindex_rows _ _ Ha Hk i Hi) as (pi & Hpi & Ni & Ci).
  exists pi. repeat split; auto.
  apply kept_spec. eapply nth_error_In. eassumption.
Qed.


Lemma date_eq_scalar_length l m : List.length (date_eq_scalar l m) = List.length l.
Proof. destruct m; simpl; apply length_map. Qed.

Lemma clean_sorted countries cols raw df :
  clean countries cols raw = Ok df -> aligned raw -> sorted_by_location_date df.
Proof.
  intros H Ha.
  destruct (clean_inv _ _ _ _ H Ha)
    as (_ & _ & _ & _ & df5 & _ & _ & _ & _ & _ & E6 & _ & _ & _ & _ & A5).
  eapply sort_values_sorted; eassumption.
Qed.

Lemma nrows_boolean_indexing df mask :
  aligned df -> List.length mask = nrows df ->
  nrows (boolean_indexing df mask) = List.length (kept mask).
Proof.
  intros Ha Hm. rewrite (boolean_indexing_reindex _ _ Ha Hm).
  apply nrows_reindex.
Qed.

Lemma latest_snapshot_spec df dates :
  lookup "date" (columns df) = Some (DatetimeCol dates) ->
  well_formed df = true ->
  exists t,
    latest_snapshot df = Ok t /\ well_formed t = true
    /\ match date_max dates with
       | None => nrows df = 0%nat /\ nrows t = 0%nat
       | Some ld =>
           latest_date df = Ok (Some ld)
           /\ In ld dates /\ (forall d, In d dates -> d <= ld)
           /\ (0 < nrows t)%nat
           /\ index t = rows_dated ld df dates
           /\ forall i, (i < nrows t)%nat -> cell_at t "date" i = Some (CDate ld)
       end.
Proof.
  intros Hd Hwf. pose proof (well_formed_aligned _ Hwf) as Ha.
  pose proof (aligned_lookup _ _ _ Ha Hd) as Hlen. simpl in Hlen.
  exists (boolean_indexing df (date_eq_scalar dates (date_max dates))).
  split; [unfold latest_snapshot, getitem; rewrite Hd; reflexivity |].
  split; [apply boolean_indexing_well_formed; assumption |].
  pose proof (date_max_spec dates) as S.
  destruct (date_max dates) as [ld |] eqn:E.
  - destruct S as (Hin & Hmax).
    set (mask := date_eq_scalar dates (Some ld)).
    assert (Hm : List.length mask = nrows df).
    { unfold mask. rewrite date_eq_scalar_length. assumption. }
    split; [unfold latest_date, getitem; rewrite Hd; simpl; rewrite E; reflexivity |].
    split; [assumption |]. split; [assumption |]. split; [| split].
    + rewrite (nrows_boolean_indexing _ _ Ha Hm).
      apply In_nth_error in Hin. destruct Hin as (j & Hj).
      assert (Hk : In j (kept mask)).
      { apply kept_spec. unfold mask. simpl. rewrite nth_error_map, Hj. simpl.
        rewrite Z.eqb_refl. reflexivity. }
      destruct (kept mask); [contradiction | simpl; lia].
    + simpl. unfold rows_dated.
      apply (select_map_filter_gen (fun x => Z.eqb x ld)).
    + intros i Hi.
      destruct (one_row_selection df mask i Ha Hm Hi) as (pi & Hpi & Hmask & Hc).
      rewrite Hc. unfold mask in Hmask. simpl in Hmask.
      rewrite nth_error_map in Hmask.
      destruct (nth_error dates pi) as [d |] eqn:Ed; [| discriminate].
      simpl in Hmask. injection Hmask as Hq. apply Z.eqb_eq in Hq.
      unfold cell_at. rewrite Hd. simpl. rewrite Ed. simpl.
      f_equal. f_equal. assumption.
  - subst dates. simpl in Hlen. split; [symmetry; assumption |].
    unfold nrows in *. simpl.
    destruct (index df); [reflexivity | discriminate].
Qed.

(** ** The columns of the cleaned table and their types *)

Lemma mem_string_In s l : mem_string s l = true <-> In s l.
Proof.
  unfold mem_string. rewrite existsb_exists. split.
  - intros (x & Hx & E). apply String.eqb_eq in E. subst. assumption.
  - intros H. exists s. split; [assumption | apply String.eqb_refl].
Qed.

Lemma lookup_boolean_indexing df mask n :
  lookup n (columns (boolean_indexing df mask))
  = option_map (col_select mask) (lookup n (columns df)).
Proof. apply lookup_map_cols. Qed.

Lemma handle_missing_lookup df df' m :
  handle_missing df = Ok df' -> aligned df ->
  mem_string m filled_columns = false ->
  lookup m (columns df') = lookup m (columns df).
Proof.
  unfold handle_missing. intros H Ha Hm.
  inv_bind H. inv_bind H. inv_bind H.
  destruct (fill_column_spec _ _ _ E Ha) as (A1 & _ & L1 & _).
  destruct (fill_column_spec _ _ _ E0 A1) as (A2 & _ & L2 & _).
  destruct (fill_column_spec _ _ _ E1 A2) as (A3 & _ & L3 & _).
  destruct (fill_column_spec _ _ _ H A3) as (_ & _ & L4 & _).
  unfold mem_string, filled_columns in Hm. cbn [existsb] in Hm.
  repeat (apply orb_false_iff in Hm; destruct Hm as [?N Hm]).
  rewrite L4, L3, L2, L1; try reflexivity;
    intros ->; rewrite String.eqb_refl in *; discriminate.
Qed.

Lemma derive_metrics_lookup df df' :
  derive_metrics df = Ok df' -> aligned df ->
  (forall m, m <> "case_fatality_rate" -> m <> "vaccination_rate" ->
             lookup m (columns df') = lookup m (columns df))
  /\ (exists l, lookup "total_cases" (columns df) = Some (Float64Col l))
  /\ (exists l, lookup "case_fatality_rate" (columns df') = Some (Float64Col l))
  /\ (exists l, lookup "vaccination_rate" (columns df') = Some (Float64Col l)).
Proof.
  unfold derive_metrics. intros H Ha. inv_bind H.
  destruct (ratio_column_spec _ _ _ _ _ E Ha) as (A1 & _ & L1 & la & lb & _ & Hb & Ht).
  destruct (ratio_column_spec _ _ _ _ _ H A1) as (_ & _ & L2 & la' & lb' & _ & _ & Ht').
  repeat split.
  - intros m Hc Hv. rewrite L2, L1 by assumption. reflexivity.
  - eauto.
  - rewrite L2 by discriminate. eauto.
  - eauto.
Qed.

Lemma clean_typed countries cols raw df locs0 :
  clean countries cols raw = Ok df -> aligned raw ->
  lookup "location" (columns raw) = Some (ObjectCol locs0) ->
  exists locs dates tcs cfr vr,
    lookup "location" (columns df) = Some (ObjectCol locs)
    /\ lookup "date" (columns df) = Some (DatetimeCol dates)
    /\ lookup "total_cases" (columns df) = Some (Float64Col tcs)
    /\ lookup "case_fatality_rate" (columns df) = Some (Float64Col cfr)
    /\ lookup "vaccination_rate" (columns df) = Some (Float64Col vr).
Proof.
  intros H Ha Hl.
  destruct (clean_inv _ _ _ _ H Ha)
    as (df1 & df2 & df3 & df4 & df5 & E1 & E2 & E3 & E4 & E5 & E6 &
        A1 & A2 & A3 & A4 & A5).
  destruct (convert_dates_spec _ _ E1 Ha) as (_ & _ & C1 & ds & D1).
  destruct (filter_countries_spec _ _ _ E2 A1) as (c & _ & ->).
  destruct (select_columns_spec _ _ _ E3 A2) as (_ & _ & _ & L3).
  pose proof (handle_missing_lookup _ _ "location" E4 A3 eq_refl) as L4l.
  pose proof (handle_missing_lookup _ _ "date" E4 A3 eq_refl) as L4d.
  destruct (derive_metrics_lookup _ _ E5 A4)
    as (L5 & (tc4 & T4) & (cf5 & F5) & (vr5 & V5)).
  destruct (sort_values_spec _ _ _ E6) as (keys & K & ->).
  cbn [mapM] in K. unfold getitem in K.
  destruct (lookup "location" (columns df5)) as [cl |] eqn:E; [| discriminate].
  destruct (lookup "date" (columns df5)) as [cd |] eqn:E0; [| discriminate].
  clear K.
  rewrite !lookup_reindex.
  rewrite (L5 "total_cases") by discriminate. rewrite T4, F5, V5.
  rewrite L5, L4l, L3, lookup_reindex, C1, Hl in E by discriminate.
  rewrite L5, L4d, L3, lookup_reindex, D1 in E0 by discriminate.
  rewrite (L5 "location"), L4l, L3, lookup_reindex, C1, Hl by discriminate.
  rewrite (L5 "date"), L4d, L3, lookup_reindex, D1 by discriminate.
  destruct (mem_string "location" cols); [| discriminate].
  destruct (mem_string "date" cols); [| discriminate].
  simpl. eauto 10.
Qed.

(** ** The values of a column and the country slices *)








(** ** Selecting columns by name *)

Lemma mapM_getitem_outcome df names :
  match mapM (fun n => c <- getitem df n ;; Ok (n, c)) names with
  | Ok _ => forall n, In n names -> lookup n (columns df) <> None
  | Raise e =>
      exists pre m post,
        names = (pre ++ m :: post)%list /\ e = KeyError m
        /\ lookup m (columns df) = None
        /\ forall n, In n pre -> lookup n (columns df) <> None
  end.
Proof.
  induction names as [| n r IH]; simpl; [intros ? [] |].
  unfold getitem at 1. destruct (lookup n (columns df)) as [c |] eqn:E; simpl.
  - destruct (mapM (fun n => c <- getitem df n ;; Ok (n, c)) r) as [cs | e]; simpl.
    + intros m [<- | Hm]; [congruence | auto].
    + destruct IH as (pre & m & post & -> & -> & Hm & Hpre).
      exists (n :: pre), m, post. repeat split; auto.
      intros k [<- | Hk]; [congruence | auto].
  - exists [], n, r. repeat split; auto.
Qed.

(** ** One observation per entity and date *)

Lemma distinct_keys_filter l ld :
  distinct_keys l = true ->
  NoDup (map fst (filter (fun p => Z.eqb (snd p) ld) l)).
Proof.
  induction l as [| a r IH]; simpl; [constructor |].
  intros H. apply andb_true_iff in H. destruct H as [Hn Hr].
  destruct (Z.eqb (snd a) ld) eqn:E; [| auto].
  simpl. constructor; [| auto].
  intros Hin. apply in_map_iff in Hin. destruct Hin as (b & Hb & Hin).
  apply filter_In in Hin. destruct Hin as [Hin Hd].
  apply negb_true_iff in Hn.
  assert (Ht : existsb (fun b => String.eqb (fst a) (fst b) && Z.eqb (snd a) (snd b)) r
               = true).
  { apply existsb_exists. exists b. split; [assumption |].
    rewrite Hb, String.eqb_refl. apply Z.eqb_eq in E, Hd. simpl.
    apply Z.eqb_eq. congruence. }
  congruence.
Qed.

Lemma group_incl {V : Type} k keys (vals : list V) v :
  In v (group k keys vals) -> In v vals.
Proof.
  intros H. apply in_group in H. destruct H as (i & _ & Hv).
  eapply nth_error_In. eassumption.
Qed.

(** ** Ties in [idxmax] *)

Lemma argmax_from_first r : forall pre best m,
  nth_error pre best = Some m ->
  (forall u, In u pre -> isna u = false) ->
  (forall u, In u r -> isna u = false) ->
  (forall u, In u pre -> gt u m = false) ->
  (forall q v, (q < best)%nat -> nth_error pre q = Some v -> gt m v = true) ->
  exists M, nth_error (pre ++ r) (argmax_from r (List.length pre) best m) = Some M
    /\ forall q v, (q < argmax_from r (List.length pre) best m)%nat ->
                   nth_error (pre ++ r) q = Some v -> gt M v = true.
Proof.
  induction r as [| v r IH]; intros pre best m Hb Npre Nr Hpre Hfirst; simpl.
  - exists m. rewrite app_nil_r. auto.
  - assert (Hlt : (best < List.length pre)%nat).
    { apply nth_error_Some. congruence. }
    assert (Npre' : forall u, In u (pre ++ [v])%list -> isna u = false).
    { intros u Hu. apply in_app_or in Hu. destruct Hu as [Hu | [<- | []]];
        [auto | apply Nr; left; reflexivity]. }
    assert (Nr' : forall u, In u r -> isna u = false).
    { intros u Hu. apply Nr. right. assumption. }
    replace (pre ++ v :: r)%list with ((pre ++ [v]) ++ r)%list
      by (rewrite <- app_assoc; reflexivity).
    replace (S (List.length pre)) with (List.length (pre ++ [v])%list)
      by (rewrite length_app; simpl; lia).
    destruct (gt v m) eqn:G.
    + apply IH; try assumption.
      * rewrite nth_error_app2 by lia. rewrite Nat.sub_diag. reflexivity.
      * intros u Hu. apply in_app_or in Hu. destruct Hu as [Hu | [<- | []]].
        -- eapply gt_keep; [apply (Npre m); eapply nth_error_In; eassumption
                           | auto | apply gt_asym; assumption].
        -- apply gt_irrefl.
      * intros q u Hq Hu. rewrite nth_error_app1 in Hu by lia.
        assert (Hin : In u pre) by (eapply nth_error_In; eassumption).
        pose proof (Hpre u Hin) as Hum. unfold gt in *.
        destruct (SFltb_negtrans m u v (Npre u Hin) G) as [F | F];
          [rewrite Hum in F; discriminate | exact F].
    + apply IH; try assumption.
      * rewrite nth_error_app1; assumption.
      * intros u Hu. apply in_app_or in Hu. destruct Hu as [Hu | [<- | []]]; auto.
      * intros q u Hq Hu. rewrite nth_error_app1 in Hu by lia. eauto.
Qed.

Lemma nanargmax_first l p x :
  nanargmax l = Some p -> nth_error l p = Some x ->
  forall q v, (q < p)%nat -> nth_error l q = Some v ->
              gt (fill_neg_inf x) (fill_neg_inf v) = true.
Proof.
  unfold nanargmax. destruct (forallb isna l); [discriminate |].
  destruct l as [| v0 r]; [discriminate |]. simpl map. intros H Hx q v Hq Hv.
  injection H as H.
  destruct (argmax_from_first (map fill_neg_inf r) [fill_neg_inf v0] 0
              (fill_neg_inf v0) eq_refl) as (M & HM & Hfirst).
  - intros u [<- | []]. apply fill_neg_inf_not_nan.
  - intros u Hu. apply in_map_iff in Hu. destruct Hu as (w & <- & _).
    apply fill_neg_inf_not_nan.
  - intros u [<- | []]. apply gt_irrefl.
  - intros ? ? Hlt. lia.
  - simpl List.length in HM, Hfirst. rewrite H in HM, Hfirst.
    change ([fill_neg_inf v0] ++ map fill_neg_inf r)%list
      with (map fill_neg_inf (v0 :: r)) in HM, Hfirst.
    rewrite nth_error_map, Hx in HM. simpl in HM. injection HM as <-.
    apply (Hfirst q); [assumption |]. rewrite nth_error_map, Hv. reflexivity.
Qed.

(** ** The snapshot of a cleaned table *)

Lemma snapshot_of_cleaned countries raw locs0 df t :
  well_formed raw = true ->
  lookup "location" (columns raw) = Some (ObjectCol locs0) ->
  clean countries columns_to_keep raw = Ok df ->
  latest_snapshot df = Ok t ->
  well_formed t = true
  /\ (nrows t = 0%nat <-> nrows df = 0%nat)
  /\ (exists l, lookup "case_fatality_rate" (columns t) = Some (Float64Col l)
                /\ List.length l = nrows t)
  /\ mem_string "iso_code" (column_names t) = false
  /\ forall i, (i < nrows t)%nat ->
       exists tc td,
         cell_at t "total_cases" i = Some (CNum tc)
         /\ cell_at t "total_deaths" i = Some (CNum td)
         /\ isna tc = false /\ isna td = false
         /\ cell_at t "case_fatality_rate" i = Some (CNum (percent td tc)).
Proof.
  intros Hwf Hl0 H Ht. pose proof (well_formed_aligned _ Hwf) as Ha.
  pose proof (clean_well_formed _ _ _ H Hwf) as Hwf'.
  pose proof (well_formed_aligned _ Hwf') as Ha'.
  destruct (clean_typed _ _ _ _ _ H Ha Hl0)
    as (locs & dates & tcs & cfr & vr & _ & Hd & _ & Hc & _).
  pose proof (aligned_lookup _ _ _ Ha' Hd) as Hlen. simpl in Hlen.
  destruct (latest_snapshot_spec df dates Hd Hwf') as (t' & Ht' & Hwt & S).
  rewrite Ht in Ht'. injection Ht' as <-.
  pose proof (well_formed_aligned _ Hwt) as Hat.
  unfold latest_snapshot, getitem in Ht. rewrite Hd in Ht. simpl in Ht.
  injection Ht as Ht.
  split; [assumption |]. split; [| split; [| split]].
  - destruct (date_max dates) as [ld |].
    + destruct S as (_ & Hin & _ & Hpos & _).
      destruct dates; [contradiction |]. simpl in Hlen. lia.
    + destruct S as (-> & ->). tauto.
  - assert (L : lookup "case_fatality_rate" (columns t)
                = Some (Float64Col (select (date_eq_scalar dates (date_max dates)) cfr))).
    { rewrite <- Ht, lookup_boolean_indexing, Hc. reflexivity. }
    eexists. split; [exact L |]. exact (aligned_lookup _ _ _ Hat L).
  - rewrite <- Ht. unfold column_names. rewrite names_boolean_indexing.
    change (map fst (columns df)) with (column_names df).
    rewrite (clean_names _ _ _ _ H eq_refl eq_refl). reflexivity.
  - intros i Hi. rewrite <- Ht in Hi |- *.
    assert (Hm : List.length (date_eq_scalar dates (date_max dates)) = nrows df).
    { rewrite date_eq_scalar_length. assumption. }
    destruct (one_row_selection df _ i Ha' Hm Hi) as (pi & Hpi & _ & Hcell).
    rewrite !Hcell.
    destruct (cleaned_row _ _ _ _ H Ha pi Hpi)
      as (tc & td & pv & pop & C1 & C2 & _ & _ & N1 & N2 & C3 & _).
    exists tc, td. auto.
Qed.

Lemma float_cell_nth df m l i x :
  lookup m (columns df) = Some (Float64Col l) ->
  cell_at df m i = Some (CNum x) <-> nth_error l i = Some x.
Proof.
  intros Hl. unfold cell_at. rewrite Hl. simpl.
  destruct (nth_error l i); simpl; split; intros E; congruence.
Qed.

Lemma latest_snapshot_names df t :
  latest_snapshot df = Ok t -> column_names t = column_names df.
Proof.
  unfold latest_snapshot. intros H. inv_bind H. inv_bind H. injection H as <-.
  apply names_boolean_indexing.
Qed.

Lemma clean_typed_deaths countries cols raw df :
  clean countries cols raw = Ok df -> aligned raw ->
  exists tds, lookup "total_deaths" (columns df) = Some (Float64Col tds).
Proof.
  intros H Ha.
  destruct (clean_inv _ _ _ _ H Ha)
    as (df1 & df2 & df3 & df4 & df5 & _ & _ & _ & _ & E5 & E6 & _ & _ & _ & A4 & _).
  destruct (sort_values_spec _ _ _ E6) as (keys & _ & ->).
  unfold derive_metrics in E5. inv_bind E5.
  destruct (ratio_column_spec _ _ _ _ _ E A4) as (A1 & _ & L1 & la & lb & Hd & _).
  destruct (ratio_column_spec _ _ _ _ _ E5 A1) as (_ & _ & L2 & _).
  rewrite lookup_reindex, L2, L1, Hd by discriminate. simpl. eauto.
Qed.

(** ** Running the cleaning cell on its own result *)

Lemma replace_or_append_same n c cols :
  lookup n cols = Some c -> replace_or_append n c cols = cols.
Proof.
  induction cols as [| [m c'] r IH]; simpl; [discriminate |].
  destruct (String.eqb m n) eqn:E.
  - intros H. injection H as ->. reflexivity.
  - intros H. rewrite IH by assumption. reflexivity.
Qed.

Lemma setitem_same df n c :
  lookup n (columns df) = Some c -> setitem df n c = df.
Proof.
  intros H. unfold setitem. rewrite replace_or_append_same by assumption.
  destruct df; reflexivity.
Qed.

Lemma select_all {A : Type} mask : forall (l : list A),
  List.length l = List.length mask -> (forall b, In b mask -> b = true) ->
  select mask l = l.
Proof.
  induction mask as [| b m IH]; intros [| a l] Hlen Hall; simpl in *;
    try discriminate; try reflexivity.
  rewrite (Hall b (or_introl eq_refl)). f_equal. apply IH; [lia | auto].
Qed.

Lemma map_cols_id (f : column -> column) (cols : list (string * column)) :
  Forall (fun nc => f (snd nc) = snd nc) cols ->
  map (fun nc => (fst nc, f (snd nc))) cols = cols.
Proof.
  induction 1 as [| [n c] r H Hr IH]; simpl in *; [reflexivity |].
  rewrite H, IH. reflexivity.
Qed.

Lemma boolean_indexing_all df mask :
  aligned df -> List.length mask = nrows df -> (forall b, In b mask -> b = true) ->
  boolean_indexing df mask = df.
Proof.
  intros Ha Hm Hall. unfold boolean_indexing.
  rewrite select_all by (auto; symmetry; exact Hm).
  rewrite map_cols_id; [destruct df; reflexivity |].
  eapply Forall_impl; [| exact Ha]. intros [n c] Hc. simpl in *.
  destruct c as [l | l | l]; simpl in *; rewrite select_all; auto; congruence.
Qed.

Lemma reindex_all df : aligned df -> reindex (seq 0 (nrows df)) df = df.
Proof.
  intros Ha. unfold reindex. unfold nrows at 1. rewrite take_seq.
  rewrite map_cols_id; [destruct df; reflexivity |].
  eapply Forall_impl; [| exact Ha]. intros [n c] Hc. simpl in *.
  rewrite <- Hc. destruct c as [l | l | l]; simpl; rewrite take_seq; reflexivity.
Qed.

Lemma fillna_no_missing c v : no_missing c = true -> fillna c v = c.
Proof.
  destruct c as [l | l | l]; simpl; try reflexivity. intros H. f_equal.
  induction l as [| x l IH]; simpl in *; [reflexivity |].
  apply andb_true_iff in H. destruct H as [Hx Hl].
  apply negb_true_iff in Hx. rewrite Hx, IH by assumption. reflexivity.
Qed.

Lemma no_missing_fillna c v : isna v = false -> no_missing (fillna c v) = true.
Proof.
  intros Hv. destruct c as [l | l | l]; simpl; try reflexivity.
  apply forallb_forall. intros x Hx. apply in_map_iff in Hx.
  destruct Hx as (y & <- & _). destruct (isna y) eqn:E; rewrite ?Hv, ?E; reflexivity.
Qed.

Lemma no_missing_take p c :
  (forall i, In i p -> (i < col_len c)%nat) ->
  no_missing c = true -> no_missing (col_take p c) = true.
Proof.
  destruct c as [l | l | l]; simpl; try reflexivity. intros Hp H.
  apply forallb_forall. intros x Hx. unfold take in Hx. apply in_map_iff in Hx.
  destruct Hx as (i & <- & Hi). rewrite forallb_forall in H. apply H.
  apply nth_In. auto.
Qed.

Lemma fill_column_no_missing n df df' :
  fill_column n df = Ok df' -> aligned df ->
  exists c, lookup n (columns df') = Some c /\ no_missing c = true.
Proof.
  intros H Ha. destruct (fill_column_spec _ _ _ H Ha) as (_ & _ & _ & c & _ & Hc).
  exists (fillna c (S754_zero false)). split; [assumption |].
  apply no_missing_fillna. reflexivity.
Qed.

Lemma handle_missing_no_missing df df' n :
  handle_missing df = Ok df' -> aligned df ->
  In n filled_columns ->
  exists c, lookup n (columns df') = Some c /\ no_missing c = true.
Proof.
  unfold handle_missing. intros H Ha Hn.
  inv_bind H. inv_bind H. inv_bind H.
  destruct (fill_column_spec _ _ _ E Ha) as (A1 & _ & _).
  destruct (fill_column_spec _ _ _ E0 A1) as (A2 & _ & L2 & _).
  destruct (fill_column_spec _ _ _ E1 A2) as (A3 & _ & L3 & _).
  destruct (fill_column_spec _ _ _ H A3) as (_ & _ & L4 & _).
  destruct (fill_column_no_missing _ _ _ E Ha) as (c1 & H1 & N1).
  destruct (fill_column_no_missing _ _ _ E0 A1) as (c2 & H2 & N2).
  destruct (fill_column_no_missing _ _ _ E1 A2) as (c3 & H3 & N3).
  destruct (fill_column_no_missing _ _ _ H A3) as (c4 & H4 & N4).
  destruct Hn as [<- | [<- | [<- | [<- | []]]]].
  - exists c1. rewrite L4, L3, L2 by discriminate. auto.
  - exists c2. rewrite L4, L3 by discriminate. auto.
  - exists c3. rewrite L4 by discriminate. auto.
  - exists c4. auto.
Qed.

Lemma fill_column_id n df c :
  lookup n (columns df) = Some c -> no_missing c = true ->
  fill_column n df = Ok df.
Proof.
  intros Hc Hn. unfold fill_column, getitem. rewrite Hc. simpl.
  rewrite fillna_no_missing by assumption.
  rewrite setitem_same by assumption. reflexivity.
Qed.

Lemma handle_missing_id df :
  (forall n, In n filled_columns ->
     exists c, lookup n (columns df) = Some c /\ no_missing c = true) ->
  handle_missing df = Ok df.
Proof.
  intros H. unfold handle_missing.
  destruct (H "total_cases") as (c1 & H1 & N1); [simpl; auto |].
  destruct (H "new_cases") as (c2 & H2 & N2); [simpl; auto |].
  destruct (H "total_deaths") as (c3 & H3 & N3); [simpl; auto |].
  destruct (H "new_deaths") as (c4 & H4 & N4); [simpl; auto 6 |].
  rewrite (fill_column_id _ _ _ H1 N1). cbn [bind].
  rewrite (fill_column_id _ _ _ H2 N2). cbn [bind].
  rewrite (fill_column_id _ _ _ H3 N3). cbn [bind].
  exact (fill_column_id _ _ _ H4 N4).
Qed.

Lemma lookup_In_distinct n c (cols : list (string * column)) :
  distinct (map fst cols) = true -> In (n, c) cols -> lookup n cols = Some c.
Proof.
  induction cols as [| [m c'] r IH]; simpl; [intros _ [] |].
  intros H Hin. apply andb_true_iff in H. destruct H as [Hm Hr].
  destruct Hin as [Heq | Hin].
  - injection Heq as -> ->. rewrite String.eqb_refl. reflexivity.
  - destruct (String.eqb m n) eqn:E; [| auto].
    apply String.eqb_eq in E. subst m. apply negb_true_iff in Hm.
    assert (Hmem : mem_string n (map fst r) = true).
    { apply mem_string_In. apply in_map_iff. exists (n, c). auto. }
    unfold mem_string in *. congruence.
Qed.

Lemma mapM_getitem_own df (cs : list (string * column)) :
  Forall (fun nc => lookup (fst nc) (columns df) = Some (snd nc)) cs ->
  mapM (fun n => c <- getitem df n ;; Ok (n, c)) (map fst cs) = Ok cs.
Proof.
  induction 1 as [| [n c] r H Hr IH]; simpl in *; [reflexivity |].
  unfold getitem at 1. rewrite H. simpl. rewrite IH. reflexivity.
Qed.

Lemma stable_sort_id {A : Type} (leb : A -> A -> bool) l :
  StronglySorted (fun a b => leb a b = true) l -> stable_sort leb l = l.
Proof.
  induction 1 as [| y r Hr IH Hy]; simpl; [reflexivity |].
  rewrite IH. destruct r as [| z r']; [reflexivity |].
  simpl. inversion Hy as [| ? ? Hz _]; subst. rewrite Hz. reflexivity.
Qed.

Lemma seq_sorted (R : nat -> nat -> Prop) n : forall s,
  (forall i j, (s <= i)%nat -> (i < j)%nat -> (j < s + n)%nat -> R i j) ->
  StronglySorted R (seq s n).
Proof.
  induction n as [| n IH]; intros s H; simpl; constructor.
  - apply IH. intros i j Hi Hij Hj. apply H; lia.
  - apply Forall_forall. intros j Hj. apply in_seq in Hj. apply H; lia.
Qed.

Lemma sort_values_id df locs dates :
  aligned df ->
  lookup "location" (columns df) = Some (ObjectCol locs) ->
  lookup "date" (columns df) = Some (DatetimeCol dates) ->
  sorted_by_location_date df ->
  sort_values df ["location"; "date"] = Ok df.
Proof.
  intros Ha Hl Hd Hs. unfold sort_values. cbn [mapM]. unfold getitem.
  rewrite Hl, Hd. cbn [bind]. unfold argsort.
  pose proof (aligned_lookup _ _ _ Ha Hl) as Ll.
  pose proof (aligned_lookup _ _ _ Ha Hd) as Ld. simpl in Ll, Ld.
  rewrite stable_sort_id; [rewrite reindex_all by assumption; reflexivity |].
  apply seq_sorted. intros i j _ Hij Hj. simpl in Hj.
  apply row_leb_key_le.
  destruct (nth_error locs i) as [l1 |] eqn:E1; [| apply nth_error_None in E1; lia].
  destruct (nth_error locs j) as [l2 |] eqn:E2; [| apply nth_error_None in E2; lia].
  destruct (nth_error dates i) as [d1 |] eqn:E3; [| apply nth_error_None in E3; lia].
  destruct (nth_error dates j) as [d2 |] eqn:E4; [| apply nth_error_None in E4; lia].
  rewrite (nth_nth_error _ _ _ _ E1), (nth_nth_error _ _ _ _ E2),
    (nth_nth_error _ _ _ _ E3), (nth_nth_error _ _ _ _ E4).
  apply (Hs i j); try assumption; unfold cell_at; rewrite ?Hl, ?Hd; simpl;
    rewrite ?E1, ?E2, ?E3, ?E4; reflexivity.
Qed.

Lemma mem_string_In_false s l : mem_string s l = false -> In s l -> False.
Proof. intros H Hin. apply mem_string_In in Hin. congruence. Qed.

(** ** Cells that only write output *)

Lemma only_emits_seq {A B : Type} (c : cell_ A) (k : A -> cell_ B) :
  only_emits c -> (forall a, only_emits (k a)) -> only_emits (seq_ c k).
Proof.
  intros Hc Hk s. unfold seq_. destruct (Hc s) as (D & L & out & O).
  destruct (c s) as [s' [a | e]]; simpl in *; [| eauto].
  destruct (Hk a s') as (D' & L' & out' & O').
  rewrite D', L', O', O, <- app_assoc. eauto.
Qed.

Lemma only_emits_lift {A : Type} (r : result A) : only_emits (lift r).
Proof. intros s. simpl. repeat split. exists []. rewrite app_nil_r. reflexivity. Qed.

Lemma only_emits_ret {A : Type} (a : A) : only_emits (ret a).
Proof. intros s. simpl. repeat split. exists []. rewrite app_nil_r. reflexivity. Qed.

Lemma only_emits_emit o : only_emits (emit o).
Proof. intros s. simpl. eauto. Qed.

Lemma only_emits_get_df : only_emits get_df.
Proof.
  intros s. unfold get_df. destruct (var_df s) eqn:E; simpl; rewrite ?E;
    repeat split; exists []; rewrite app_nil_r; reflexivity.
Qed.

Lemma only_emits_get_latest_data : only_emits get_latest_data.
Proof.
  intros s. unfold get_latest_data. destruct (var_latest_data s) eqn:E; simpl;
    rewrite ?E; repeat split; exists []; rewrite app_nil_r; reflexivity.
Qed.

Lemma only_emits_emit_all (days : list (string * Z)) :
  only_emits (fold_right (fun cd k => emit (PrintDaysReporting (fst cd) (snd cd)) ;;; k)
                         (ret tt) days).
Proof.
  induction days as [| cd r IH]; simpl; [apply only_emits_ret |].
  apply only_emits_seq; [apply only_emits_emit | intros _; exact IH].
Qed.

Ltac only_emits_tac :=
  repeat first
    [ apply only_emits_lift | apply only_emits_ret | apply only_emits_emit
    | apply only_emits_get_df | apply only_emits_get_latest_data
    | apply only_emits_emit_all
    | apply only_emits_seq; [| intros ?] ].

Lemma only_emits_cell_insights : only_emits cell_insights.
Proof. unfold cell_insights. only_emits_tac. Qed.

Lemma select_filter {A : Type} (f : A -> bool) (l : list A) :
  select (map f l) l = filter f l.
Proof.
  induction l as [| a l IH]; simpl; [reflexivity |].
  destruct (f a); rewrite IH; reflexivity.
Qed.

Lemma clean_nrows countries cols raw locs df :
  clean countries cols raw = Ok df -> aligned raw ->
  lookup "location" (columns raw) = Some (ObjectCol locs) ->
  nrows df = List.length (filter (fun l => mem_string l countries) locs).
Proof.
  intros H Ha Hl. destruct (clean_index _ _ _ _ H Ha) as (c & Hc & Hperm).
  rewrite Hl in Hc. injection Hc as <-. unfold nrows.
  rewrite (Permutation_length Hperm). simpl.
  rewrite <- select_filter. apply select_length_eq.
  symmetry. exact (aligned_lookup _ _ _ Ha Hl).
Qed.

(** ** The sort is a stable rearrangement *)

Section Stability.
Context (leb : nat -> nat -> bool).
Hypothesis leb_total : forall a b, leb a b = true \/ leb b a = true.
Hypothesis leb_trans :
  forall a b c, leb a b = true -> leb b c = true -> leb a c = true.

Lemma insert_stable x l :
  Forall (fun z => (x < z)%nat) l ->
  StronglySorted (stably_before leb) l ->
  StronglySorted (stably_before leb) (insert leb x l).
Proof.
  intros Hx Hs. induction Hs as [| y r Hr IH Hy]; simpl.
  - constructor; constructor.
  - inversion Hx as [| ? ? Hxy Hxr]; subst.
    destruct (leb x y) eqn:E.
    + constructor; [constructor; assumption |].
      constructor; [split; auto |].
      rewrite Forall_forall in Hy, Hxr |- *. intros z Hz.
      destruct (Hy z Hz) as [Hyz _]. split; [eauto | auto].
    + constructor; [auto |].
      eapply Permutation_Forall; [symmetry; apply insert_perm |].
      constructor; [| assumption]. split.
      * destruct (leb_total x y); congruence.
      * intros F. congruence.
Qed.

Lemma stable_sort_stable l :
  StronglySorted lt l -> StronglySorted (stably_before leb) (stable_sort leb l).
Proof.
  induction 1 as [| x r Hr IH Hx]; simpl; [constructor |].
  apply insert_stable; [| assumption].
  eapply Permutation_Forall; [symmetry; apply stable_sort_perm | exact Hx].
Qed.
End Stability.

Lemma sort_values_stable df df' :
  sort_values df ["location"; "date"] = Ok df' -> aligned df ->
  exists p,
    Permutation p (seq 0 (nrows df)) /\ df' = reindex p df
    /\ ties_keep_their_order df p.
Proof.
  intros H Ha. destruct (sort_values_spec _ _ _ H) as (keys & Hk & ->).
  exists (argsort keys (nrows df)).
  split; [apply argsort_perm |]. split; [reflexivity |].
  cbn [mapM] in Hk. unfold getitem in Hk.
  destruct (lookup "location" (columns df)) as [cl |] eqn:El; [| discriminate].
  destruct (lookup "date" (columns df)) as [cd |] eqn:Ed; [| discriminate].
  simpl in Hk. injection Hk as <-.
  intros i j a b l d Hij Ni Nj La Da Lb Db.
  unfold cell_at in La, Da, Lb, Db. rewrite El in La, Lb. rewrite Ed in Da, Db.
  destruct (col_cell_str _ _ _ La) as (locs & -> & Nla).
  destruct (col_cell_date _ _ _ Da) as (dates & -> & Nda).
  simpl in Lb, Db.
  destruct (nth_error locs b) as [l' |] eqn:Nlb; [| discriminate].
  destruct (nth_error dates b) as [d' |] eqn:Ndb; [| discriminate].
  simpl in Lb, Db. injection Lb as ->. injection Db as ->.
  assert (Hs : StronglySorted
                 (stably_before (row_leb [ObjectCol locs; DatetimeCol dates]))
                 (argsort [ObjectCol locs; DatetimeCol dates] (nrows df))).
  { apply stable_sort_stable.
    - intros x y. rewrite !row_leb_key_le. apply key_le_total.
    - intros x y z. rewrite !row_leb_key_le. apply key_le_trans.
    - apply seq_sorted. intros; lia. }
  destruct (StronglySorted_nth _ _ Hs i j a b Hij Ni Nj) as [_ Hlt].
  apply Hlt. apply row_leb_key_le.
  rewrite (nth_nth_error _ _ _ _ Nla), (nth_nth_error _ _ _ _ Nda),
    (nth_nth_error _ _ _ _ Nlb), (nth_nth_error _ _ _ _ Ndb).
  right. simpl. split; [reflexivity | lia].
Qed.

Lemma clean_before_sort countries cols raw df :
  clean countries cols raw = Ok df -> aligned raw ->
  exists before,
    before_sort countries cols raw = Ok before /\ aligned before
    /\ sort_values before ["location"; "date"] = Ok df.
Proof.
  intros H Ha.
  destruct (clean_inv _ _ _ _ H Ha)
    as (df1 & df2 & df3 & df4 & df5 & E1 & E2 & E3 & E4 & E5 & E6 &
        _ & _ & _ & _ & A5).
  exists df5. split; [| split; assumption].
  unfold before_sort. rewrite E1. cbn [bind]. rewrite E2. cbn [bind].
  rewrite E3. cbn [bind]. rewrite E4. cbn [bind]. exact E5.
Qed.

(** ** Where each row of the cleaned table comes from *)

Lemma mapM_nth_error {A B : Type} (f : A -> result B) l : forall l' j a,
  mapM f l = Ok l' -> nth_error l j = Some a ->
  exists b, f a = Ok b /\ nth_error l' j = Some b.
Proof.
  induction l as [| x l IH]; intros l' j a H Hj; [destruct j; discriminate |].
  simpl in H. inv_bind H. inv_bind H. injection H as <-.
  destruct j as [| j]; simpl in *.
  - injection Hj as <-. eauto.
  - eauto.
Qed.

Lemma to_datetime_cells c d j x :
  to_datetime c = Ok d -> col_cell c j = Some x ->
  col_cell d j = to_datetime_cell x.
Proof.
  destruct c as [l | l | l]; simpl; intros H Hx; try discriminate.
  - inv_bind H. injection H as <-.
    destruct (nth_error l j) as [s |] eqn:Es; [| discriminate].
    simpl in Hx. injection Hx as <-.
    destruct (mapM_nth_error _ _ _ _ _ E Es) as (b & Hb & Nb).
    simpl. rewrite Nb.
    destruct (parse_iso_date s); [| discriminate]. injection Hb as ->. reflexivity.
  - injection H as <-. simpl.
    destruct (nth_error l j) as [z |]; [| discriminate].
    simpl in Hx. injection Hx as <-. reflexivity.
Qed.

Lemma convert_dates_cells df df' j :
  convert_dates df = Ok df' -> aligned df -> (j < nrows df)%nat ->
  exists c, cell_at df "date" j = Some c
            /\ cell_at df' "date" j = to_datetime_cell c.
Proof.
  unfold convert_dates. intros H Ha Hj. inv_bind H. inv_bind H. injection H as <-.
  apply getitem_Ok in E.
  pose proof (aligned_lookup _ _ _ Ha E) as Hlen.
  assert (Hc : exists c, col_cell x j = Some c).
  { destruct x as [l | l | l]; simpl in *;
      (destruct (nth_error l j) eqn:N; [simpl; eauto |
        apply nth_error_None in N; lia]). }
  destruct Hc as (c & Hc). exists c. unfold cell_at. rewrite E.
  split; [assumption |]. simpl. rewrite lookup_replace_same.
  eapply to_datetime_cells; eassumption.
Qed.

(** The row at position [i] of the cleaned table is the row at position
    [p i] of the file; [p] goes through the positions of the rows on the
    whitelist, each once. *)
Lemma clean_positions countries raw locs df :
  clean countries columns_to_keep raw = Ok df -> aligned raw ->
  lookup "location" (columns raw) = Some (ObjectCol locs) ->
  exists p,
    Permutation p (kept (map (fun s => mem_string s countries) locs))
    /\ index df = map (fun j => nth j (index raw) 0%nat) p
    /\ forall i j, nth_error p i = Some j ->
         (exists c, cell_at raw "date" j = Some c
                    /\ cell_at df "date" i = to_datetime_cell c)
         /\ forall m, In m columns_to_keep -> m <> "date" ->
              cell_at df m i
              = if mem_string m filled_columns
                then option_map (fill_cell (S754_zero false)) (cell_at raw m j)
                else cell_at raw m j.
Proof.
  intros H Ha Hl.
  destruct (clean_inv _ _ _ _ H Ha)
    as (df1 & df2 & df3 & df4 & df5 & E1 & E2 & E3 & E4 & E5 & E6 &
        A1 & A2 & A3 & A4 & A5).
  destruct (sort_values_spec _ _ _ E6) as (keys & _ & ->).
  destruct (derive_metrics_spec _ _ E5 A4) as (_ & I5 & C5).
  destruct (handle_missing_spec _ _ E4 A3) as (_ & I4 & C4).
  destruct (select_columns_spec _ _ _ E3 A2) as (_ & I3 & _ & C3).
  destruct (filter_countries_spec _ _ _ E2 A1) as (c & Hloc & ->).
  destruct (convert_dates_spec _ _ E1 Ha) as (_ & I1 & C1 & _).
  rewrite C1, Hl in Hloc by discriminate. injection Hloc as <-.
  change (isin (ObjectCol locs) countries)
    with (map (fun s => mem_string s countries) locs) in *.
  set (km := kept (map (fun s => mem_string s countries) locs)) in *.
  assert (N5 : nrows df5 = List.length km).
  { rewrite (nrows_index _ _ I5), (nrows_index _ _ I4), (nrows_index _ _ I3).
    apply nrows_reindex. }
  rewrite N5 in *. set (q := argsort keys (List.length km)).
  assert (Hq : forall i, In i q -> (i < List.length km)%nat) by (apply argsort_lt).
  assert (Hkm : forall k, In k km -> (k < nrows df1)%nat).
  { intros k Hin. apply kept_lt in Hin. rewrite length_map in Hin.
    rewrite (nrows_index _ _ I1), <- (aligned_lookup _ _ _ Ha Hl). exact Hin. }
  exists (map (fun i => nth i km 0%nat) q). split; [| split].
  - apply (take_perm 0%nat q km). apply argsort_perm.
  - simpl. rewrite I5, I4, I3. simpl. rewrite I1. unfold take.
    rewrite map_map. apply map_ext_in. intros i Hi.
    rewrite (nth_indep _ 0%nat (nth 0 (index raw) 0%nat))
      by (rewrite length_map; auto).
    apply (map_nth (fun k => nth k (index raw) 0%nat)).
  - intros i j Hp. rewrite nth_error_map in Hp.
    destruct (nth_error q i) as [qi |] eqn:Nq; [| discriminate].
    simpl in Hp. injection Hp as Hj.
    assert (Hqi : (qi < List.length km)%nat) by (eapply Hq, nth_error_In; eassumption).
    assert (Nk : nth_error km qi = Some j).
    { rewrite <- Hj. apply nth_error_nth'. assumption. }
    assert (Hj1 : (j < nrows df1)%nat) by (eapply Hkm, nth_error_In; eassumption).
    assert (Hrow : forall m, In m columns_to_keep ->
              m <> "case_fatality_rate" -> m <> "vaccination_rate" ->
              cell_at (reindex q df5) m i
              = if mem_string m filled_columns
                then option_map (fill_cell (S754_zero false)) (cell_at df1 m j)
                else cell_at df1 m j).
    { intros m Hm Hcfr Hvr.
      rewrite (cell_at_reindex q df5 m i qi A5 Nq) by (rewrite N5; assumption).
      rewrite C5.
      destruct (String.eqb_spec "vaccination_rate" m); [congruence |].
      destruct (String.eqb_spec "case_fatality_rate" m); [congruence |].
      rewrite C4.
      assert (E : cell_at df3 m qi = cell_at df1 m j).
      { transitivity (cell_at (reindex km df1) m qi).
        - unfold cell_at. rewrite C3.
          apply mem_string_In in Hm. rewrite Hm. reflexivity.
        - apply cell_at_reindex; assumption. }
      rewrite E. reflexivity. }
    split.
    + destruct (convert_dates_cells _ _ j E1 Ha) as (c0 & Hc0 & Hd).
      { rewrite <- (nrows_index _ _ I1). assumption. }
      exists c0. split; [assumption |].
      rewrite (Hrow "date") by (try discriminate; simpl; auto).
      exact Hd.
    + intros m Hm Hdate.
      assert (Hcfr : m <> "case_fatality_rate").
      { intros ->. revert Hm. apply mem_string_In_false. reflexivity. }
      assert (Hvr : m <> "vaccination_rate").
      { intros ->. revert Hm. apply mem_string_In_false. reflexivity. }
      rewrite (Hrow m Hm Hcfr Hvr). unfold cell_at. rewrite C1 by assumption.
      reflexivity.
Qed.

(** * The specification, claim by claim *)

Lemma isna_nan x : isna x = true -> x = nan.
Proof. destruct x; try discriminate. reflexivity. Qed.

(** ** C1: when the case fatality rate is undefined *)

(** C1, as stated, fails: in a row whose case count is unknown (0 after
    cleaning) and whose death count is 5, the rate is [+inf], not the
    undefined marker. *)
Lemma undefined_iff_no_cases_fails :
  exists df,
    clean countries_to_include columns_to_keep deaths_without_cases = Ok df
    /\ cell_at deaths_without_cases "total_cases" 0 = Some (CNum nan)
    /\ cell_at df "total_cases" 0 = Some (CNum (S754_zero false))
    /\ cell_at df "case_fatality_rate" 0 = Some (CNum inf)
    /\ ~ undefined_iff_no_cases df.
Proof.
  eexists. split; [vm_compute; reflexivity |].
  repeat split; try reflexivity.
  intros H.
  specialize (H 0%nat (S754_zero false) inf eq_refl eq_refl).
  destruct H as [_ H]. specialize (H (or_introl eq_refl)). discriminate.
Qed.

(** C1 (amended): in every row of the cleaned table the rate is
    [(total_deaths / total_cases) * 100] on the cleaned counts, which are
    never missing; it is NaN exactly when both counts are zero or both are
    infinite.  For Testland the first row is NaN and the second is 2.0. *)
Theorem case_fatality_rate_undefined_iff :
  (forall countries cols raw df,
     clean countries cols raw = Ok df -> well_formed raw = true ->
     forall i, (i < nrows df)%nat ->
     exists tc td,
       cell_at df "total_cases" i = Some (CNum tc)
       /\ cell_at df "total_deaths" i = Some (CNum td)
       /\ isna tc = false /\ isna td = false
       /\ cell_at df "case_fatality_rate" i = Some (CNum (percent td tc))
       /\ (isna (percent td tc) = true
           <-> (is_zero tc = true /\ is_zero td = true)
               \/ (is_inf tc = true /\ is_inf td = true)))
  /\ exists df,
       clean ["Testland"] columns_to_keep testland = Ok df
       /\ lookup "case_fatality_rate" (columns df)
          = Some (Float64Col [nan; of_Z 2]).
Proof.
  split.
  - intros countries cols raw df H Hwf i Hi.
    destruct (cleaned_row _ _ _ _ H (well_formed_aligned _ Hwf) i Hi)
      as (tc & td & pv & pop & Htc & Htd & _ & _ & Ntc & Ntd & Hcfr & _).
    exists tc, td. repeat split; try assumption.
    + rewrite percent_isna, Ntc, Ntd. simpl. intros H1.
      apply orb_true_iff in H1. destruct H1 as [H1 | H1];
        apply andb_true_iff in H1; [left; tauto | right; tauto].
    + rewrite percent_isna, Ntc, Ntd. simpl. intros [[H1 H2] | [H1 H2]];
        rewrite H1, H2; simpl; [reflexivity | apply orb_true_r].
  - eexists. split; vm_compute; reflexivity.
Qed.

Lemma case_fatality_rate_undefined_iff_witness :
  clean ["Testland"] columns_to_keep testland = Ok testland_cleaned
  /\ well_formed testland = true
  /\ (1 < nrows testland_cleaned)%nat
  /\ exists tc td,
       cell_at testland_cleaned "total_cases" 1 = Some (CNum tc)
       /\ cell_at testland_cleaned "total_deaths" 1 = Some (CNum td)
       /\ isna tc = false /\ isna td = false
       /\ cell_at testland_cleaned "case_fatality_rate" 1
          = Some (CNum (percent td tc))
       /\ (isna (percent td tc) = true
           <-> (is_zero tc = true /\ is_zero td = true)
               \/ (is_inf tc = true /\ is_inf td = true)).
Proof.
  assert (E : clean ["Testland"] columns_to_keep testland = Ok testland_cleaned)
    by (vm_compute; reflexivity).
  assert (W : well_formed testland = true) by reflexivity.
  assert (L : (1 < nrows testland_cleaned)%nat) by (vm_compute; lia).
  split; [exact E |]. split; [exact W |]. split; [exact L |].
  exact (proj1 case_fatality_rate_undefined_iff
               ["Testland"] columns_to_keep testland testland_cleaned E W 1%nat L).
Defined.

(** ** C2: which fields the cleaning cell fills *)

(** C2: in every row of the cleaned table the four filled fields are never
    missing: the row is a row of the file in which those four went through
    [fillna(0)].  The seven other numeric fields are the file's, missing
    where the file has none, and a missing [people_vaccinated] or
    [population] makes the row's [vaccination_rate] missing. *)
Theorem filled_fields_and_propagation countries raw df :
  clean countries columns_to_keep raw = Ok df -> well_formed raw = true ->
  forall i, (i < nrows df)%nat ->
    (forall m x, In m filled_columns ->
       cell_at df m i = Some (CNum x) -> isna x = false)
    /\ (exists k, (k < nrows raw)%nat
          /\ (forall m, In m filled_columns ->
                cell_at df m i
                = option_map (fill_cell (S754_zero false)) (cell_at raw m k))
          /\ (forall m, In m other_numeric ->
                cell_at df m i = cell_at raw m k))
    /\ (exists pv pop,
          cell_at df "people_vaccinated" i = Some (CNum pv)
          /\ cell_at df "population" i = Some (CNum pop)
          /\ cell_at df "vaccination_rate" i = Some (CNum (percent pv pop))
          /\ (isna pv = true \/ isna pop = true -> percent pv pop = nan)).
Proof.
  intros H Hwf i Hi. pose proof (well_formed_aligned _ Hwf) as Ha.
  destruct (cleaned_row _ _ _ _ H Ha i Hi)
    as (tc & td & pv & pop & Htc & Htd & Hpv & Hpop & Ntc & Ntd & _ & Hvr & Hnc & Hnd).
  split; [| split].
  - intros m x Hm Hx. unfold filled_columns in Hm. simpl in Hm.
    destruct Hm as [<- | [<- | [<- | [<- | []]]]].
    + rewrite Htc in Hx. inv_Ok Hx. assumption.
    + auto.
    + rewrite Htd in Hx. inv_Ok Hx. assumption.
    + auto.
  - destruct (cleaned_row_source _ _ _ _ H Ha i Hi) as (k & Hk & _ & Hsrc).
    exists k. split; [assumption |]. split.
    + intros m Hm. unfold filled_columns in Hm. simpl in Hm.
      destruct Hm as [<- | [<- | [<- | [<- | []]]]];
        rewrite Hsrc by (reflexivity || discriminate); reflexivity.
    + intros m Hm. unfold other_numeric in Hm. simpl in Hm.
      destruct Hm as [<- | [<- | [<- | [<- | [<- | [<- | [<- | []]]]]]]];
        rewrite Hsrc by (reflexivity || discriminate); reflexivity.
  - exists pv, pop. repeat split; try assumption.
    intros Hn. apply isna_nan. rewrite percent_isna.
    destruct Hn as [-> | ->]; simpl; rewrite ?orb_true_r; reflexivity.
Qed.

Lemma filled_fields_and_propagation_witness :
  clean ["Testland"] columns_to_keep testland = Ok testland_cleaned
  /\ well_formed testland = true
  /\ (0 < nrows testland_cleaned)%nat
  /\ (forall m x, In m filled_columns ->
        cell_at testland_cleaned m 0 = Some (CNum x) -> isna x = false)
  /\ (exists k, (k < nrows testland)%nat
        /\ (forall m, In m filled_columns ->
              cell_at testland_cleaned m 0
              = option_map (fill_cell (S754_zero false)) (cell_at testland m k))
        /\ (forall m, In m other_numeric ->
              cell_at testland_cleaned m 0 = cell_at testland m k))
  /\ (exists pv pop,
        cell_at testland_cleaned "people_vaccinated" 0 = Some (CNum pv)
        /\ cell_at testland_cleaned "population" 0 = Some (CNum pop)
        /\ cell_at testland_cleaned "vaccination_rate" 0
           = Some (CNum (percent pv pop))
        /\ (isna pv = true \/ isna pop = true -> percent pv pop = nan)).
Proof.
  assert (E : clean ["Testland"] columns_to_keep testland = Ok testland_cleaned)
    by (vm_compute; reflexivity).
  assert (W : well_formed testland = true) by reflexivity.
  assert (L : (0 < nrows testland_cleaned)%nat) by (vm_compute; lia).
  split; [exact E |]. split; [exact W |]. split; [exact L |].
  exact (filled_fields_and_propagation ["Testland"] testland testland_cleaned
           E W 0%nat L).
Defined.

(** ** C3: the derived metrics are computed row by row *)

(** C3: [derive_metrics] sets, in every row, [case_fatality_rate] and
    [vaccination_rate] from the fields of that row alone
    ([vaccination_rate = people_vaccinated / population * 100]); it
    commutes with any rearrangement of the rows; a row with
    [people_vaccinated = 250] and [population = 1000] gets 25.0. *)
Theorem derive_metrics_row_local df df' :
  derive_metrics df = Ok df' -> well_formed df = true ->
  (forall i,
     cell_at df' "case_fatality_rate" i
     = ratio_cell (cell_at df "total_deaths" i) (cell_at df "total_cases" i)
     /\ cell_at df' "vaccination_rate" i
        = ratio_cell (cell_at df "people_vaccinated" i) (cell_at df "population" i))
  /\ (forall p, (forall j, In j p -> (j < nrows df)%nat) ->
        derive_metrics (reindex p df) = Ok (reindex p df'))
  /\ (forall i,
        cell_at df "people_vaccinated" i = Some (CNum (of_Z 250)) ->
        cell_at df "population" i = Some (CNum (of_Z 1000)) ->
        cell_at df' "vaccination_rate" i = Some (CNum (of_Z 25))).
Proof.
  intros H Hwf. pose proof (well_formed_aligned _ Hwf) as Ha.
  destruct (derive_metrics_spec _ _ H Ha) as (_ & _ & Hc).
  split; [| split].
  - intros i. rewrite !Hc. split; reflexivity.
  - intros p Hp. apply derive_metrics_reindex; assumption.
  - intros i Hpv Hpop. rewrite Hc. simpl. rewrite Hpv, Hpop. reflexivity.
Qed.

Lemma derive_metrics_row_local_witness :
  derive_metrics quarter_vaccinated = Ok quarter_vaccinated_derived
  /\ well_formed quarter_vaccinated = true
  /\ (forall i,
        cell_at quarter_vaccinated_derived "case_fatality_rate" i
        = ratio_cell (cell_at quarter_vaccinated "total_deaths" i)
                     (cell_at quarter_vaccinated "total_cases" i)
        /\ cell_at quarter_vaccinated_derived "vaccination_rate" i
           = ratio_cell (cell_at quarter_vaccinated "people_vaccinated" i)
                        (cell_at quarter_vaccinated "population" i))
  /\ (forall p, (forall j, In j p -> (j < nrows quarter_vaccinated)%nat) ->
        derive_metrics (reindex p quarter_vaccinated)
        = Ok (reindex p quarter_vaccinated_derived))
  /\ (forall i,
        cell_at quarter_vaccinated "people_vaccinated" i = Some (CNum (of_Z 250)) ->
        cell_at quarter_vaccinated "population" i = Some (CNum (of_Z 1000)) ->
        cell_at quarter_vaccinated_derived "vaccination_rate" i
        = Some (CNum (of_Z 25))).
Proof.
  assert (E : derive_metrics quarter_vaccinated = Ok quarter_vaccinated_derived)
    by (vm_compute; reflexivity).
  assert (W : well_formed quarter_vaccinated = true) by reflexivity.
  split; [exact E |]. split; [exact W |].
  exact (derive_metrics_row_local quarter_vaccinated quarter_vaccinated_derived E W).
Defined.

(** ** C4: the two totals *)



(** ** C5: the entity with the highest vaccination rate *)

(** C5, as stated, fails: with no vaccination count at the latest date the
    lookup of line 214 raises [KeyError], which nothing catches; the script
    stops there, although the fatality insight and the days of reporting can
    be computed from the same tables, and neither they nor the exports are
    produced. *)
Lemma no_valid_row_stops_the_script :
  clean countries_to_include columns_to_keep unvaccinated = Ok unvaccinated_cleaned
  /\ latest_snapshot unvaccinated_cleaned = Ok unvaccinated_latest
  /\ lookup "vaccination_rate" (columns unvaccinated_latest)
     = Some (Float64Col [nan; nan])
  /\ most_vaccinated unvaccinated_latest = Raise (KeyError "nan")
  /\ snd unvaccinated_run = Raise (KeyError "nan")
  /\ existsb after_vaccination_insight (stdout (fst unvaccinated_run)) = false
  /\ (exists r, highest_fatality unvaccinated_latest = Ok r
                /\ row_get r "location" = Ok (CStr "India"))
  /\ days_reporting (days_from_civil 2021 1 1) unvaccinated_cleaned
     = Ok [("India", 0); ("Kenya", 0)].
Proof.
  repeat split; try (vm_compute; reflexivity).
  eexists. split; vm_compute; reflexivity.
Qed.

Lemma cell_insights_stops_at_vaccination s t e :
  var_latest_data s = Some t -> most_vaccinated t = Raise e ->
  exists e' new,
    cell_insights s
    = (mkNotebook (var_df s) (var_latest_data s) (stdout s ++ new), Raise e')
    /\ existsb after_vaccination_insight new = false.
Proof.
  intros Hl Hm. destruct s as [d ld out]. simpl in *. subst ld.
  unfold cell_insights, seq_, get_df, get_latest_data, lift, emit. simpl.
  destruct d as [df |]; simpl.
  2:{ exists (NameError "df"), []. rewrite app_nil_r. auto. }
  destruct (latest_date df) as [latest | e1]; simpl.
  2:{ exists e1, []. rewrite app_nil_r. auto. }
  destruct (total_cases_world df) as [cases | e2]; simpl.
  2:{ exists e2, []. rewrite app_nil_r. auto. }
  destruct (total_deaths_world df) as [deaths | e3]; simpl.
  2:{ exists e3, []. rewrite app_nil_r. auto. }
  destruct latest as [ld |]; simpl.
  2:{ exists ValueError, []. rewrite app_nil_r. auto. }
  rewrite Hm. simpl.
  exists e, [PrintKeyInsights ld; PrintTotalCases cases; PrintTotalDeaths deaths].
  rewrite <- !app_assoc. simpl. auto.
Qed.

(** C5 (amended): when some row of the snapshot has a defined rate, line 214
    returns a row of the snapshot that no row exceeds (a row with a defined
    rate as soon as one defined rate is above [-inf]).  When every rate is
    missing it raises [KeyError] ([ValueError] on an empty snapshot), the
    insight cell stops with an exception, and it has printed nothing that
    comes after the vaccination insight. *)
Theorem most_vaccinated_outcomes t l :
  lookup "vaccination_rate" (columns t) = Some (Float64Col l) ->
  well_formed t = true ->
  (forallb isna l = false ->
     exists p x,
       most_vaccinated t = Ok (row_at t p)
       /\ cell_at t "vaccination_rate" p = Some (CNum x)
       /\ (forall i v, cell_at t "vaccination_rate" i = Some (CNum v) ->
                       gt v (fill_neg_inf x) = false)
       /\ ((exists v, In v l /\ gt v neg_inf = true) -> isna x = false))
  /\ (forallb isna l = true ->
        most_vaccinated t
        = Raise (match l with [] => ValueError | _ :: _ => KeyError "nan" end)
        /\ forall s, var_latest_data s = Some t ->
             exists e new,
               cell_insights s
               = (mkNotebook (var_df s) (var_latest_data s) (stdout s ++ new),
                  Raise e)
               /\ existsb after_vaccination_insight new = false).
Proof.
  intros Hl Hwf.
  assert (Hn : NoDup (index t)).
  { apply distinct_labels_NoDup. unfold well_formed in Hwf.
    apply andb_true_iff in Hwf. tauto. }
  pose proof (aligned_lookup _ _ _ (well_formed_aligned _ Hwf) Hl) as Hlen.
  simpl in Hlen.
  pose proof (row_of_max_spec _ _ _ Hl Hn Hlen) as S.
  split.
  - intros F. destruct l as [| v0 r] eqn:El; [discriminate |]. rewrite <- El in *.
    rewrite F in S. destruct S as (p & x & Hrow & Hx & Hle & Hdef).
    exists p, x. split; [exact Hrow |]. split.
    + unfold cell_at. rewrite Hl. simpl. rewrite Hx. reflexivity.
    + split; [| exact Hdef].
      intros i v Hv. apply Hle. unfold cell_at in Hv. rewrite Hl in Hv.
      simpl in Hv. destruct (nth_error l i) as [y |] eqn:Ey; [| discriminate].
      simpl in Hv. inv_Ok Hv. eapply nth_error_In; eassumption.
  - intros F.
    assert (Hm : most_vaccinated t
                 = Raise (match l with [] => ValueError | _ :: _ => KeyError "nan" end)).
    { destruct l as [| v0 r]; [exact S |].
      cbv beta iota in S. rewrite F in S. exact S. }
    split; [exact Hm |].
    intros s Hs. eapply cell_insights_stops_at_vaccination; eassumption.
Qed.

Lemma most_vaccinated_outcomes_witness :
  lookup "vaccination_rate" (columns unvaccinated_latest)
  = Some (Float64Col [nan; nan])
  /\ well_formed unvaccinated_latest = true
  /\ (forallb isna [nan; nan] = false ->
        exists p x,
          most_vaccinated unvaccinated_latest = Ok (row_at unvaccinated_latest p)
          /\ cell_at unvaccinated_latest "vaccination_rate" p = Some (CNum x)
          /\ (forall i v,
                cell_at unvaccinated_latest "vaccination_rate" i = Some (CNum v) ->
                gt v (fill_neg_inf x) = false)
          /\ ((exists v, In v [nan; nan] /\ gt v neg_inf = true) -> isna x = false))
  /\ (forallb isna [nan; nan] = true ->
        most_vaccinated unvaccinated_latest = Raise (KeyError "nan")
        /\ forall s, var_latest_data s = Some unvaccinated_latest ->
             exists e new,
               cell_insights s
               = (mkNotebook (var_df s) (var_latest_data s) (stdout s ++ new),
                  Raise e)
               /\ existsb after_vaccination_insight new = false).
Proof.
  assert (L : lookup "vaccination_rate" (columns unvaccinated_latest)
              = Some (Float64Col [nan; nan])) by (vm_compute; reflexivity).
  assert (W : well_formed unvaccinated_latest = true) by (vm_compute; reflexivity).
  split; [exact L |]. split; [exact W |].
  exact (most_vaccinated_outcomes unvaccinated_latest [nan; nan] L W).
Defined.

(** ** C6: days since the first case *)

(** C6: the loop of lines 222-225 reports each entity at most once; it
    reports [(e, n)] exactly when [e] has a first date [d] on which its
    cumulative case count exceeds zero and [n = latest - d], the difference
    of the two day numbers; an entity whose count never exceeds zero is not
    reported at all, and the computation still completes.  When the insight
    cell completes, [latest] is the latest date of [df] and the lines it
    printed are these reports.  With a first crossing on 2020-03-01 and the
    latest date 2020-04-10 the report is 40; India, which never crosses, is
    absent. *)
Theorem days_reporting_from_first_crossing :
  (forall df locs dates tcs latest,
     lookup "location" (columns df) = Some (ObjectCol locs) ->
     lookup "date" (columns df) = Some (DatetimeCol dates) ->
     lookup "total_cases" (columns df) = Some (Float64Col tcs) ->
     exists ds,
       days_reporting latest df = Ok ds
       /\ ascending (map fst ds)
       /\ (forall e n, In (e, n) ds
                       <-> exists d, first_crossing df e d /\ n = latest - d)
       /\ (forall e, (forall d, ~ reported_on df e d) -> ~ In e (map fst ds)))
  /\ (forall s s' df,
        var_df s = Some df -> cell_insights s = (s', Ok tt) ->
        exists ld ds before,
          latest_date df = Ok (Some ld)
          /\ days_reporting ld df = Ok ds
          /\ stdout s' = (stdout s ++ before ++ days_lines ds)%list
          /\ existsb is_days_line before = false)
  /\ latest_date first_case_in_march_cleaned = Ok (Some (days_from_civil 2020 4 10))
  /\ first_cases first_case_in_march_cleaned
     = Ok [("Kenya", days_from_civil 2020 3 1)]
  /\ days_reporting (days_from_civil 2020 4 10) first_case_in_march_cleaned
     = Ok [("Kenya", 40)].
Proof.
  split; [| split; [exact cell_insights_completes |
                    repeat split; vm_compute; reflexivity]].
  intros df locs dates tcs latest Hl Hd Ht.
  set (mask := map (fun x => gt x (S754_zero false)) tcs).
  set (fc := groupby_min_date (select mask locs) (select mask dates)).
  exists (map (fun cd => (fst cd, latest - snd cd)) fc).
  assert (Hasc : ascending (map fst fc))
    by apply (groupby_agg_ascending (fun d : Z => d) Z.min).
  assert (Hgrp : forall e d, In d (group e (select mask locs) (select mask dates))
                             <-> reported_on df e d)
    by (intros e d; apply in_group_reported; assumption).
  assert (Hfc : forall e d, In (e, d) fc <-> first_crossing df e d).
  { intros e d. split.
    - intros Hin. destruct (groupby_min_date_spec _ _ _ _ Hin) as (H1 & H2).
      split; [apply Hgrp; assumption |].
      intros d' Hd'. apply H2. apply Hgrp. assumption.
    - intros (Hr & Hmin).
      assert (Hk : In e (map fst fc)).
      { apply (groupby_agg_keys (fun d : Z => d) Z.min).
        intros Hg. apply Hgrp in Hr. rewrite Hg in Hr. contradiction. }
      apply in_map_iff in Hk. destruct Hk as ([e' d0] & He & Hin).
      simpl in He. subst e'.
      destruct (groupby_min_date_spec _ _ _ _ Hin) as (H1 & H2).
      assert (d0 = d).
      { apply Z.le_antisymm.
        - apply H2. apply Hgrp. assumption.
        - apply Hmin. apply Hgrp. assumption. }
      subst d0. assumption. }
  split; [| split; [| split]].
  - unfold days_reporting. rewrite (first_cases_eq _ _ _ _ Hl Hd Ht). reflexivity.
  - rewrite map_map. simpl. exact Hasc.
  - intros e n. rewrite in_map_iff. split.
    + intros ([e' d] & E & Hin). simpl in E. inv_Ok E.
      exists d. split; [apply Hfc; assumption | reflexivity].
    + intros (d & Hc & ->). exists (e, d). split; [reflexivity |].
      apply Hfc. assumption.
  - intros e Hnone Hin. rewrite map_map in Hin. simpl in Hin.
    apply in_map_iff in Hin. destruct Hin as ([e' d] & E & Hin).
    simpl in E. subst e'. apply Hfc in Hin. destruct Hin as (Hr & _).
    exact (Hnone d Hr).
Qed.

Lemma days_reporting_from_first_crossing_witness :
  exists locs dates tcs,
    lookup "location" (columns first_case_in_march_cleaned) = Some (ObjectCol locs)
    /\ lookup "date" (columns first_case_in_march_cleaned) = Some (DatetimeCol dates)
    /\ lookup "total_cases" (columns first_case_in_march_cleaned)
       = Some (Float64Col tcs)
    /\ exists ds,
         days_reporting (days_from_civil 2020 4 10) first_case_in_march_cleaned
         = Ok ds
         /\ ascending (map fst ds)
         /\ (forall e n,
               In (e, n) ds
               <-> exists d, first_crossing first_case_in_march_cleaned e d
                             /\ n = days_from_civil 2020 4 10 - d)
         /\ (forall e,
               (forall d, ~ reported_on first_case_in_march_cleaned e d) ->
               ~ In e (map fst ds)).
Proof.
  destruct (lookup "location" (columns first_case_in_march_cleaned))
    as [[locs | |] |] eqn:L; try (vm_compute in L; discriminate).
  destruct (lookup "date" (columns first_case_in_march_cleaned))
    as [[| | dates] |] eqn:D; try (vm_compute in D; discriminate).
  destruct (lookup "total_cases" (columns first_case_in_march_cleaned))
    as [[| tcs |] |] eqn:T; try (vm_compute in T; discriminate).
  exists locs, dates, tcs.
  split; [reflexivity |]. split; [reflexivity |]. split; [reflexivity |].
  exact (proj1 days_reporting_from_first_crossing
               first_case_in_march_cleaned locs dates tcs
               (days_from_civil 2020 4 10) L D T).
Defined.

(** ** C7: the load cell on a missing file *)

(** C7 (what the code does): on a missing file the handler prints its
    message and the cell goes on to read [df].  In a fresh interpreter that
    is a [NameError], which is what ends the script; with a table left in
    [df] by an earlier run the cell completes on that table, and the
    notebook runs to its end on it, exports included. *)
Theorem missing_file_falls_through :
  cell_load None fresh
  = (mkNotebook None None [Print not_found_message], Raise (NameError "df"))
  /\ notebook_run None fresh
     = (mkNotebook None None [Print not_found_message], Raise (NameError "df"))
  /\ (forall stale latest_data out,
        cell_load None (mkNotebook (Some stale) latest_data out)
        = (mkNotebook (Some stale) latest_data
             (out ++ [Print not_found_message;
                      PrintShape (nrows stale) (List.length (columns stale))]),
           Ok tt))
  /\ snd (notebook_run None stale_session) = Ok tt
  /\ existsb after_vaccination_insight
             (stdout (fst (notebook_run None stale_session))) = true.
Proof.
  split; [reflexivity |]. split; [reflexivity |]. split.
  - intros stale latest_data out.
    unfold cell_load, seq_, emit, get_df. simpl.
    rewrite <- app_assoc. reflexivity.
  - split; vm_compute; reflexivity.
Qed.

(** ** C8: the order of the working table *)

(** C8: when the cleaning cell completes, [df] holds the table sorted by
    [(location, date)] ascending, and it holds all of it: the table of
    line 80 is a rearrangement of the rows the sort was given, every row
    once with its label and fields, and rows with the same location and
    date stay in the order they had.  The chart cell with the rolling
    mean, which comes next, is handed that table, and no later cell rebinds
    [df].  Deriving the metrics keeps the order too (the cell does it just
    before the sort): it does not touch [location] or [date]. *)
Theorem sorted_after_cleaning raw latest_data out s1 :
  well_formed raw = true ->
  cell_clean (mkNotebook (Some raw) latest_data out) = (s1, Ok tt) ->
  exists df,
    clean countries_to_include columns_to_keep raw = Ok df
    /\ var_df s1 = Some df
    /\ sorted_by_location_date df
    /\ (exists before p,
          before_sort countries_to_include columns_to_keep raw = Ok before
          /\ sort_values before ["location"; "date"] = Ok df
          /\ Permutation p (seq 0 (nrows before))
          /\ df = reindex p before
          /\ ties_keep_their_order before p)
    /\ cell_trends s1
       = (mkNotebook (Some df) (var_latest_data s1)
            (stdout s1 ++ [Chart "images/total_cases_trend.png" df;
                           Chart "images/new_cases_trend.png" df]),
          Ok tt)
    /\ keeps_df cell_trends /\ keeps_df cell_latest
    /\ keeps_df cell_insights /\ keeps_df cell_export
    /\ forall t t', derive_metrics t = Ok t' -> well_formed t = true ->
         sorted_by_location_date t -> sorted_by_location_date t'.
Proof.
  intros Hwf H. pose proof (well_formed_aligned _ Hwf) as Ha.
  unfold cell_clean, seq_, get_df, lift, set_df, emit in H. simpl in H.
  destruct (clean countries_to_include columns_to_keep raw) as [df | e] eqn:E;
    [| discriminate].
  simpl in H. inv_Ok H. exists df. split; [reflexivity |]. split; [reflexivity |].
  destruct (clean_before_sort _ _ _ _ E Ha) as (before & Hb & Ab & Hsort).
  split; [eapply sort_values_sorted; eassumption |].
  split.
  - destruct (sort_values_stable _ _ Hsort Ab) as (p & Hperm & Hdf & Hties).
    exists before, p. auto.
  - split.
    + unfold cell_trends, seq_, get_df, emit. simpl.
      rewrite <- !app_assoc. reflexivity.
    + repeat split;
        auto using keeps_df_cell_trends, keeps_df_cell_latest,
          keeps_df_cell_insights, keeps_df_cell_export.
      intros t t' Hd Hw. apply derive_metrics_keeps_order; [assumption |].
      apply well_formed_aligned. assumption.
Qed.

(** In [first_case_in_march] the three rows of Kenya come before the two
    of India; the sort puts India first and keeps the dates of each in
    order. *)
Lemma sorted_after_cleaning_witness :
  well_formed first_case_in_march = true
  /\ cell_clean (mkNotebook (Some first_case_in_march) None [])
     = (after_cleaning, Ok tt)
  /\ index first_case_in_march_cleaned = [3; 4; 0; 1; 2]%nat
  /\ lookup "location" (columns first_case_in_march_cleaned)
     = Some (ObjectCol ["India"; "India"; "Kenya"; "Kenya"; "Kenya"])
  /\ lookup "date" (columns first_case_in_march_cleaned)
     = Some (DatetimeCol [days_from_civil 2020 3 1; days_from_civil 2020 4 10;
                          days_from_civil 2020 2 28; days_from_civil 2020 3 1;
                          days_from_civil 2020 4 10])
  /\ exists df,
       clean countries_to_include columns_to_keep first_case_in_march = Ok df
       /\ var_df after_cleaning = Some df
       /\ sorted_by_location_date df
       /\ (exists before p,
             before_sort countries_to_include columns_to_keep first_case_in_march
             = Ok before
             /\ sort_values before ["location"; "date"] = Ok df
             /\ Permutation p (seq 0 (nrows before))
             /\ df = reindex p before
             /\ ties_keep_their_order before p)
       /\ cell_trends after_cleaning
          = (mkNotebook (Some df) (var_latest_data after_cleaning)
               (stdout after_cleaning
                  ++ [Chart "images/total_cases_trend.png" df;
                      Chart "images/new_cases_trend.png" df]),
             Ok tt)
       /\ keeps_df cell_trends /\ keeps_df cell_latest
       /\ keeps_df cell_insights /\ keeps_df cell_export
       /\ forall t t', derive_metrics t = Ok t' -> well_formed t = true ->
            sorted_by_location_date t -> sorted_by_location_date t'.
Proof.
  assert (W : well_formed first_case_in_march = true) by reflexivity.
  assert (E : cell_clean (mkNotebook (Some first_case_in_march) None [])
              = (after_cleaning, Ok tt)) by (vm_compute; reflexivity).
  split; [exact W |]. split; [exact E |].
  split; [reflexivity |]. split; [reflexivity |]. split; [reflexivity |].
  exact (sorted_after_cleaning first_case_in_march None [] after_cleaning W E).
Defined.

(** ** C9: the filter and projection stage *)

(** C9: when the requested columns exist, lines 58-67 produce a table whose
    columns are exactly the requested names in the requested order, and
    whose index and columns hold, top to bottom, exactly the rows of the
    input whose [location] is on the whitelist (they stay in the input's
    order, which the stage does not change). *)
Theorem filter_project_exact countries cols df locs :
  lookup "location" (columns df) = Some (ObjectCol locs) ->
  forallb (fun m => mem_string m (map fst (columns df))) cols = true ->
  exists df1 df2,
    filter_countries countries df = Ok df1
    /\ select_columns cols df1 = Ok df2
    /\ map fst (columns df2) = cols
    /\ index df2
       = map fst (filter (fun il => mem_string (snd il) countries)
                         (combine (index df) locs))
    /\ forall m, In m cols ->
         exists c c2,
           lookup m (columns df) = Some c
           /\ lookup m (columns df2) = Some c2
           /\ col_cells c2
              = map fst (filter (fun cl => mem_string (snd cl) countries)
                                (combine (col_cells c) locs)).
Proof.
  intros Hl Hcols.
  set (mask := map (fun s => mem_string s countries) locs).
  exists (boolean_indexing df mask).
  assert (E1 : filter_countries countries df = Ok (boolean_indexing df mask)).
  { unfold filter_countries, getitem. rewrite Hl. reflexivity. }
  assert (Hcols' : forallb (fun m => mem_string m
                     (map fst (columns (boolean_indexing df mask)))) cols = true).
  { rewrite names_boolean_indexing. assumption. }
  destruct (mapM_getitem_total _ _ Hcols') as (cols2 & E2).
  exists (mkDataFrame (index (boolean_indexing df mask)) cols2).
  destruct (mapM_getitem _ _ _ E2) as [Hn Hf].
  split; [exact E1 |]. split; [| split; [| split]].
  - unfold select_columns, getitem_list. rewrite E2. reflexivity.
  - exact Hn.
  - simpl. unfold mask.
    apply (select_map_filter (fun s => mem_string s countries)).
  - intros m Hm. simpl.
    rewrite (lookup_selected _ _ m Hf), Hn.
    assert (Hmem : mem_string m cols = true).
    { unfold mem_string. apply existsb_exists. exists m.
      split; [assumption | apply String.eqb_refl]. }
    rewrite Hmem. unfold boolean_indexing. simpl. rewrite lookup_map_cols.
    rewrite forallb_forall in Hcols.
    destruct (lookup_mem _ _ (Hcols m Hm)) as (c & Hc).
    exists c, (col_select mask c). rewrite Hc. simpl.
    repeat split. rewrite col_cells_select. unfold mask.
    apply (select_map_filter (fun s => mem_string s countries)).
Qed.

Lemma filter_project_exact_witness :
  lookup "location" (columns three_countries)
  = Some (ObjectCol ["Kenya"; "France"; "India"])
  /\ forallb (fun m => mem_string m (map fst (columns three_countries)))
             columns_to_keep = true
  /\ exists df1 df2,
       filter_countries countries_to_include three_countries = Ok df1
       /\ select_columns columns_to_keep df1 = Ok df2
       /\ map fst (columns df2) = columns_to_keep
       /\ index df2
          = map fst (filter (fun il => mem_string (snd il) countries_to_include)
                            (combine (index three_countries)
                                     ["Kenya"; "France"; "India"]))
       /\ forall m, In m columns_to_keep ->
            exists c c2,
              lookup m (columns three_countries) = Some c
              /\ lookup m (columns df2) = Some c2
              /\ col_cells c2
                 = map fst (filter (fun cl => mem_string (snd cl) countries_to_include)
                                   (combine (col_cells c)
                                            ["Kenya"; "France"; "India"])).
Proof.
  split; [reflexivity |]. split; [reflexivity |].
  exact (filter_project_exact countries_to_include columns_to_keep
           three_countries ["Kenya"; "France"; "India"] eq_refl eq_refl).
Defined.

(** ** C10: the rate of a row with deaths and no case *)

(** C10, as stated, fails on a case count written [-0.0]: it equals 0,
    5 deaths are above 0, and the rate is [-inf]. *)
Lemma positive_infinity_on_zero_cases_fails :
  exists df,
    clean countries_to_include columns_to_keep negative_zero_cases = Ok df
    /\ cell_at df "total_cases" 0 = Some (CNum (S754_zero true))
    /\ cell_at df "total_deaths" 0 = Some (CNum (of_Z 5))
    /\ cell_at df "case_fatality_rate" 0 = Some (CNum neg_inf)
    /\ ~ positive_infinity_on_zero_cases df.
Proof.
  eexists. split; [vm_compute; reflexivity |].
  repeat split; try reflexivity.
  intros H.
  specialize (H 0%nat (S754_zero true) (of_Z 5) neg_inf
                eq_refl eq_refl eq_refl eq_refl eq_refl).
  discriminate.
Qed.

Lemma highest_is_inf l x :
  In inf l -> (forall v, In v l -> gt v (fill_neg_inf x) = false) -> x = inf.
Proof.
  intros Hin Hle. specialize (Hle _ Hin).
  destruct (isna x) eqn:N.
  - unfold fill_neg_inf in Hle. rewrite N in Hle. discriminate.
  - unfold fill_neg_inf in Hle. rewrite N in Hle.
    destruct x as [[] | [] | | [] m e]; try discriminate; reflexivity.
Qed.

(** C10 (amended): in a row of the cleaned table whose case count is a zero
    and whose death count is above 0, the rate is the infinity with the sign
    of that zero: [+inf] for [+0], which is what a missing count is filled
    with, and [-inf] for [-0.0]; it is never NaN.  Nothing flags it: where
    the latest snapshot holds a [+inf] rate the fatality insight selects such
    a row, and the export cell writes both tables as they are. *)
Theorem infinite_rate_on_zero_cases :
  (forall countries raw df,
     clean countries columns_to_keep raw = Ok df -> well_formed raw = true ->
     forall i tc td,
       cell_at df "total_cases" i = Some (CNum tc) ->
       cell_at df "total_deaths" i = Some (CNum td) ->
       is_zero tc = true -> gt td (S754_zero false) = true ->
       cell_at df "case_fatality_rate" i = Some (CNum (S754_infinity (signbit tc)))
       /\ exists k, (k < nrows raw)%nat
            /\ cell_at df "total_cases" i
               = option_map (fill_cell (S754_zero false)) (cell_at raw "total_cases" k)
            /\ (cell_at raw "total_cases" k = Some (CNum nan) ->
                cell_at df "case_fatality_rate" i = Some (CNum inf)))
  /\ (forall t l,
        lookup "case_fatality_rate" (columns t) = Some (Float64Col l) ->
        well_formed t = true -> In inf l ->
        exists p, highest_fatality t = Ok (row_at t p)
                  /\ cell_at t "case_fatality_rate" p = Some (CNum inf))
  /\ (forall df latest_data out,
        cell_export (mkNotebook (Some df) (Some latest_data) out)
        = (mkNotebook (Some df) (Some latest_data)
                      (out ++ exported df latest_data), Ok tt)).
Proof.
  split; [| split].
  - intros countries raw df H Hwf i tc td Htc Htd Zt Gt.
    pose proof (well_formed_aligned _ Hwf) as Ha.
    assert (Hi : (i < nrows df)%nat).
    { destruct (clean_rows _ _ _ _ H Ha) as (_ & _ & df5 & _ & _ & _ & _ & (keys & ->) & _).
      eapply cell_at_lt; [apply aligned_reindex | exact Htc]. }
    destruct (cleaned_row _ _ _ _ H Ha i Hi)
      as (tc' & td' & _ & _ & Htc' & Htd' & _ & _ & _ & _ & Hcfr & _).
    rewrite Htc in Htc'. rewrite Htd in Htd'. inv_Ok Htc'. inv_Ok Htd'.
    destruct (gt_zero_positive _ Gt) as (Nd & Zd & Sd).
    assert (Hrate : cell_at df "case_fatality_rate" i
                    = Some (CNum (S754_infinity (signbit tc')))).
    { rewrite Hcfr, (percent_zero_den td' tc' Zt Nd Zd), Sd. reflexivity. }
    split; [exact Hrate |].
    destruct (cleaned_row_source _ _ _ _ H Ha i Hi) as (k & Hk & _ & Hsrc).
    exists k. split; [assumption |].
    assert (Hfill : cell_at df "total_cases" i
                    = option_map (fill_cell (S754_zero false))
                                 (cell_at raw "total_cases" k)).
    { rewrite Hsrc by (reflexivity || discriminate). reflexivity. }
    split; [exact Hfill |].
    intros Hraw. rewrite Hraw, Htc in Hfill. simpl in Hfill. inv_Ok Hfill.
    exact Hrate.
  - intros t l Hl Hwf Hin.
    assert (Hn : NoDup (index t)).
    { apply distinct_labels_NoDup. unfold well_formed in Hwf.
      apply andb_true_iff in Hwf. tauto. }
    pose proof (aligned_lookup _ _ _ (well_formed_aligned _ Hwf) Hl) as Hlen.
    simpl in Hlen.
    pose proof (row_of_max_spec _ _ _ Hl Hn Hlen) as S.
    destruct l as [| v0 r] eqn:El; [contradiction |]. rewrite <- El in *.
    assert (F : forallb isna l = false).
    { destruct (forallb isna l) eqn:F; [| reflexivity].
      rewrite forallb_forall in F. specialize (F _ Hin). discriminate. }
    rewrite F in S. destruct S as (p & x & Hrow & Hx & Hle & _).
    exists p. split; [exact Hrow |].
    rewrite (highest_is_inf _ _ Hin Hle) in Hx.
    unfold cell_at. rewrite Hl. simpl. rewrite Hx. reflexivity.
  - intros df latest_data out. unfold cell_export, seq_, get_df, get_latest_data, emit.
    simpl. unfold exported. rewrite <- !app_assoc. reflexivity.
Qed.

Lemma infinite_rate_on_zero_cases_witness :
  clean countries_to_include columns_to_keep deaths_without_cases
  = Ok deaths_without_cases_cleaned
  /\ well_formed deaths_without_cases = true
  /\ cell_at deaths_without_cases_cleaned "case_fatality_rate" 0
     = Some (CNum (S754_infinity (signbit (S754_zero false))))
  /\ exists k, (k < nrows deaths_without_cases)%nat
       /\ cell_at deaths_without_cases_cleaned "total_cases" 0
          = option_map (fill_cell (S754_zero false))
                       (cell_at deaths_without_cases "total_cases" k)
       /\ (cell_at deaths_without_cases "total_cases" k = Some (CNum nan) ->
           cell_at deaths_without_cases_cleaned "case_fatality_rate" 0
           = Some (CNum inf)).
Proof.
  assert (E : clean countries_to_include columns_to_keep deaths_without_cases
              = Ok deaths_without_cases_cleaned) by (vm_compute; reflexivity).
  assert (W : well_formed deaths_without_cases = true) by reflexivity.
  split; [exact E |]. split; [exact W |].
  exact (proj1 infinite_rate_on_zero_cases
               countries_to_include deaths_without_cases
               deaths_without_cases_cleaned E W 0%nat
               (S754_zero false) (of_Z 5) eq_refl eq_refl eq_refl eq_refl).
Defined.

(** * Further properties of the notebook *)

(** ** The cleaned table *)

(** X1: the columns of the cleaned table are the requested ones, in the
    order of the list, followed by the two derived rates; this holds for
    every list that does not itself name a derived rate. *)
Theorem cleaned_columns countries cols raw df :
  mem_string "case_fatality_rate" cols = false ->
  mem_string "vaccination_rate" cols = false ->
  clean countries cols raw = Ok df ->
  column_names df = (cols ++ derived_columns)%list.
Proof. intros Hc Hv H. exact (clean_names _ _ _ _ H Hc Hv). Qed.

Lemma cleaned_columns_witness :
  column_names complete_file_cleaned = (columns_to_keep ++ derived_columns)%list.
Proof.
  assert (H : clean countries_to_include columns_to_keep complete_file
              = Ok complete_file_cleaned) by reflexivity.
  exact (cleaned_columns countries_to_include columns_to_keep complete_file
           complete_file_cleaned eq_refl eq_refl H).
Defined.

(** X2: the rows of the cleaned table are the rows of the file whose
    location is on the whitelist, each once.  There is a list [p] of
    positions in the file, a rearrangement of the positions of the rows on
    the whitelist, such that the row at position [i] of the cleaned table
    is the row at position [p i] of the file: it carries that row's label,
    its date as a timestamp, and its fields in the listed columns, the four
    count columns with a missing value replaced by zero.  So no label
    occurs twice and every location left is on the whitelist. *)
Theorem cleaned_rows_are_the_whitelisted_rows countries raw locs df :
  well_formed raw = true ->
  lookup "location" (columns raw) = Some (ObjectCol locs) ->
  clean countries columns_to_keep raw = Ok df ->
  (exists p,
     Permutation p (kept (map (fun s => mem_string s countries) locs))
     /\ index df = map (fun j => nth j (index raw) 0%nat) p
     /\ forall i j, nth_error p i = Some j ->
          (exists c, cell_at raw "date" j = Some c
                     /\ cell_at df "date" i = to_datetime_cell c)
          /\ forall m, In m columns_to_keep -> m <> "date" ->
               cell_at df m i
               = if mem_string m filled_columns
                 then option_map (fill_cell (S754_zero false)) (cell_at raw m j)
                 else cell_at raw m j)
  /\ Permutation (index df) (whitelisted_labels countries raw locs)
  /\ NoDup (index df)
  /\ forall i s, cell_at df "location" i = Some (CStr s) -> In s countries.
Proof.
  intros Hwf Hl H. pose proof (well_formed_aligned _ Hwf) as Ha.
  split; [exact (clean_positions _ _ _ _ H Ha Hl) |].
  split; [| split].
  - destruct (clean_index _ _ _ _ H Ha) as (c & Hc & Hperm).
    rewrite Hl in Hc. injection Hc as <-.
    unfold whitelisted_labels.
    rewrite <- (select_map_filter_gen (fun s => mem_string s countries)).
    exact Hperm.
  - pose proof (clean_well_formed _ _ _ H Hwf) as Hwf'.
    apply well_formed_parts in Hwf'. tauto.
  - intros i s Hc. apply mem_string_In.
    exact (cleaned_location _ _ _ _ i s H Ha eq_refl Hc).
Qed.

(** In [three_countries] Kenya is at position 0, France at 1 and India at
    2: the cleaned table has the row of India, then the row of Kenya. *)
Lemma cleaned_rows_are_the_whitelisted_rows_witness :
  kept (map (fun s => mem_string s countries_to_include)
            ["Kenya"; "France"; "India"]) = [0; 2]%nat
  /\ index (the_table (clean countries_to_include columns_to_keep three_countries))
     = [2; 0]%nat
  /\ lookup "location"
       (columns (the_table (clean countries_to_include columns_to_keep
                                   three_countries)))
     = Some (ObjectCol ["India"; "Kenya"])
  /\ lookup "total_cases"
       (columns (the_table (clean countries_to_include columns_to_keep
                                   three_countries)))
     = Some (Float64Col [of_Z 30; of_Z 10])
  /\ ((exists p,
         Permutation p (kept (map (fun s => mem_string s countries_to_include)
                                  ["Kenya"; "France"; "India"]))
         /\ index (the_table (clean countries_to_include columns_to_keep
                                    three_countries))
            = map (fun j => nth j (index three_countries) 0%nat) p
         /\ forall i j, nth_error p i = Some j ->
              (exists c, cell_at three_countries "date" j = Some c
                         /\ cell_at (the_table (clean countries_to_include
                                                  columns_to_keep three_countries))
                                    "date" i
                            = to_datetime_cell c)
              /\ forall m, In m columns_to_keep -> m <> "date" ->
                   cell_at (the_table (clean countries_to_include columns_to_keep
                                             three_countries)) m i
                   = if mem_string m filled_columns
                     then option_map (fill_cell (S754_zero false))
                                     (cell_at three_countries m j)
                     else cell_at three_countries m j)
      /\ Permutation
           (index (the_table (clean countries_to_include columns_to_keep
                                    three_countries)))
           (whitelisted_labels countries_to_include three_countries
                               ["Kenya"; "France"; "India"])
      /\ NoDup (index (the_table (clean countries_to_include columns_to_keep
                                        three_countries)))
      /\ forall i s,
           cell_at (the_table (clean countries_to_include columns_to_keep
                                     three_countries)) "location" i
           = Some (CStr s) ->
           In s countries_to_include).
Proof.
  assert (Hwf : well_formed three_countries = true) by reflexivity.
  assert (Hl : lookup "location" (columns three_countries)
               = Some (ObjectCol ["Kenya"; "France"; "India"])) by reflexivity.
  assert (H : clean countries_to_include columns_to_keep three_countries
              = Ok (the_table (clean countries_to_include columns_to_keep
                                     three_countries))) by reflexivity.
  split; [reflexivity |]. split; [reflexivity |]. split; [reflexivity |].
  split; [reflexivity |].
  exact (cleaned_rows_are_the_whitelisted_rows countries_to_include
           three_countries ["Kenya"; "France"; "India"] _ Hwf Hl H).
Defined.

(** X3: selecting a list of columns either gives exactly these columns, in
    the order of the list, over the same rows and with the same fields, or
    raises a [KeyError] about a name of the list that is not a column of
    the table; a missing column is never skipped silently. *)
Theorem select_columns_outcomes cols df :
  match select_columns cols df with
  | Ok t =>
      column_names t = cols /\ index t = index df
      /\ (forall m, In m cols -> lookup m (columns df) <> None)
      /\ (forall m i, In m cols -> cell_at t m i = cell_at df m i)
      /\ (forall m, ~ In m cols -> lookup m (columns t) = None)
  | Raise e =>
      exists m, e = KeyError m /\ In m cols /\ lookup m (columns df) = None
  end.
Proof.
  pose proof (mapM_getitem_outcome df cols) as O.
  unfold select_columns, getitem_list.
  destruct (mapM (fun n => c <- getitem df n ;; Ok (n, c)) cols) as [cs | e] eqn:E;
    simpl.
  - destruct (mapM_getitem _ _ _ E) as [Hn Hf].
    assert (L : forall m, lookup m cs
                          = if mem_string m cols then lookup m (columns df) else None).
    { intros m. rewrite <- Hn. apply lookup_selected. assumption. }
    repeat split; auto.
    + intros m i Hm. unfold cell_at. simpl. rewrite L.
      apply mem_string_In in Hm. rewrite Hm. reflexivity.
    + intros m Hm. rewrite L. destruct (mem_string m cols) eqn:M; [| reflexivity].
      apply mem_string_In in M. contradiction.
  - destruct O as (pre & m & post & -> & -> & Hm & _).
    exists m. repeat split; [| assumption].
    apply in_or_app. right. left. reflexivity.
Qed.

(** ** The latest snapshot and the country slices *)





(** X6: when no entity has two rows with the same date, the latest
    snapshot has at most one row per entity. *)
Theorem snapshot_has_one_row_per_entity df locs dates t :
  lookup "location" (columns df) = Some (ObjectCol locs) ->
  lookup "date" (columns df) = Some (DatetimeCol dates) ->
  distinct_keys (combine locs dates) = true ->
  latest_snapshot df = Ok t ->
  exists locs',
    lookup "location" (columns t) = Some (ObjectCol locs') /\ NoDup locs'.
Proof.
  intros Hl Hd Hk Ht. unfold latest_snapshot, getitem in Ht. rewrite Hd in Ht.
  simpl in Ht. injection Ht as <-.
  rewrite lookup_boolean_indexing, Hl. simpl. eexists. split; [reflexivity |].
  destruct (date_max dates) as [ld |]; simpl.
  - rewrite (select_map_filter_gen (fun x => Z.eqb x ld)).
    apply distinct_keys_filter. assumption.
  - clear. revert locs. induction dates as [| d r IH]; intros [| a l]; simpl;
      try constructor. apply IH.
Qed.

Lemma snapshot_has_one_row_per_entity_witness :
  exists locs',
    lookup "location" (columns complete_file_latest) = Some (ObjectCol locs')
    /\ NoDup locs'.
Proof.
  assert (Hl : lookup "location" (columns complete_file_cleaned)
               = Some (ObjectCol ["India"; "India"; "Kenya"; "Kenya"]))
    by reflexivity.
  assert (Hd : lookup "date" (columns complete_file_cleaned)
               = Some (DatetimeCol (map (fun d => days_from_civil 2021 1 d)
                                        [1; 2; 1; 2]))) by reflexivity.
  assert (Hk : distinct_keys
                 (combine ["India"; "India"; "Kenya"; "Kenya"]
                          (map (fun d => days_from_civil 2021 1 d) [1; 2; 1; 2]))
               = true) by reflexivity.
  assert (Ht : latest_snapshot complete_file_cleaned = Ok complete_file_latest)
    by reflexivity.
  exact (snapshot_has_one_row_per_entity complete_file_cleaned _ _
           complete_file_latest Hl Hd Hk Ht).
Defined.

(** ** The insights *)

(** X7: the number of days the insight cell reports for a country is never
    negative: the date of a first case is a date of the table, and the
    latest date is the greatest of them. *)
Theorem days_reporting_never_negative df ld ds :
  latest_date df = Ok (Some ld) ->
  days_reporting ld df = Ok ds ->
  forall e n, In (e, n) ds -> 0 <= n.
Proof.
  unfold latest_date, days_reporting, first_cases. intros Hl H e n Hin.
  inv_bind Hl. inv_bind Hl. injection Hl as Hmax.
  apply getitem_Ok in E. destruct x as [| | dates]; try discriminate.
  injection E0 as <-.
  inv_bind H. injection H as <-.
  inv_bind E0. inv_bind E0. inv_bind E0. inv_bind E0. inv_bind E0. inv_bind E0.
  injection E0 as <-.
  apply getitem_Ok in E5. rewrite lookup_boolean_indexing, E in E5. simpl in E5.
  injection E5 as <-. simpl in E6. injection E6 as <-.
  apply in_map_iff in Hin. destruct Hin as ([e' d] & Heq & Hin).
  simpl in Heq. injection Heq as -> <-.
  apply groupby_min_date_spec in Hin. destruct Hin as (Hg & _).
  apply group_incl, select_incl in Hg.
  pose proof (date_max_spec dates) as S. rewrite Hmax in S.
  destruct S as (_ & Hle). specialize (Hle _ Hg). lia.
Qed.

Lemma days_reporting_never_negative_witness :
  days_reporting (days_from_civil 2021 1 2) complete_file_cleaned
  = Ok [("India", 1); ("Kenya", 0)]
  /\ 0 <= 1.
Proof.
  assert (Hl : latest_date complete_file_cleaned
               = Ok (Some (days_from_civil 2021 1 2))) by reflexivity.
  assert (H : days_reporting (days_from_civil 2021 1 2) complete_file_cleaned
              = Ok [("India", 1); ("Kenya", 0)]) by reflexivity.
  split; [exact H |].
  exact (days_reporting_never_negative complete_file_cleaned _ _ Hl H "India" 1
           (or_introl eq_refl)).
Defined.

(** X8: when several rows share the greatest value, [idxmax] gives the
    first of them in the order of the table: the value it selects is
    strictly greater than every value in an earlier row, and no value of
    the column is greater than it; a missing value counts as the least. *)
Theorem idxmax_selects_the_first_greatest idx l label :
  idxmax idx l = Ok (Some label) ->
  exists p x,
    nth_error idx p = Some label /\ nth_error l p = Some x
    /\ (forall v, In v l -> gt v (fill_neg_inf x) = false)
    /\ forall q v, (q < p)%nat -> nth_error l q = Some v ->
                   gt (fill_neg_inf x) (fill_neg_inf v) = true.
Proof.
  unfold idxmax. intros H. destruct l as [| v0 r]; [discriminate |].
  destruct (nanargmax (v0 :: r)) as [p |] eqn:E; [| discriminate].
  injection H as H.
  destruct (nanargmax_highest _ _ E) as (x & Hx & Hmax & _).
  exists p, x. repeat split; auto.
  intros q v Hq Hv. exact (nanargmax_first _ _ _ E Hx q v Hq Hv).
Qed.

Lemma idxmax_selects_the_first_greatest_witness :
  exists p x,
    nth_error [10; 11; 12; 13]%nat p = Some 11%nat
    /\ nth_error [of_Z 1; of_Z 3; nan; of_Z 3] p = Some x
    /\ (forall v, In v [of_Z 1; of_Z 3; nan; of_Z 3] -> gt v (fill_neg_inf x) = false)
    /\ forall q v, (q < p)%nat ->
                   nth_error [of_Z 1; of_Z 3; nan; of_Z 3] q = Some v ->
                   gt (fill_neg_inf x) (fill_neg_inf v) = true.
Proof.
  assert (H : idxmax [10; 11; 12; 13]%nat [of_Z 1; of_Z 3; nan; of_Z 3]
              = Ok (Some 11%nat)) by reflexivity.
  exact (idxmax_selects_the_first_greatest _ _ _ H).
Defined.

(** X9: the fatality insight on the snapshot of a cleaned table.  The
    missing counts were replaced by zero, so the rate of a row is NaN
    exactly when its two counts are both zero (or both infinite).  The
    lookup of the row with the highest rate therefore raises [KeyError]
    when every row of the snapshot is such a row, raises [ValueError] when
    the table is empty, and otherwise selects a row of the snapshot. *)
Theorem highest_fatality_of_the_snapshot countries raw locs0 df t :
  well_formed raw = true ->
  lookup "location" (columns raw) = Some (ObjectCol locs0) ->
  clean countries columns_to_keep raw = Ok df ->
  latest_snapshot df = Ok t ->
  match highest_fatality t with
  | Ok r =>
      (exists p, (p < nrows t)%nat /\ r = row_at t p)
      /\ exists i deaths cases,
           cell_at t "total_deaths" i = Some (CNum deaths)
           /\ cell_at t "total_cases" i = Some (CNum cases)
           /\ indeterminate deaths cases = false
  | Raise e =>
      (e = ValueError /\ nrows df = 0%nat)
      \/ (e = KeyError "nan" /\ (0 < nrows t)%nat
          /\ forall i deaths cases,
               cell_at t "total_deaths" i = Some (CNum deaths) ->
               cell_at t "total_cases" i = Some (CNum cases) ->
               indeterminate deaths cases = true)
  end.
Proof.
  intros Hwf Hl0 H Ht.
  destruct (snapshot_of_cleaned _ _ _ _ _ Hwf Hl0 H Ht)
    as (Hwt & Hempty & (l & Hl & Hlen) & _ & Hrows).
  pose proof Hwt as Hp. apply well_formed_parts in Hp. destruct Hp as (Hat & _ & Hnd).
  assert (Hrate : forall i x, nth_error l i = Some x ->
            exists deaths cases,
              cell_at t "total_deaths" i = Some (CNum deaths)
              /\ cell_at t "total_cases" i = Some (CNum cases)
              /\ isna x = indeterminate deaths cases).
  { intros i x Hx.
    assert (Hi : (i < nrows t)%nat).
    { rewrite <- Hlen. apply nth_error_Some. congruence. }
    destruct (Hrows i Hi) as (tc & td & C1 & C2 & N1 & N2 & C3).
    apply (float_cell_nth _ _ _ _ _ Hl) in C3. rewrite Hx in C3. injection C3 as ->.
    exists td, tc. split; [assumption |]. split; [assumption |].
    rewrite percent_isna, N1, N2. reflexivity. }
  pose proof (row_of_max_spec "case_fatality_rate" t l Hl Hnd Hlen) as S.
  unfold highest_fatality.
  destruct l as [| x0 r].
  - rewrite S. left. split; [reflexivity |]. apply Hempty. simpl in Hlen. lia.
  - destruct (forallb isna (x0 :: r)) eqn:F.
    + rewrite S. right. split; [reflexivity |].
      split; [simpl in Hlen; lia |].
      intros i deaths cases Cd Cc.
      assert (Hi : (i < nrows t)%nat) by (eapply cell_at_lt; eassumption).
      destruct (nth_error (x0 :: r) i) as [x |] eqn:Ex;
        [| apply nth_error_None in Ex; lia].
      destruct (Hrate i x Ex) as (d' & c' & Cd' & Cc' & E).
      rewrite Cd in Cd'. rewrite Cc in Cc'.
      injection Cd' as <-. injection Cc' as <-. rewrite <- E.
      rewrite forallb_forall in F. apply F. eapply nth_error_In. eassumption.
    + destruct S as (p & x & -> & Hx & _). split.
      * exists p. split; [| reflexivity].
        rewrite <- Hlen. apply nth_error_Some. congruence.
      * assert (Hex : exists y, In y (x0 :: r) /\ isna y = false).
        { clear - F. induction (x0 :: r) as [| a l IH]; [discriminate |].
          simpl in F. destruct (isna a) eqn:Na.
          - destruct (IH F) as (y & Hy & Ny). exists y. split; [right |]; assumption.
          - exists a. split; [left; reflexivity | assumption]. }
        destruct Hex as (y & Hy & Ny). apply In_nth_error in Hy.
        destruct Hy as (i & Hi).
        destruct (Hrate i y Hi) as (d' & c' & Cd' & Cc' & E).
        exists i, d', c'. rewrite <- E. auto.
Qed.

Lemma highest_fatality_of_the_snapshot_witness :
  (KeyError "nan" = ValueError /\ nrows no_counts_on_the_last_day_cleaned = 0%nat)
  \/ (KeyError "nan" = KeyError "nan"
      /\ (0 < nrows no_counts_on_the_last_day_latest)%nat
      /\ forall i deaths cases,
           cell_at no_counts_on_the_last_day_latest "total_deaths" i
           = Some (CNum deaths) ->
           cell_at no_counts_on_the_last_day_latest "total_cases" i
           = Some (CNum cases) ->
           indeterminate deaths cases = true).
Proof.
  assert (Hwf : well_formed no_counts_on_the_last_day = true) by reflexivity.
  assert (Hl : lookup "location" (columns no_counts_on_the_last_day)
               = Some (ObjectCol ["Kenya"; "Kenya"])) by reflexivity.
  assert (H : clean countries_to_include columns_to_keep no_counts_on_the_last_day
              = Ok no_counts_on_the_last_day_cleaned) by reflexivity.
  assert (Ht : latest_snapshot no_counts_on_the_last_day_cleaned
               = Ok no_counts_on_the_last_day_latest) by reflexivity.
  exact (highest_fatality_of_the_snapshot countries_to_include
           no_counts_on_the_last_day _ _ _ Hwf Hl H Ht).
Defined.

(** X10: the insight cell on an empty table.  When the cleaning leaves no
    row (no row of the file is of a country on the whitelist), the latest
    date is NaT and formatting it raises [ValueError]: the cell stops
    before it has printed anything. *)
Theorem insights_on_an_empty_table countries raw locs0 df s :
  well_formed raw = true ->
  lookup "location" (columns raw) = Some (ObjectCol locs0) ->
  clean countries columns_to_keep raw = Ok df ->
  nrows df = 0%nat ->
  var_df s = Some df ->
  cell_insights s = (s, Raise ValueError).
Proof.
  intros Hwf Hl0 H Hn Hs. pose proof (well_formed_aligned _ Hwf) as Ha.
  pose proof (well_formed_aligned _ (clean_well_formed _ _ _ H Hwf)) as Ha'.
  destruct (clean_typed _ _ _ _ _ H Ha Hl0)
    as (locs & dates & tcs & cfr & vr & Hl & Hd & Hc & _).
  destruct (clean_typed_deaths _ _ _ _ H Ha) as (tds & Htd).
  pose proof (aligned_lookup _ _ _ Ha' Hl) as L1.
  pose proof (aligned_lookup _ _ _ Ha' Hd) as L2.
  pose proof (aligned_lookup _ _ _ Ha' Hc) as L3.
  pose proof (aligned_lookup _ _ _ Ha' Htd) as L4.
  rewrite Hn in L1, L2, L3, L4. simpl in L1, L2, L3, L4.
  apply length_zero_iff_nil in L1, L2, L3, L4. subst locs dates tcs tds.
  unfold cell_insights, seq_, get_df, lift. rewrite Hs.
  unfold latest_date, total_cases_world, total_deaths_world, max_per_location_sum,
    getitem.
  rewrite Hl, Hd, Hc, Htd. reflexivity.
Qed.

Lemma insights_on_an_empty_table_witness :
  cell_insights (mkNotebook (Some other_countries_cleaned) None [])
  = (mkNotebook (Some other_countries_cleaned) None [], Raise ValueError).
Proof.
  assert (Hwf : well_formed other_countries = true) by reflexivity.
  assert (Hl : lookup "location" (columns other_countries)
               = Some (ObjectCol ["France"; "Peru"])) by reflexivity.
  assert (H : clean countries_to_include columns_to_keep other_countries
              = Ok other_countries_cleaned) by reflexivity.
  assert (Hn : nrows other_countries_cleaned = 0%nat) by reflexivity.
  exact (insights_on_an_empty_table countries_to_include other_countries _
           other_countries_cleaned
           (mkNotebook (Some other_countries_cleaned) None [])
           Hwf Hl H Hn eq_refl).
Defined.

(** ** The map cell *)

(** X11: the map cell never stops the notebook.  Whatever the plotting
    call does, and also when the snapshot was never computed, the cell
    completes, writes one output (the map or the message of its handler)
    and leaves the two tables as they were. *)
Theorem choropleth_cell_never_raises (px_choropleth : plotting) str s :
  exists o,
    cell_choropleth px_choropleth str s
    = (mkNotebook (var_df s) (var_latest_data s) (stdout s ++ [o]), Ok tt).
Proof.
  unfold cell_choropleth, try_except, seq_, get_latest_data, lift, emit.
  destruct (var_latest_data s) as [t |] eqn:E; simpl.
  - destruct (px_choropleth t "iso_code" "total_cases" "location") as [[] | e];
      simpl; rewrite ?E; eauto.
  - rewrite E. eauto.
Qed.

(** X12: after the cleaning cell the map is never drawn.  The snapshot is
    taken from the cleaned table, which has kept thirteen named columns and
    the two rates, so it has no [iso_code] column; a plotting call that
    refuses a [locations] name that is not a column raises, and the cell
    prints the message of its handler instead of the map. *)
Theorem choropleth_fails_after_cleaning
    (px_choropleth : plotting) str countries raw df t s :
  checks_locations px_choropleth ->
  clean countries columns_to_keep raw = Ok df ->
  latest_snapshot df = Ok t ->
  var_latest_data s = Some t ->
  mem_string "iso_code" (column_names t) = false
  /\ exists e,
       cell_choropleth px_choropleth str s
       = (mkNotebook (var_df s) (Some t)
                     (stdout s ++ [Print (could_not_message (str e))]),
          Ok tt).
Proof.
  intros Hpx H Ht Hs.
  assert (Hiso : mem_string "iso_code" (column_names t) = false).
  { rewrite (latest_snapshot_names _ _ Ht), (clean_names _ _ _ _ H eq_refl eq_refl).
    reflexivity. }
  split; [exact Hiso |].
  destruct (Hpx t "iso_code" "total_cases" "location" Hiso) as (e & He).
  exists e.
  unfold cell_choropleth, try_except, seq_, get_latest_data, lift, emit.
  rewrite Hs, He. simpl. rewrite Hs. reflexivity.
Qed.

Lemma choropleth_fails_after_cleaning_witness :
  mem_string "iso_code" (column_names complete_file_latest) = false
  /\ exists e,
       cell_choropleth choropleth (fun _ : exn => "iso_code")
         (mkNotebook (Some complete_file_cleaned) (Some complete_file_latest) [])
       = (mkNotebook (Some complete_file_cleaned) (Some complete_file_latest)
                     [Print (could_not_message ((fun _ : exn => "iso_code") e))],
          Ok tt).
Proof.
  assert (Hpx : checks_locations choropleth).
  { intros data locations color hover_name Hm. exists ValueError.
    unfold choropleth. cbn [forallb]. rewrite Hm. reflexivity. }
  assert (H : clean countries_to_include columns_to_keep complete_file
              = Ok complete_file_cleaned) by reflexivity.
  assert (Ht : latest_snapshot complete_file_cleaned = Ok complete_file_latest)
    by reflexivity.
  exact (choropleth_fails_after_cleaning choropleth (fun _ : exn => "iso_code")
           countries_to_include complete_file complete_file_cleaned
           complete_file_latest
           (mkNotebook (Some complete_file_cleaned) (Some complete_file_latest) [])
           Hpx H Ht eq_refl).
Defined.

(** ** Running the cleaning cell a second time *)

(** X13: the cleaning cell can be run again on its own result.  On the
    cleaned table the dates are already timestamps, every row passes the
    whitelist, the projection drops the two rates, nothing is left to
    fill, the rates are derived again from the same counts and the rows
    are already in order: the second run completes and gives the same
    table, labels, columns and fields. *)
Theorem cleaning_again_changes_nothing countries raw locs0 df :
  well_formed raw = true ->
  lookup "location" (columns raw) = Some (ObjectCol locs0) ->
  clean countries columns_to_keep raw = Ok df ->
  clean countries columns_to_keep df = Ok df.
Proof.
  intros Hwf Hl0 H. pose proof (well_formed_aligned _ Hwf) as Ha.
  destruct (clean_inv _ _ _ _ H Ha)
    as (df1 & df2 & df3 & df4 & df5 & E1 & E2 & E3 & E4 & E5 & E6 &
        A1 & A2 & A3 & A4 & A5).
  destruct (clean_typed _ _ _ _ _ H Ha Hl0) as (locs & dates & tcs & cfr & vr & Hl & Hd & _).
  pose proof (well_formed_aligned _ (clean_well_formed _ _ _ H Hwf)) as Ha'.
  pose proof (clean_sorted _ _ _ _ H Ha) as Hs.
  destruct (handle_missing_spec _ _ E4 A3) as (_ & I4 & _).
  destruct (derive_metrics_spec _ _ E5 A4) as (_ & I5 & _).
  destruct (derive_metrics_lookup _ _ E5 A4) as (L5 & _).
  destruct (sort_values_spec _ _ _ E6) as (keys & _ & Hdf).
  assert (N45 : nrows df5 = nrows df4) by (apply nrows_index; assumption).
  rewrite N45 in Hdf. set (p := argsort keys (nrows df4)) in Hdf.
  assert (Hp : forall j, In j p -> (j < nrows df4)%nat) by (apply argsort_lt).
  assert (N4 : column_names df4 = columns_to_keep).
  { rewrite (handle_missing_names _ _ E4). exact (select_columns_names _ _ _ E3). }
  (* line 55 *)
  assert (S1 : convert_dates df = Ok df).
  { unfold convert_dates, getitem. rewrite Hd. simpl.
    rewrite setitem_same by assumption. reflexivity. }
  (* line 59 *)
  assert (S2 : filter_countries countries df = Ok df).
  { unfold filter_countries, getitem. rewrite Hl. simpl.
    pose proof (aligned_lookup _ _ _ Ha' Hl) as Ll. simpl in Ll.
    rewrite boolean_indexing_all; [reflexivity | assumption | |].
    - rewrite length_map. assumption.
    - intros b Hb. apply in_map_iff in Hb. destruct Hb as (e & <- & He).
      apply In_nth_error in He. destruct He as (i & Hi).
      apply (cleaned_location _ _ _ _ i e H Ha eq_refl).
      unfold cell_at. rewrite Hl. simpl. rewrite Hi. reflexivity. }
  (* line 67 *)
  assert (S3 : select_columns columns_to_keep df = Ok (reindex p df4)).
  { unfold select_columns, getitem_list.
    assert (Hnames : map fst (columns (reindex p df4)) = columns_to_keep).
    { change (column_names (reindex p df4) = columns_to_keep).
      rewrite reindex_names. exact N4. }
    rewrite <- Hnames at 1. rewrite mapM_getitem_own.
    - simpl. unfold reindex. rewrite Hdf. simpl. rewrite I5. reflexivity.
    - apply Forall_forall. intros [n c] Hin. simpl.
      assert (Hn : In n columns_to_keep).
      { rewrite <- Hnames. apply in_map_iff. exists (n, c). auto. }
      apply lookup_In_distinct in Hin; [| rewrite Hnames; reflexivity].
      rewrite Hdf, lookup_reindex, L5.
      + rewrite lookup_reindex in Hin. exact Hin.
      + intros ->. revert Hn. apply mem_string_In_false. reflexivity.
      + intros ->. revert Hn. apply mem_string_In_false. reflexivity. }
  (* lines 70-73 *)
  assert (S4 : handle_missing (reindex p df4) = Ok (reindex p df4)).
  { apply handle_missing_id. intros n Hn.
    destruct (handle_missing_no_missing _ _ n E4 A3 Hn) as (c & Hc & Nc).
    exists (col_take p c). rewrite lookup_reindex, Hc. split; [reflexivity |].
    apply no_missing_take; [| assumption].
    intros i Hi. rewrite (aligned_lookup _ _ _ A4 Hc). auto. }
  (* lines 76-77 *)
  assert (S5 : derive_metrics (reindex p df4) = Ok df).
  { rewrite Hdf. apply derive_metrics_reindex; assumption. }
  (* line 80 *)
  assert (S6 : sort_values df ["location"; "date"] = Ok df).
  { eapply sort_values_id; eassumption. }
  unfold clean. rewrite S1. cbn [bind]. rewrite S2. cbn [bind].
  rewrite S3. cbn [bind]. rewrite S4. cbn [bind]. rewrite S5. cbn [bind].
  exact S6.
Qed.

Lemma cleaning_again_changes_nothing_witness :
  clean countries_to_include columns_to_keep complete_file_cleaned
  = Ok complete_file_cleaned.
Proof.
  assert (Hwf : well_formed complete_file = true) by reflexivity.
  assert (Hl : lookup "location" (columns complete_file)
               = Some (ObjectCol ["Kenya"; "Kenya"; "India"; "India"]))
    by reflexivity.
  assert (H : clean countries_to_include columns_to_keep complete_file
              = Ok complete_file_cleaned) by reflexivity.
  exact (cleaning_again_changes_nothing countries_to_include complete_file _
           complete_file_cleaned Hwf Hl H).
Defined.

(** ** The cells, one after the other *)

(** The bounds of [datetime64[ns]]: the last day the conversion of line 55
    accepts is 2262-04-11 and the first is 1677-09-22; a date spelled
    correctly but outside them raises. *)
Example dates_outside_the_bounds_are_refused :
  days_from_civil 2262 4 11 = 106751
  /\ days_from_civil 1677 9 22 = -106751
  /\ to_datetime (ObjectCol ["2262-04-11"; "1677-09-22"])
     = Ok (DatetimeCol [106751; -106751])
  /\ to_datetime (ObjectCol ["2262-04-12"]) = Raise ValueError
  /\ to_datetime (ObjectCol ["1677-09-21"]) = Raise ValueError
  /\ is_iso_date "2262-04-12" = false.
Proof. repeat split; vm_compute; reflexivity. Qed.

(** X14: on a file that has the thirteen listed columns, dates spelled
    [YYYY-MM-DD] that lie within the bounds of [datetime64[ns]], and
    numbers in the four columns the rates read, the cleaning cell always
    completes.  It binds the cleaned table and prints its shape: as many
    rows as the file has rows of whitelisted countries, and fifteen
    columns. *)
Theorem cleaning_cell_on_a_typed_file raw locs s :
  owid_typed raw = true ->
  well_formed raw = true ->
  lookup "location" (columns raw) = Some (ObjectCol locs) ->
  var_df s = Some raw ->
  exists df,
    clean countries_to_include columns_to_keep raw = Ok df
    /\ cell_clean s
       = (mkNotebook (Some df) (var_latest_data s)
            (stdout s
             ++ [PrintShape
                   (List.length
                      (filter (fun l => mem_string l countries_to_include) locs))
                   15]),
          Ok tt).
Proof.
  intros Ht Hwf Hl Hs. pose proof (well_formed_aligned _ Hwf) as Ha.
  destruct (clean_completes countries_to_include raw Ht) as (df & H).
  exists df. split; [assumption |].
  unfold cell_clean, seq_, get_df, lift, set_df, emit. rewrite Hs, H. simpl.
  rewrite (clean_nrows _ _ _ _ _ H Ha Hl).
  replace (List.length (columns df)) with 15%nat; [reflexivity |].
  rewrite <- (length_map fst). change (map fst (columns df)) with (column_names df).
  rewrite (clean_names _ _ _ _ H eq_refl eq_refl). reflexivity.
Qed.

Lemma cleaning_cell_on_a_typed_file_witness :
  exists df,
    clean countries_to_include columns_to_keep three_countries = Ok df
    /\ cell_clean (mkNotebook (Some three_countries) None [])
       = (mkNotebook (Some df) None
            ([] ++ [PrintShape
                      (List.length
                         (filter (fun l => mem_string l countries_to_include)
                                 ["Kenya"; "France"; "India"]))
                      15]),
          Ok tt).
Proof.
  assert (Ht : owid_typed three_countries = true) by reflexivity.
  assert (Hwf : well_formed three_countries = true) by reflexivity.
  assert (Hl : lookup "location" (columns three_countries)
               = Some (ObjectCol ["Kenya"; "France"; "India"])) by reflexivity.
  exact (cleaning_cell_on_a_typed_file three_countries _
           (mkNotebook (Some three_countries) None []) Ht Hwf Hl eq_refl).
Defined.

(** X15: a run that reaches the end.  Whenever the notebook, started in a
    fresh interpreter on a file, runs to its end, the table it cleaned is
    the cleaning of that file and the snapshot is the latest snapshot of
    that table; these are the two tables left in the interpreter, the ones
    the three charts were drawn from and the ones the export cell wrote.
    The output starts with the load message and the two shapes and ends
    with the exports; everything in between is what the insight cell
    printed. *)
Theorem a_complete_run_exports_what_it_cleaned raw s' :
  notebook_run (Some raw) fresh = (s', Ok tt) ->
  exists df latest_data insights,
    clean countries_to_include columns_to_keep raw = Ok df
    /\ latest_snapshot df = Ok latest_data
    /\ var_df s' = Some df
    /\ var_latest_data s' = Some latest_data
    /\ stdout s'
       = ([Print "Data loaded successfully!";
           PrintShape (nrows raw) (List.length (columns raw));
           PrintShape (nrows df) (List.length (columns df))]
          ++ charts df latest_data ++ insights ++ exported df latest_data)%list.
Proof.
  unfold notebook_run, seq_ at 1. intros H.
  change (cell_load (Some raw) fresh)
    with (mkNotebook (Some raw) None
            [Print "Data loaded successfully!";
             PrintShape (nrows raw) (List.length (columns raw))], Ok tt) in H.
  cbv beta iota in H. unfold seq_ at 1, cell_clean in H.
  unfold seq_ at 1 2 3, get_df, lift, set_df, emit in H. cbn [var_df] in H.
  destruct (clean countries_to_include columns_to_keep raw) as [df | e] eqn:Hc;
    [| discriminate].
  cbn [var_df var_latest_data stdout app] in H.
  unfold seq_ at 1, cell_trends in H.
  unfold seq_ at 1 2, get_df, emit in H.
  cbn [var_df var_latest_data stdout app] in H.
  unfold seq_ at 1, cell_latest in H.
  unfold seq_ at 1 2 3, get_df, lift, set_latest_data, emit in H.
  cbn [var_df var_latest_data stdout app] in H.
  destruct (latest_snapshot df) as [t | e] eqn:Ht; [| discriminate].
  cbn [var_df var_latest_data stdout app] in H.
  unfold seq_ at 1 in H.
  match type of H with
  | context [cell_insights ?s] =>
      pose proof (only_emits_cell_insights s) as (D & L & out & O);
      destruct (cell_insights s) as [s5 [[] | e]]; [| discriminate]
  end.
  simpl in D, L, O.
  unfold cell_export, seq_, get_df, get_latest_data, emit in H.
  rewrite D, L in H. cbn [var_df var_latest_data stdout] in H.
  injection H as <-. exists df, t, out. cbn [var_df var_latest_data stdout].
  split; [reflexivity |]. split; [assumption |]. split; [assumption |].
  split; [reflexivity |].
  rewrite O. unfold charts, exported. rewrite <- !app_assoc. reflexivity.
Qed.

Lemma a_complete_run_exports_what_it_cleaned_witness :
  exists df latest_data insights,
    clean countries_to_include columns_to_keep complete_file = Ok df
    /\ latest_snapshot df = Ok latest_data
    /\ var_df (fst (notebook_run (Some complete_file) fresh)) = Some df
    /\ var_latest_data (fst (notebook_run (Some complete_file) fresh))
       = Some latest_data
    /\ stdout (fst (notebook_run (Some complete_file) fresh))
       = ([Print "Data loaded successfully!";
           PrintShape (nrows complete_file) (List.length (columns complete_file));
           PrintShape (nrows df) (List.length (columns df))]
          ++ charts df latest_data ++ insights ++ exported df latest_data)%list.
Proof.
  assert (H : notebook_run (Some complete_file) fresh
              = (fst (notebook_run (Some complete_file) fresh), Ok tt))
    by (vm_compute; reflexivity).
  exact (a_complete_run_exports_what_it_cleaned complete_file _ H).
Defined.

(** X16: a file that lacks one of the listed columns.  When the dates of
    the file parse and it has a location column, the cleaning stops at the
    projection with a [KeyError] about a listed column the file does not
    have; the statements before the projection do not hide the gap. *)
Theorem cleaning_a_file_without_a_listed_column countries raw dates m :
  lookup "date" (columns raw) = Some (ObjectCol dates) ->
  forallb is_iso_date dates = true ->
  mem_string "location" (column_names raw) = true ->
  In m columns_to_keep ->
  mem_string m (column_names raw) = false ->
  exists m',
    clean countries columns_to_keep raw = Raise (KeyError m')
    /\ In m' columns_to_keep
    /\ mem_string m' (column_names raw) = false.
Proof.
  intros Hd Hiso Hloc Hin Hm.
  destruct (mapM_parse_total _ Hiso) as (dl & Hdl).
  unfold clean.
  assert (E1 : convert_dates raw = Ok (setitem raw "date" (DatetimeCol dl))).
  { unfold convert_dates, getitem. rewrite Hd. simpl. rewrite Hdl. reflexivity. }
  rewrite E1. cbn [bind]. set (df1 := setitem raw "date" (DatetimeCol dl)).
  assert (N1 : column_names df1 = column_names raw).
  { unfold df1, setitem, column_names. simpl. eapply names_replace. eassumption. }
  rewrite <- N1 in Hloc. destruct (lookup_mem _ _ Hloc) as (cl & Ecl).
  unfold filter_countries, getitem. rewrite Ecl. cbn [bind].
  set (df2 := boolean_indexing df1 (isin cl countries)).
  assert (N2 : column_names df2 = column_names raw).
  { rewrite <- N1. apply names_boolean_indexing. }
  unfold select_columns, getitem_list.
  pose proof (mapM_getitem_outcome df2 columns_to_keep) as O.
  destruct (mapM (fun n => c <- getitem df2 n ;; Ok (n, c)) columns_to_keep)
    as [cs | e].
  - exfalso. apply (O m Hin). apply lookup_None_mem.
    change (map fst (columns df2)) with (column_names df2). rewrite N2. exact Hm.
  - destruct O as (pre & m' & post & Hcols & -> & Hm' & _).
    exists m'. split; [reflexivity |]. split.
    + rewrite Hcols. apply in_or_app. right. left. reflexivity.
    + rewrite <- N2. apply lookup_None_mem. exact Hm'.
Qed.

Lemma cleaning_a_file_without_a_listed_column_witness :
  exists m',
    clean countries_to_include columns_to_keep without_gdp = Raise (KeyError m')
    /\ In m' columns_to_keep
    /\ mem_string m' (column_names without_gdp) = false.
Proof.
  assert (Hd : lookup "date" (columns without_gdp)
               = Some (ObjectCol ["2021-01-01"; "2021-01-01"; "2021-01-01"]))
    by reflexivity.
  assert (Hiso : forallb is_iso_date ["2021-01-01"; "2021-01-01"; "2021-01-01"]
                 = true) by reflexivity.
  assert (Hloc : mem_string "location" (column_names without_gdp) = true)
    by reflexivity.
  assert (Hin : In "gdp_per_capita" columns_to_keep) by (simpl; tauto).
  assert (Hm : mem_string "gdp_per_capita" (column_names without_gdp) = false)
    by reflexivity.
  exact (cleaning_a_file_without_a_listed_column countries_to_include without_gdp
           _ "gdp_per_capita" Hd Hiso Hloc Hin Hm).
Defined.

(** ** A complete run *)

(** On [complete_file] the notebook runs to its end: Kenya has the highest
    vaccination rate (25.0) and the highest fatality rate (2.0); Kenya has
    reported cases for 0 days and India for 1. *)
Example notebook_run_complete_file :
  snd (notebook_run (Some complete_file) fresh) = Ok tt
  /\ printed (fst (notebook_run (Some complete_file) fresh))
     = [Print "Data loaded successfully!"; PrintShape 4 14; PrintShape 4 15;
        PrintKeyInsights (days_from_civil 2021 1 2);
        PrintTotalCases (truediv (of_Z 200) (of_Z 1000000));
        PrintTotalDeaths (truediv (of_Z 3) (of_Z 1000));
        PrintHighestVaccination (CStr "Kenya") (CNum (of_Z 25));
        PrintHighestFatality (CStr "Kenya") (CNum (of_Z 2));
        PrintDaysReporting "India" 1; PrintDaysReporting "Kenya" 0;
        Print "Analysis complete! Data exports saved to data/ directory."].
Proof. split; vm_compute; reflexivity. Qed.
